(** * TEPS: tool-engagement based phase segmentation

    A shallow embedding of [algo/teps.py] (class [TEPS]) and the
    properties of its classifier, cluster tracker, learning-rate
    schedule and phase state machine.

    Modelling conventions.
    - Python numbers (floats and the ints mixed with them) are exact
      rationals [Q]; rounding and non-finite values are outside the model.
      The feed that the driver of [example.py] reads from its data file
      is only ever compared with constants: it is a [Float.t], which may
      be an infinity or NaN.
      Python ints that are only counted or compared ([start_index],
      [ignore_start], [hist_size], phase labels, predictions) are [Z].
    - A method of [TEPS] is a computation in a state-and-exception monad
      over the object's fields: [self -> result (value * self)].
    - An exception ends the computation; the fields of the object at the
      time of the exception are not part of an exceptional outcome.
    - [None] is [Datatypes.None] of an [option]. *)

From Stdlib Require Import String ZArith QArith Qabs List Bool Lia Lqa.
Import ListNotations.

Local Open Scope Z_scope.

(** ** Python outcomes *)

Inductive exn : Type :=
| ZeroDivisionError
| TypeError
| ValueError
| IndexError.

Inductive result (A : Type) : Type :=
| Ok (v : A)
| Raise (e : exn).

Arguments Ok {A} v.
Arguments Raise {A} e.

(** ** The method monad *)

Section MethodMonad.
Variable S : Type.

Definition M (A : Type) : Type := S -> result (A * S).

Definition ret {A} (v : A) : M A := fun s => Ok (v, s).

Definition bind {A B} (m : M A) (k : A -> M B) : M B :=
  fun s => match m s with
           | Ok (v, s') => k v s'
           | Raise e => Raise e
           end.

Definition raise {A} (e : exn) : M A := fun _ => Raise e.

Definition get : M S := fun s => Ok (s, s).

Definition modify (f : S -> S) : M unit := fun s => Ok (tt, f s).
End MethodMonad.

Arguments ret {S A} v.
Arguments bind {S A B} m k.
Arguments raise {S A} e.
Arguments get {S}.
Arguments modify {S} f.

Declare Scope py_scope.
Delimit Scope py_scope with py.

Notation "x <- m ;; k" := (bind m (fun x => k))
  (at level 100, m at next level, right associativity) : py_scope.
Notation "' p <- m ;; k" := (bind m (fun v => match v with p => k end))
  (at level 100, p pattern, m at next level, right associativity) : py_scope.
Notation "m ;;; k" := (bind m (fun _ => k))
  (at level 100, right associativity) : py_scope.

(** ** Python arithmetic on rationals *)

(** [x < y] and [x > y] on numbers. *)
Definition Qltb (x y : Q) : bool := negb (Qle_bool y x).
Definition Qgtb (x y : Q) : bool := Qltb y x.

(** [x / y]: true division raises on a zero divisor. *)
Definition truediv {S} (x y : Q) : M S Q :=
  if Qeq_bool y 0 then raise ZeroDivisionError else ret (x / y)%Q.

(** [x - y] where [x] may be [None]. *)
Definition sub_from {S} (x : option Q) (y : Q) : M S Q :=
  match x with
  | Some v => ret (v - y)%Q
  | None => raise TypeError
  end.

(** A number is required where [x] may be [None]. *)
Definition number {S} (x : option Q) : M S Q :=
  match x with
  | Some v => ret v
  | None => raise TypeError
  end.

(** [min(l)], [max(l)] and [sum(l)] of the builtins, on a list [x :: r]:
    [min] and [max] keep the first of several extremal items. *)
Definition py_min (x : Q) (r : list Q) : Q :=
  fold_left (fun m y => if Qltb y m then y else m) r x.

Definition py_max (x : Q) (r : list Q) : Q :=
  fold_left (fun m y => if Qgtb y m then y else m) r x.

Definition py_sum (l : list Q) : Q := fold_left Qplus l 0%Q.

(** ** [collections.deque] with a [maxlen] *)

Module Deque.
Record t : Type := mk { items : list Q; maxlen : Z }.

(** [deque(maxlen=n)]: a negative [maxlen] is a [ValueError]. *)
Definition new (n : Z) : result t :=
  if n <? 0 then Raise ValueError else Ok (mk [] n).

Definition len (d : t) : Z := Z.of_nat (length (items d)).

(** [d.append(x)]: the item goes to the right end, and the leftmost
    item is dropped when the deque has grown past [maxlen]. *)
Definition append (d : t) (x : Q) : t :=
  let l := (items d ++ [x])%list in
  if Z.of_nat (length l) >? maxlen d then mk (tl l) (maxlen d)
  else mk l (maxlen d).
End Deque.

(** ** Clusters *)

Module Cluster.
(** The dict built in [__init__] for each of the two clusters. *)
Record t : Type := mk {
  min : Q;
  max : Q;
  mean : Q;
  count : Z;
  sum : Z;
  ready : bool
}.

Definition set_mean (c : t) (v : Q) : t :=
  mk (min c) (max c) v (count c) (sum c) (ready c).
Definition set_min (c : t) (v : Q) : t :=
  mk v (max c) (mean c) (count c) (sum c) (ready c).
Definition set_max (c : t) (v : Q) : t :=
  mk (min c) v (mean c) (count c) (sum c) (ready c).
Definition set_ready (c : t) (b : bool) : t :=
  mk (min c) (max c) (mean c) (count c) (sum c) b.
End Cluster.

(** The dict objects a method can hold: one of the two dicts stored in
    [self], or the dict literal [{'mean': _, 'max': _, 'min': _}] that
    [get_drill_or_clipped_cluster] builds. *)
Inductive stored : Type := AirCluster | DrillCluster.

Inductive cluster_obj : Type :=
| Stored (h : stored)
| Literal (mean max min : Q).

(** ** The class [TEPS] *)

Module TEPS.
(** The attributes [__init__] gives the object. *)
Record t : Type := mk {
  air_cluster : Cluster.t;
  drill_cluster : Cluster.t;
  a_init : Q;
  a_min : Q;
  a : Q;
  decay_factor : Q;
  start_index : Z;
  ignore_start : Z;
  init_mode : string;
  min_distance_threshold : Q;
  hist_size : Z;
  x_hist : Deque.t;
  weights : Q * Q * Q;
  factor : Q
}.

(** Attribute and item assignment. *)
Definition set_air_cluster (s : t) (c : Cluster.t) : t :=
  mk c (drill_cluster s) (a_init s) (a_min s) (a s) (decay_factor s)
     (start_index s) (ignore_start s) (init_mode s)
     (min_distance_threshold s) (hist_size s) (x_hist s) (weights s)
     (factor s).
Definition set_drill_cluster (s : t) (c : Cluster.t) : t :=
  mk (air_cluster s) c (a_init s) (a_min s) (a s) (decay_factor s)
     (start_index s) (ignore_start s) (init_mode s)
     (min_distance_threshold s) (hist_size s) (x_hist s) (weights s)
     (factor s).
Definition set_a (s : t) (v : Q) : t :=
  mk (air_cluster s) (drill_cluster s) (a_init s) (a_min s) v
     (decay_factor s) (start_index s) (ignore_start s) (init_mode s)
     (min_distance_threshold s) (hist_size s) (x_hist s) (weights s)
     (factor s).
Definition set_start_index (s : t) (v : Z) : t :=
  mk (air_cluster s) (drill_cluster s) (a_init s) (a_min s) (a s)
     (decay_factor s) v (ignore_start s) (init_mode s)
     (min_distance_threshold s) (hist_size s) (x_hist s) (weights s)
     (factor s).
Definition set_x_hist (s : t) (d : Deque.t) : t :=
  mk (air_cluster s) (drill_cluster s) (a_init s) (a_min s) (a s)
     (decay_factor s) (start_index s) (ignore_start s) (init_mode s)
     (min_distance_threshold s) (hist_size s) d (weights s) (factor s).

(** The dict behind one of the two stored references. *)
Definition deref (s : t) (h : stored) : Cluster.t :=
  match h with
  | AirCluster => air_cluster s
  | DrillCluster => drill_cluster s
  end.

Definition assign (h : stored) (f : Cluster.t -> Q -> Cluster.t) (v : Q)
  : M t unit :=
  modify (fun s =>
    match h with
    | AirCluster => set_air_cluster s (f (air_cluster s) v)
    | DrillCluster => set_drill_cluster s (f (drill_cluster s) v)
    end).

(** [cluster['mean']], [cluster['min']], [cluster['max']]. *)
Definition item_mean (s : t) (c : cluster_obj) : Q :=
  match c with
  | Stored h => Cluster.mean (deref s h)
  | Literal m _ _ => m
  end.
Definition item_min (s : t) (c : cluster_obj) : Q :=
  match c with
  | Stored h => Cluster.min (deref s h)
  | Literal _ _ m => m
  end.
Definition item_max (s : t) (c : cluster_obj) : Q :=
  match c with
  | Stored h => Cluster.max (deref s h)
  | Literal _ m _ => m
  end.

Local Open Scope py_scope.

(** [TEPS(...)], the arguments in the order of the signature. *)
Definition __init__
  (start_mean_air start_mean_drill : Q * Q * Q) (ignore_start : Z)
  (init_mode : string) (min_distance_threshold : Q) (hist_size : Z)
  (weights : Q * Q * Q) (factor a_init a_min decay_factor : Q)
  : result t :=
  let '(air0, air1, air2) := start_mean_air in
  let '(drill0, drill1, drill2) := start_mean_drill in
  match Deque.new hist_size with
  | Raise e => Raise e
  | Ok x_hist =>
      Ok (mk (Cluster.mk air0 air1 air2 0 0 false)
             (Cluster.mk drill0 drill1 drill2 0 0 false)
             a_init a_min a_init decay_factor
             0 ignore_start init_mode min_distance_threshold hist_size
             x_hist weights factor)
  end.

(** The defaults of the signature. *)
Definition default_start_mean_air : Q * Q * Q := (0, 0, 0)%Q.
Definition default_start_mean_drill : Q * Q * Q :=
  (- (3 # 2), - (3 # 2), - (3 # 2))%Q.
Definition default_ignore_start : Z := 30.
Definition default_init_mode : string := "fixed".
Definition default_min_distance_threshold : Q := (1 # 10)%Q.
Definition default_hist_size : Z := 20.
Definition default_weights : Q * Q * Q := (1, 1, 1)%Q.
Definition default_factor : Q := 1%Q.
Definition default_a_init : Q := (1 # 100)%Q.
Definition default_a_min : Q := (1 # 1000)%Q.
Definition default_decay_factor : Q := (9995 # 10000)%Q.

Definition update_step_size : M t unit :=
  self <- get ;;
  if Qgtb (a self) (a_min self) then
    modify (fun s => set_a s (a s * decay_factor s)%Q) ;;;
    self <- get ;;
    if Qltb (a self) (a_min self) then
      modify (fun s => set_a s (a_min s))
    else ret tt
  else ret tt.

(** [compute_rolling_stats]: [(None, None, None)] on an empty window. *)
Definition compute_rolling_stats
  : M t (option Q * option Q * option Q) :=
  self <- get ;;
  match Deque.items (x_hist self) with
  | [] => ret (None, None, None)
  | x :: r =>
      ret (Some (py_min x r), Some (py_max x r),
           Some (py_sum (x :: r) / inject_Z (Deque.len (x_hist self)))%Q)
  end.

Definition compute_cluster_distance
  (cluster : cluster_obj) (x_min x_max x_mean : option Q) : M t Q :=
  self <- get ;;
  let '(w1, w2, w3) := weights self in
  d_mean <- sub_from x_mean (item_mean self cluster) ;;
  let mean_dist := Qabs d_mean in
  d_min <- sub_from x_min (item_min self cluster) ;;
  let min_dist := Qabs d_min in
  d_max <- sub_from x_max (item_max self cluster) ;;
  let max_dist := Qabs d_max in
  truediv (w1 * mean_dist + w2 * min_dist + w3 * max_dist)%Q
          (w1 + w2 + w3)%Q.

Definition get_drill_or_clipped_cluster : M t cluster_obj :=
  self <- get ;;
  let air := air_cluster self in
  let drill := drill_cluster self in
  let shift := (2 * Qabs (Cluster.min air - Cluster.max air))%Q in
  let clipped_mean := (Cluster.mean air + factor self * shift)%Q in
  let clipped_max := (Cluster.max air + factor self * shift)%Q in
  let clipped_min := (Cluster.min air + factor self * shift)%Q in
  if Qltb (Qabs (clipped_min - Cluster.min air))
          (Qabs (clipped_min - Cluster.min drill))
     && Qltb (Qabs (clipped_max - Cluster.max air))
             (Qabs (clipped_max - Cluster.max drill))
  then ret (Literal clipped_mean clipped_max clipped_min)
  else ret (Stored DrillCluster).

(** [predict]: the two distances are computed before the test on
    [init_mode]. *)
Definition predict : M t Z :=
  self <- get ;;
  if Deque.len (x_hist self) <? hist_size self then ret 0
  else
    ' (x_min, x_max, x_mean) <- compute_rolling_stats ;;
    air_dist <-
      compute_cluster_distance (Stored AirCluster) x_min x_max x_mean ;;
    drill_cluster <- get_drill_or_clipped_cluster ;;
    drill_dist <-
      compute_cluster_distance drill_cluster x_min x_max x_mean ;;
    self <- get ;;
    if String.eqb (init_mode self) "min_distance"
       && Qltb (Qabs (Cluster.mean (TEPS.drill_cluster self)
                      - Cluster.mean (air_cluster self)))
               (min_distance_threshold self)
    then ret 0
    else ret (if Qgtb drill_dist air_dist then 0 else 1).

(** [update].  The window statistics are [None] on an empty window; the
    first arithmetic on them raises [TypeError], in the seeding branch
    the sum [x_mean + ...] that follows the assignments to the air
    cluster, which is where [number] stands for them. *)
Definition update : M t unit :=
  self <- get ;;
  if Deque.len (x_hist self) <? hist_size self then ret tt
  else
    ' (x_min, x_max, x_mean) <- compute_rolling_stats ;;
    self <- get ;;
    if String.eqb (init_mode self) "min_distance"
       && negb (Cluster.ready (air_cluster self))
    then
      v_mean <- number x_mean ;;
      v_min <- number x_min ;;
      v_max <- number x_max ;;
      assign AirCluster Cluster.set_mean v_mean ;;;
      assign AirCluster Cluster.set_min v_min ;;;
      assign AirCluster Cluster.set_max v_max ;;;
      modify (fun s =>
        set_air_cluster s (Cluster.set_ready (air_cluster s) true)) ;;;
      self <- get ;;
      let offset :=
        (factor self * Qabs (min_distance_threshold self / 2))%Q in
      assign DrillCluster Cluster.set_mean (v_mean + offset)%Q ;;;
      assign DrillCluster Cluster.set_min (v_min + offset)%Q ;;;
      assign DrillCluster Cluster.set_max (v_max + offset)%Q
    else
      air_dist <-
        compute_cluster_distance (Stored AirCluster) x_min x_max x_mean ;;
      drill_dist <-
        compute_cluster_distance (Stored DrillCluster) x_min x_max x_mean ;;
      let clstr :=
        if Qle_bool air_dist drill_dist then AirCluster
        else DrillCluster in
      v_mean <- number x_mean ;;
      v_min <- number x_min ;;
      v_max <- number x_max ;;
      self <- get ;;
      assign clstr Cluster.set_mean
        ((1 - a self) * Cluster.mean (deref self clstr)
         + a self * v_mean)%Q ;;;
      self <- get ;;
      assign clstr Cluster.set_min
        ((1 - a self) * Cluster.min (deref self clstr)
         + a self * v_min)%Q ;;;
      self <- get ;;
      assign clstr Cluster.set_max
        ((1 - a self) * Cluster.max (deref self clstr)
         + a self * v_max)%Q.

(** [process_sample(x)], returning [(p, (mean_air, mean_drill))]. *)
Definition process_sample (x : Q) : M t (Z * (Q * Q)) :=
  self <- get ;;
  (if ignore_start self >? start_index self then
     modify (fun s => set_start_index s (start_index s + 1))
   else
     modify (fun s => set_x_hist s (Deque.append (x_hist s) x)) ;;;
     update ;;;
     update_step_size) ;;;
  p <- predict ;;
  self <- get ;;
  ret (p, (Cluster.mean (air_cluster self),
           Cluster.mean (drill_cluster self))).

(** [get_phase_label]: the value is [None] when no [return] is reached. *)
Definition get_phase_label (last_state treshold : Z) (feed : Q)
  : M t (option Z) :=
  if Qgtb (Qabs feed) 1000 then ret (Some 0)
  else if last_state =? 0 then
    if (treshold =? 1) && Qltb feed 0 then ret (Some 2)
    else if treshold =? 1 then ret (Some 4)
    else if Qle_bool 0 feed then ret (Some 5)
    else ret (Some 1)
  else if last_state =? 1 then
    if (treshold <? 1) && Qltb feed 0 then ret (Some 1)
    else if (treshold <? 1) && Qle_bool 0 feed then ret (Some 5)
    else ret (Some 2)
  else if (last_state =? 2) || (last_state =? 3) then
    if (treshold =? 1) && Qltb feed 0 then ret (Some 2)
    else if (treshold <? 1) && Qltb feed 0 then ret (Some 3)
    else if Qle_bool 0 feed && (treshold =? 1) then ret (Some 4)
    else ret (Some 5)
  else if (last_state =? 4) || (last_state =? 5) then
    if Qle_bool 0 feed && (treshold <? 1) then ret (Some 5)
    else if Qle_bool 0 feed && (treshold =? 1) then ret (Some 4)
    else ret (Some 1)
  else ret None.
End TEPS.

(** ** Floats that are only compared *)

Module Float.
(** A float of which the code only takes [abs] and asks how it compares
    with a constant: a finite float, which is a rational, an infinity,
    or NaN. *)
Inductive t : Type :=
| Num (q : Q)
| Inf (negative : bool)
| NaN.

(** [abs(x)]. *)
Definition abs (x : t) : t :=
  match x with
  | Num q => Num (Qabs q)
  | Inf _ => Inf false
  | NaN => NaN
  end.

(** [x > c], [x < c] and [x >= c] for a finite number [c]: every
    comparison with NaN is false. *)
Definition gtb (x : t) (c : Q) : bool :=
  match x with
  | Num q => Qgtb q c
  | Inf negative => negb negative
  | NaN => false
  end.

Definition ltb (x : t) (c : Q) : bool :=
  match x with
  | Num q => Qltb q c
  | Inf negative => negative
  | NaN => false
  end.

Definition geb (x : t) (c : Q) : bool :=
  match x with
  | Num q => Qle_bool c q
  | Inf negative => negb negative
  | NaN => false
  end.
End Float.

(** ** [get_phase_label] on a feed that may not be finite *)

Module FloatFeed.
Local Open Scope py_scope.

(** [TEPS.get_phase_label] with the feed as a float: the same tests in
    the same order, each of them false on a NaN feed. *)
Definition get_phase_label (last_state treshold : Z) (feed : Float.t)
  : M TEPS.t (option Z) :=
  if Float.gtb (Float.abs feed) 1000 then ret (Some 0)
  else if last_state =? 0 then
    if (treshold =? 1) && Float.ltb feed 0 then ret (Some 2)
    else if treshold =? 1 then ret (Some 4)
    else if Float.geb feed 0 then ret (Some 5)
    else ret (Some 1)
  else if last_state =? 1 then
    if (treshold <? 1) && Float.ltb feed 0 then ret (Some 1)
    else if (treshold <? 1) && Float.geb feed 0 then ret (Some 5)
    else ret (Some 2)
  else if (last_state =? 2) || (last_state =? 3) then
    if (treshold =? 1) && Float.ltb feed 0 then ret (Some 2)
    else if (treshold <? 1) && Float.ltb feed 0 then ret (Some 3)
    else if Float.geb feed 0 && (treshold =? 1) then ret (Some 4)
    else ret (Some 5)
  else if (last_state =? 4) || (last_state =? 5) then
    if Float.geb feed 0 && (treshold <? 1) then ret (Some 5)
    else if Float.geb feed 0 && (treshold =? 1) then ret (Some 4)
    else ret (Some 1)
  else ret None.
End FloatFeed.

(** ** Runs: a stream of samples fed one at a time *)

Local Open Scope py_scope.

(** The outputs of [process_sample] over the samples [xs], in order. *)
Fixpoint feed (xs : list Q) : M TEPS.t (list (Z * (Q * Q))) :=
  match xs with
  | [] => ret []
  | x :: r =>
      o <- TEPS.process_sample x ;;
      os <- feed r ;;
      ret (o :: os)
  end.

(** The object before the first call and after each call that returns. *)
Fixpoint states (s : TEPS.t) (xs : list Q) : list TEPS.t :=
  s :: match xs with
       | [] => []
       | x :: r =>
           match TEPS.process_sample x s with
           | Ok (_, s') => states s' r
           | Raise _ => []
           end
       end.

Local Close Scope py_scope.

(** ** The driver of [example.py] *)

Module Example.
(** The globals of the module: the classifier [teps], the rows of the
    data file [data_] (torque in column 0, feed in column 1, the feed
    being a float that may not be finite), the position [index] in them,
    which starts at 0 and only counts up, and [last_phase], which holds
    what [get_phase_label] returned last. *)
Record t : Type := mk {
  teps : TEPS.t;
  data_ : list (Q * Float.t);
  index : nat;
  last_phase : option Z
}.

(** [data = data_[:, 0]]. *)
Definition data (g : t) : list Q := map fst (data_ g).

Definition set_teps (g : t) (s : TEPS.t) : t :=
  mk s (data_ g) (index g) (last_phase g).
Definition set_index (g : t) (i : nat) : t :=
  mk (teps g) (data_ g) i (last_phase g).
Definition set_last_phase (g : t) (p : option Z) : t :=
  mk (teps g) (data_ g) (index g) p.

(** A method of [teps] called from the module. *)
Definition on_teps {A} (m : M TEPS.t A) : M t A :=
  fun g =>
    match m (teps g) with
    | Ok (v, s) => Ok (v, set_teps g s)
    | Raise e => Raise e
    end.

(** [teps.get_phase_label(last_phase, TE, feed)]: a [last_phase] that is
    [None] passes the test [not last_state] as 0 does. *)
Definition get_phase_label (last_phase : option Z) (TE : Z)
  (feed : Float.t) : M TEPS.t (option Z) :=
  FloatFeed.get_phase_label
    (match last_phase with Some l => l | None => 0 end) TE feed.

Local Open Scope py_scope.

(** The module's [teps] and the initial globals, for the data rows
    [rows] of the file.  [np.genfromtxt] gives a two-dimensional array
    only for two rows or more: with one row or none the array has one
    dimension and [data_[:, 0]] raises [IndexError], before the
    classifier is constructed. *)
Definition start (rows : list (Q * Float.t)) : result t :=
  if (length rows <? 2)%nat then Raise IndexError
  else
    match TEPS.__init__ TEPS.default_start_mean_air
                        TEPS.default_start_mean_drill
                        TEPS.default_ignore_start "min_distance"
                        (15 # 100) 20 TEPS.default_weights 1
                        TEPS.default_a_init TEPS.default_a_min
                        TEPS.default_decay_factor with
    | Ok s => Ok (mk s rows 0 (Some 0))
    | Raise e => Raise e
    end.

Definition get_next_sample : M t (option (Q * option Z)) :=
  g <- get ;;
  if (length (data g) <=? index g)%nat then ret None
  else
    let value := nth (index g) (data g) 0%Q in
    r <- on_teps (TEPS.process_sample value) ;;
    let TE := fst r in
    g <- get ;;
    phase <- on_teps
               (get_phase_label (last_phase g) TE
                  (snd (nth (index g) (data_ g) (0%Q, Float.Num 0)))) ;;
    modify (fun g => set_last_phase g phase) ;;;
    modify (fun g => set_index g (S (index g))) ;;;
    ret (Some (value, phase)).

(** [n] calls in a row, as the animation makes them. *)
Fixpoint poll (n : nat) : M t (list (option (Q * option Z))) :=
  match n with
  | O => ret []
  | S n' =>
      r <- get_next_sample ;;
      rs <- poll n' ;;
      ret (r :: rs)
  end.
End Example.

(** ** The frame callback of [utils/animation.py] *)

Module Animation.
(** The dict [phase_colors]. *)
Definition phase_colors : list (Z * string) :=
  [(0, "#3b3b3b"); (1, "#00A67C"); (2, "#0076CC"); (3, "#E51C44");
   (4, "#F9B32F"); (5, "#000000")]%string.

(** [phase_colors.get(p, "#000000")], for a phase that may be [None]. *)
Definition color_of (p : option Z) : string :=
  match p with
  | None => "#000000"
  | Some k =>
      match find (fun e => fst e =? k) phase_colors with
      | Some e => snd e
      | None => "#000000"
      end
  end.

(** What [run_teps_animation] and its closure [update] hold: the
    driver behind [get_next_sample] (the one [example.py] passes), the
    lists [xdata] and [ydata], the deque [phase_history] with its
    [maxlen], the segments and colours last set on [line_collection],
    and whether the event source of the animation is still running.
    The figure, the axes and the legend are not part of the model. *)
Record t : Type := mk {
  driver : Example.t;
  xdata : list Z;
  ydata : list Q;
  phase_history : list (option Z);
  history_maxlen : Z;
  segments : list ((Z * Q) * (Z * Q));
  colors : list string;
  running : bool
}.

(** The state when [run_teps_animation(get_next_sample, window_size)]
    has set up its data: [deque(..., maxlen=window_size)] raises
    [ValueError] for a negative size. *)
Definition setup (g : Example.t) (window_size : Z) : result t :=
  let n := Z.to_nat window_size in
  if window_size <? 0 then Raise ValueError
  else Ok (mk g (map Z.of_nat (seq 0 n)) (repeat 0%Q n)
              (repeat (Some 0) n) window_size []
              (repeat "#000000"%string (Z.to_nat (window_size - 1))) true).

Definition on_driver {A} (m : M Example.t A) : M t A :=
  fun s =>
    match m (driver s) with
    | Ok (v, g) =>
        Ok (v, mk g (xdata s) (ydata s) (phase_history s)
                  (history_maxlen s) (segments s) (colors s) (running s))
    | Raise e => Raise e
    end.

(** [d.append(x)] on a deque with the [maxlen] given. *)
Definition history_append {A} (maxlen : Z) (items : list A) (x : A)
  : list A :=
  let l := (items ++ [x])%list in
  if Z.of_nat (length l) >? maxlen then tl l else l.

(** [[points[i], points[i+1]] for i in range(len(points)-1)]. *)
Fixpoint consecutive {A} (points : list A) : list (A * A) :=
  match points with
  | p :: (q :: _) as rest => (p, q) :: consecutive rest
  | _ => []
  end.

Local Open Scope py_scope.

(** [update(frame)].  [np.array([xdata, ydata]).T] pairs the two lists
    item by item and needs them to be of one length. *)
Definition update : M t unit :=
  sample <- on_driver Example.get_next_sample ;;
  match sample with
  | None =>
      modify (fun s => mk (driver s) (xdata s) (ydata s) (phase_history s)
                          (history_maxlen s) (segments s) (colors s) false)
  | Some (value, phase) =>
      s <- get ;;
      let ydata' := tl (ydata s ++ [value]) in
      let history' :=
        history_append (history_maxlen s) (phase_history s) phase in
      if negb (length (xdata s) =? length ydata')%nat
      then raise ValueError
      else
        let points := combine (xdata s) ydata' in
        modify (fun s => mk (driver s) (xdata s) ydata' history'
                            (history_maxlen s) (consecutive points)
                            (map color_of (tl history')) (running s))
  end.

(** Up to [n] frames in a row: the animation calls [update] again
    only while its event source is running. *)
Fixpoint frames (n : nat) : M t unit :=
  match n with
  | O => ret tt
  | S n' =>
      update ;;;
      s <- get ;;
      if running s then frames n' else ret tt
  end.
End Animation.

(** * Vocabulary of the properties *)

(** ** The phase table *)

(** The transition table, one constructor per row: the override on the
    feed magnitude, then the rows for each previous phase. *)
Inductive phase_row (last_phase engaged : Z) (feed : Q) : Z -> Prop :=
| row_rapid :
    (1000 < Qabs feed)%Q -> phase_row last_phase engaged feed 0
| row_init_drill :
    (Qabs feed <= 1000)%Q -> last_phase = 0 ->
    engaged = 1 -> (feed < 0)%Q -> phase_row last_phase engaged feed 2
| row_init_drop :
    (Qabs feed <= 1000)%Q -> last_phase = 0 ->
    engaged = 1 -> (0 <= feed)%Q -> phase_row last_phase engaged feed 4
| row_init_repos :
    (Qabs feed <= 1000)%Q -> last_phase = 0 ->
    engaged = 0 -> (0 <= feed)%Q -> phase_row last_phase engaged feed 5
| row_init_air :
    (Qabs feed <= 1000)%Q -> last_phase = 0 ->
    engaged = 0 -> (feed < 0)%Q -> phase_row last_phase engaged feed 1
| row_air_air :
    (Qabs feed <= 1000)%Q -> last_phase = 1 ->
    engaged = 0 -> (feed < 0)%Q -> phase_row last_phase engaged feed 1
| row_air_repos :
    (Qabs feed <= 1000)%Q -> last_phase = 1 ->
    engaged = 0 -> (0 <= feed)%Q -> phase_row last_phase engaged feed 5
| row_air_drill :
    (Qabs feed <= 1000)%Q -> last_phase = 1 ->
    engaged = 1 -> phase_row last_phase engaged feed 2
| row_drill_drill :
    (Qabs feed <= 1000)%Q -> last_phase = 2 \/ last_phase = 3 ->
    engaged = 1 -> (feed < 0)%Q -> phase_row last_phase engaged feed 2
| row_drill_unexp :
    (Qabs feed <= 1000)%Q -> last_phase = 2 \/ last_phase = 3 ->
    engaged = 0 -> (feed < 0)%Q -> phase_row last_phase engaged feed 3
| row_drill_drop :
    (Qabs feed <= 1000)%Q -> last_phase = 2 \/ last_phase = 3 ->
    engaged = 1 -> (0 <= feed)%Q -> phase_row last_phase engaged feed 4
| row_drill_else :
    (Qabs feed <= 1000)%Q -> last_phase = 2 \/ last_phase = 3 ->
    ~ (engaged = 1 /\ (feed < 0)%Q) -> ~ (engaged = 0 /\ (feed < 0)%Q) ->
    ~ (engaged = 1 /\ (0 <= feed)%Q) -> phase_row last_phase engaged feed 5
| row_drop_repos :
    (Qabs feed <= 1000)%Q -> last_phase = 4 \/ last_phase = 5 ->
    engaged = 0 -> (0 <= feed)%Q -> phase_row last_phase engaged feed 5
| row_drop_drop :
    (Qabs feed <= 1000)%Q -> last_phase = 4 \/ last_phase = 5 ->
    engaged = 1 -> (0 <= feed)%Q -> phase_row last_phase engaged feed 4
| row_drop_else :
    (Qabs feed <= 1000)%Q -> last_phase = 4 \/ last_phase = 5 ->
    ~ (engaged = 0 /\ (0 <= feed)%Q) -> ~ (engaged = 1 /\ (0 <= feed)%Q) ->
    phase_row last_phase engaged feed 1.

(** ** Window and distance *)

Definition weight_sum (w : Q * Q * Q) : Q :=
  let '(w1, w2, w3) := w in (w1 + w2 + w3)%Q.

(** The distance of the window statistics to a cluster, as a number. *)
Definition weighted_distance
  (self : TEPS.t) (c : cluster_obj) (x_min x_max x_mean : Q) : Q :=
  let '(w1, w2, w3) := TEPS.weights self in
  ((w1 * Qabs (x_mean - TEPS.item_mean self c)
    + w2 * Qabs (x_min - TEPS.item_min self c)
    + w3 * Qabs (x_max - TEPS.item_max self c)) / (w1 + w2 + w3))%Q.

(** The window holds [hist_size] samples (it never holds more). *)
Definition window_full (self : TEPS.t) : Prop :=
  TEPS.hist_size self <= Deque.len (TEPS.x_hist self).

(** ** The clipped cluster *)

(** [shift] and the candidate cluster: the air cluster moved by
    [factor * shift]. *)
Definition shift (self : TEPS.t) : Q :=
  (2 * Qabs (Cluster.min (TEPS.air_cluster self)
             - Cluster.max (TEPS.air_cluster self)))%Q.

Definition clipped_mean (self : TEPS.t) : Q :=
  (Cluster.mean (TEPS.air_cluster self) + TEPS.factor self * shift self)%Q.

Definition clipped_max (self : TEPS.t) : Q :=
  (Cluster.max (TEPS.air_cluster self) + TEPS.factor self * shift self)%Q.

Definition clipped_min (self : TEPS.t) : Q :=
  (Cluster.min (TEPS.air_cluster self) + TEPS.factor self * shift self)%Q.

(** The candidate's bounds are nearer to the air cluster's bounds than
    to the tracked drill cluster's. *)
Definition clipped_nearer_air (self : TEPS.t) : Prop :=
  (Qabs (clipped_min self - Cluster.min (TEPS.air_cluster self))
   < Qabs (clipped_min self - Cluster.min (TEPS.drill_cluster self)))%Q
  /\ (Qabs (clipped_max self - Cluster.max (TEPS.air_cluster self))
      < Qabs (clipped_max self - Cluster.max (TEPS.drill_cluster self)))%Q.

(** The condition in the words of the specification: the candidate's
    bounds are closer to the air cluster's bounds than the tracked drill
    cluster's bounds are. *)
Definition clipped_closer_than_drill (self : TEPS.t) : Prop :=
  (Qabs (clipped_min self - Cluster.min (TEPS.air_cluster self))
   < Qabs (Cluster.min (TEPS.drill_cluster self)
           - Cluster.min (TEPS.air_cluster self)))%Q
  /\ (Qabs (clipped_max self - Cluster.max (TEPS.air_cluster self))
      < Qabs (Cluster.max (TEPS.drill_cluster self)
              - Cluster.max (TEPS.air_cluster self)))%Q.

(** The test that forces prediction 0 under [min_distance]. *)
Definition clusters_too_close (self : TEPS.t) : Prop :=
  TEPS.init_mode self = "min_distance"%string
  /\ (Qabs (Cluster.mean (TEPS.drill_cluster self)
            - Cluster.mean (TEPS.air_cluster self))
      < TEPS.min_distance_threshold self)%Q.

(** ** Outcomes of [update] and [update_step_size] *)

(** The exponential rule on the three statistics of a cluster. *)
Definition ema (rate : Q) (c : Cluster.t) (x_min x_max x_mean : Q)
  : Cluster.t :=
  Cluster.mk ((1 - rate) * Cluster.min c + rate * x_min)%Q
             ((1 - rate) * Cluster.max c + rate * x_max)%Q
             ((1 - rate) * Cluster.mean c + rate * x_mean)%Q
             (Cluster.count c) (Cluster.sum c) (Cluster.ready c).

(** The seeding step of [min_distance] still lies ahead. *)
Definition seeding_pending (self : TEPS.t) : Prop :=
  TEPS.init_mode self = "min_distance"%string
  /\ Cluster.ready (TEPS.air_cluster self) = false.

(** The object after the seeding step on the statistics given. *)
Definition seeded (self : TEPS.t) (x_min x_max x_mean : Q) : TEPS.t :=
  let offset :=
    (TEPS.factor self * Qabs (TEPS.min_distance_threshold self / 2))%Q in
  let air := TEPS.air_cluster self in
  let drill := TEPS.drill_cluster self in
  TEPS.set_drill_cluster
    (TEPS.set_air_cluster self
       (Cluster.mk x_min x_max x_mean
                   (Cluster.count air) (Cluster.sum air) true))
    (Cluster.mk (x_min + offset)%Q (x_max + offset)%Q (x_mean + offset)%Q
                (Cluster.count drill) (Cluster.sum drill)
                (Cluster.ready drill)).

(** The object after a distance-based update on the statistics given. *)
Definition tracked (self : TEPS.t) (x_min x_max x_mean : Q) : TEPS.t :=
  if Qle_bool
       (weighted_distance self (Stored AirCluster) x_min x_max x_mean)
       (weighted_distance self (Stored DrillCluster) x_min x_max x_mean)
  then TEPS.set_air_cluster self
         (ema (TEPS.a self) (TEPS.air_cluster self) x_min x_max x_mean)
  else TEPS.set_drill_cluster self
         (ema (TEPS.a self) (TEPS.drill_cluster self) x_min x_max x_mean).

(** The object after [update_step_size]. *)
Definition decayed (self : TEPS.t) : TEPS.t :=
  if Qgtb (TEPS.a self) (TEPS.a_min self) then
    if Qltb (TEPS.a self * TEPS.decay_factor self) (TEPS.a_min self)
    then TEPS.set_a self (TEPS.a_min self)
    else TEPS.set_a self (TEPS.a self * TEPS.decay_factor self)%Q
  else self.

(** ** Outcomes of [process_sample] *)

(** The object after [self.x_hist.append(x)]. *)
Definition pushed (self : TEPS.t) (x : Q) : TEPS.t :=
  TEPS.set_x_hist self (Deque.append (TEPS.x_hist self) x).

(** The object after the warm-up branch. *)
Definition skipped (self : TEPS.t) : TEPS.t :=
  TEPS.set_start_index self (TEPS.start_index self + 1).

Definition output (p : Z) (self : TEPS.t) : Z * (Q * Q) :=
  (p, (Cluster.mean (TEPS.air_cluster self),
       Cluster.mean (TEPS.drill_cluster self))).

(** The schedule's parameters are in range and [a] is not below
    [a_min]. *)
Definition rate_ok (self : TEPS.t) : Prop :=
  (0 < TEPS.a_min self)%Q
  /\ (0 < TEPS.decay_factor self < 1)%Q
  /\ (TEPS.a_min self <= TEPS.a self)%Q.

(** ** Runs *)

(** The object after [k] calls of a run under [min_distance] with
    [ignore_start = ignore] and [hist_size = hist]. *)
Definition run_inv (ignore hist k : Z) (s : TEPS.t) : Prop :=
  TEPS.init_mode s = "min_distance"%string
  /\ TEPS.hist_size s = hist
  /\ Deque.maxlen (TEPS.x_hist s) = hist
  /\ TEPS.ignore_start s = ignore
  /\ ~ (weight_sum (TEPS.weights s) == 0)%Q
  /\ TEPS.start_index s = Z.min k ignore
  /\ Deque.len (TEPS.x_hist s) = Z.min (Z.max 0 (k - ignore)) hist
  /\ Cluster.ready (TEPS.air_cluster s) = (ignore + hist <=? k).

(** The object of [TEPS(hist_size=3, ignore_start=0, init_mode='fixed',
    start_mean_air=(0,0,0), start_mean_drill=(-1.5,-1.5,-1.5))]. *)
Definition fixed_zero_config : result TEPS.t :=
  TEPS.__init__ (0, 0, 0)%Q (- (3 # 2), - (3 # 2), - (3 # 2))%Q 0 "fixed"
                TEPS.default_min_distance_threshold 3
                TEPS.default_weights TEPS.default_factor
                TEPS.default_a_init TEPS.default_a_min
                TEPS.default_decay_factor.

(** ** Objects that differ in [init_mode] *)

(** The object with another [init_mode]. *)
Definition with_init_mode (s : TEPS.t) (m : string) : TEPS.t :=
  TEPS.mk (TEPS.air_cluster s) (TEPS.drill_cluster s) (TEPS.a_init s)
          (TEPS.a_min s) (TEPS.a s) (TEPS.decay_factor s)
          (TEPS.start_index s) (TEPS.ignore_start s) m
          (TEPS.min_distance_threshold s) (TEPS.hist_size s)
          (TEPS.x_hist s) (TEPS.weights s) (TEPS.factor s).

(** An outcome with the [init_mode] of the object replaced. *)
Definition relabel {A} (m : string) (r : result (A * TEPS.t))
  : result (A * TEPS.t) :=
  match r with
  | Ok (v, s) => Ok (v, with_init_mode s m)
  | Raise e => Raise e
  end.

(** Two outcomes that differ in the [init_mode] of the object only:
    [m] in the first, ['fixed'] in the second. *)
Definition agree (m : string) {A} (r1 r2 : result (A * TEPS.t)) : Prop :=
  match r1, r2 with
  | Ok (v1, t1), Ok (v2, t2) =>
      v1 = v2 /\ t1 = with_init_mode t2 m
      /\ TEPS.init_mode t2 = "fixed"%string
  | Raise e1, Raise e2 => e1 = e2
  | _, _ => False
  end.

(** A method that does the same under [m] as under ['fixed']. *)
Definition same_as_fixed (m : string) {A} (c : M TEPS.t A) : Prop :=
  forall t : TEPS.t,
    TEPS.init_mode t = "fixed"%string ->
    agree m (c (with_init_mode t m)) (c t).

(** ** Sample objects *)

(** An object in ['fixed'] mode with the window [[0, -1, -2]] full. *)
Definition full_object : TEPS.t :=
  TEPS.mk (Cluster.mk 0 0 0 0 0 false)
          (Cluster.mk (- (3 # 2)) (- (3 # 2)) (- (3 # 2)) 0 0 false)
          (1 # 100) (1 # 1000) (1 # 100) (9995 # 10000)
          0 0 "fixed" (1 # 10) 3 (Deque.mk [0; -1; -2]%Q 3)
          (1, 1, 1)%Q 1.

(** An object whose drill bounds [[-1,0]] lie next to its air bounds
    [[0,1]], on the other side of the candidate bounds [[2,3]]. *)
Definition adjacent_object : TEPS.t :=
  TEPS.mk (Cluster.mk 0 1 (1 # 2) 0 0 false)
          (Cluster.mk (- 1) 0 (- (1 # 2)) 0 0 false)
          (1 # 100) (1 # 1000) (1 # 100) (9995 # 10000)
          0 0 "fixed" (1 # 10) 3 (Deque.mk [] 3) (1, 1, 1)%Q 1.

(** ** Vocabulary of the further properties *)

(** The value [get_phase_label] returns for a float feed, read off a
    call on an object. *)
Definition phase_value (last_state treshold : Z) (feed : Float.t)
  : option Z :=
  match FloatFeed.get_phase_label last_state treshold feed full_object with
  | Ok (v, _) => v
  | Raise _ => None
  end.

(** The last [n] items of a list. *)
Definition last_n {A} (n : nat) (l : list A) : list A :=
  skipn (length l - n) l.


(** The feed is a number: finite or infinite, not NaN. *)
Definition is_number (feed : Float.t) : Prop := feed <> Float.NaN.

(** The tests [feed < 0] and [feed >= 0] of [get_phase_label]. *)
Definition feed_negative (feed : Float.t) : Prop :=
  Float.ltb feed 0 = true.

Definition feed_not_negative (feed : Float.t) : Prop :=
  Float.geb feed 0 = true.

(** The driver's classifier can process samples and the previous phase
    is a label. *)
Definition driver_ok (g : Example.t) : Prop :=
  0 < TEPS.hist_size (Example.teps g)
  /\ ~ (weight_sum (TEPS.weights (Example.teps g)) == 0)%Q
  /\ exists l : Z, Example.last_phase g = Some l /\ 0 <= l <= 5.

(** A result of the driver whose phase is one of the labels given. *)
Definition phase_among (labels : list Z) (r : option (Q * option Z))
  : Prop :=
  match r with
  | Some (_, Some p) => In p labels
  | Some (_, None) => False
  | None => True
  end.

(** The classifier after [k] calls, while its window is not yet full:
    [k] is below [ignore_start + hist_size]. *)
Definition filling_inv (k : Z) (s : TEPS.t) : Prop :=
  0 <= k
  /\ 0 < TEPS.hist_size s
  /\ 0 <= TEPS.ignore_start s
  /\ Deque.maxlen (TEPS.x_hist s) = TEPS.hist_size s
  /\ TEPS.start_index s = Z.min k (TEPS.ignore_start s)
  /\ Deque.len (TEPS.x_hist s) = Z.max 0 (k - TEPS.ignore_start s)
  /\ k < TEPS.ignore_start s + TEPS.hist_size s.

(** The buffers of the animation have the length of the window. *)
Definition buffers_ok (window_size : Z) (s : Animation.t) : Prop :=
  0 <= window_size
  /\ Animation.history_maxlen s = window_size
  /\ length (Animation.xdata s) = Z.to_nat window_size
  /\ length (Animation.ydata s) = Z.to_nat window_size
  /\ length (Animation.phase_history s) = Z.to_nat window_size
  /\ length (Animation.colors s) = (Z.to_nat window_size - 1)%nat.

(** A driver on one row, with the sample object as its classifier. *)
Definition sample_driver : Example.t :=
  Example.mk full_object [(1%Q, Float.Num (- (5)))] 0 (Some 0).

(** Two rows of a data file: torque 1 with feed -5, torque 2 with feed
    3. *)
Definition sample_rows : list (Q * Float.t) :=
  [(1%Q, Float.Num (- (5))); (2%Q, Float.Num 3)].

(** The object [fixed_zero_config] constructs. *)
Definition fixed_zero_object : TEPS.t :=
  TEPS.mk (Cluster.mk 0 0 0 0 0 false)
          (Cluster.mk (- (3 # 2)) (- (3 # 2)) (- (3 # 2)) 0 0 false)
          TEPS.default_a_init TEPS.default_a_min TEPS.default_a_init
          TEPS.default_decay_factor 0 0 "fixed"
          TEPS.default_min_distance_threshold 3 (Deque.mk [] 3)
          TEPS.default_weights TEPS.default_factor.

(** * Properties *)

(** ** Comparisons *)

Lemma Qltb_lt (x y : Q) : Qltb x y = true <-> (x < y)%Q.
Proof.
  unfold Qltb. rewrite negb_true_iff, <- not_true_iff_false, Qle_bool_iff.
  split; [apply Qnot_le_lt | apply Qlt_not_le].
Qed.

Lemma Qltb_ge (x y : Q) : Qltb x y = false <-> (y <= x)%Q.
Proof.
  unfold Qltb. rewrite negb_false_iff. apply Qle_bool_iff.
Qed.

Lemma Qle_bool_gt (x y : Q) : Qle_bool x y = false <-> (y < x)%Q.
Proof.
  rewrite <- (Qltb_lt y x). unfold Qltb.
  destruct (Qle_bool x y); simpl; intuition congruence.
Qed.

Lemma Qeq_bool_false (x y : Q) : Qeq_bool x y = false <-> ~ (x == y)%Q.
Proof.
  rewrite <- Qeq_bool_iff. destruct (Qeq_bool x y); intuition congruence.
Qed.

(** Turning the boolean tests of a goal or hypothesis into propositions. *)
Ltac bool_to_prop :=
  repeat match goal with
  | H : Qltb _ _ = true |- _ => apply Qltb_lt in H
  | H : Qltb _ _ = false |- _ => apply Qltb_ge in H
  | H : Qgtb _ _ = true |- _ => apply Qltb_lt in H
  | H : Qgtb _ _ = false |- _ => apply Qltb_ge in H
  | H : Qle_bool _ _ = true |- _ => apply Qle_bool_iff in H
  | H : Qle_bool _ _ = false |- _ => apply Qle_bool_gt in H
  | H : Qeq_bool _ _ = true |- _ => apply Qeq_bool_iff in H
  | H : Qeq_bool _ _ = false |- _ => apply Qeq_bool_false in H
  | H : (_ =? _) = true |- _ => apply Z.eqb_eq in H
  | H : (_ =? _) = false |- _ => apply Z.eqb_neq in H
  | H : (_ <? _) = true |- _ => apply Z.ltb_lt in H
  | H : (_ <? _) = false |- _ => apply Z.ltb_ge in H
  | H : (_ >? _) = true |- _ => rewrite Z.gtb_ltb in H; apply Z.ltb_lt in H
  | H : (_ >? _) = false |- _ => rewrite Z.gtb_ltb in H; apply Z.ltb_ge in H
  end.

(** ** The phase state machine *)

(** At most one row applies to an input. *)
Lemma phase_row_functional (last_phase engaged : Z) (feed : Q) (p q : Z) :
  phase_row last_phase engaged feed p ->
  phase_row last_phase engaged feed q -> p = q.
Proof.
  intros Hp Hq.
  destruct Hp; destruct Hq; try reflexivity; exfalso;
    repeat match goal with
           | H : _ \/ _ |- _ => destruct H
           end;
    try lia; try lra;
    match goal with
    | H : ~ (_ /\ _) |- _ => solve [apply H; split; (assumption || lia)]
    end.
Qed.

(** C1: for [last_phase] in [[0,5]] and [engaged] in [{0,1}],
    [get_phase_label] returns, whatever the object it is called on and
    without changing it, the phase that the transition table gives: 0
    when [|feed| > 1000], and otherwise the row of the table for the
    previous phase, the engagement bit and the sign of the feed. *)
Theorem get_phase_label_table (last_phase engaged : Z) (feed : Q) :
  0 <= last_phase <= 5 ->
  engaged = 0 \/ engaged = 1 ->
  exists phase : Z,
    phase_row last_phase engaged feed phase /\
    0 <= phase <= 5 /\
    forall self : TEPS.t,
      TEPS.get_phase_label last_phase engaged feed self
      = Ok (Some phase, self).
Proof.
  intros Hl He.
  assert (Hcases : last_phase = 0 \/ last_phase = 1 \/ last_phase = 2 \/
                   last_phase = 3 \/ last_phase = 4 \/ last_phase = 5) by lia.
  unfold TEPS.get_phase_label.
  destruct (Qgtb (Qabs feed) 1000) eqn:Hbig; bool_to_prop.
  { exists 0. repeat split; try lia. now apply row_rapid. }
  assert (Hsign : (Qltb feed 0 = true /\ Qle_bool 0 feed = false /\
                   (feed < 0)%Q) \/
                  (Qltb feed 0 = false /\ Qle_bool 0 feed = true /\
                   (0 <= feed)%Q)).
  { destruct (Qltb feed 0) eqn:Hneg; [left | right]; bool_to_prop;
      repeat split; try assumption;
      [ now apply Qle_bool_gt | now apply Qle_bool_iff ]. }
  destruct Hsign as [(Hn & Hp & Hfeed) | (Hn & Hp & Hfeed)];
    destruct He as [-> | ->];
    destruct Hcases as [-> | [-> | [-> | [-> | [-> | ->]]]]];
    simpl; rewrite ?Hn, ?Hp; simpl;
    eexists; (split; [ | split; [ | intros self; reflexivity ] ]);
    try lia;
    first
      [ now (apply row_init_drill; auto)
      | now (apply row_init_drop; auto)
      | now (apply row_init_repos; auto)
      | now (apply row_init_air; auto)
      | now (apply row_air_air; auto)
      | now (apply row_air_repos; auto)
      | now (apply row_air_drill; auto)
      | now (apply row_drill_drill; auto)
      | now (apply row_drill_unexp; auto)
      | now (apply row_drill_drop; auto)
      | now (apply row_drop_repos; auto)
      | now (apply row_drop_drop; auto)
      | (apply row_drill_else; auto; intros [? ?]; try lia; lra)
      | (apply row_drop_else; auto; intros [? ?]; try lia; lra) ].
Qed.

(** The table at a drilling start: previous phase 0, engaged, feed -5. *)
Lemma get_phase_label_table_witness :
  exists phase : Z,
    phase_row 0 1 (-5) phase /\
    0 <= phase <= 5 /\
    forall self : TEPS.t,
      TEPS.get_phase_label 0 1 (-5) self = Ok (Some phase, self).
Proof.
  apply (get_phase_label_table 0 1 (-5)); [lia | right; reflexivity].
Defined.

(** C10: for [|feed| <= 1000] and a [last_phase] outside [{0,...,5}],
    [get_phase_label] reaches no [return] and its value is [None]. *)
Theorem get_phase_label_out_of_domain
  (self : TEPS.t) (last_phase engaged : Z) (feed : Q) :
  (Qabs feed <= 1000)%Q ->
  ~ (0 <= last_phase <= 5) ->
  TEPS.get_phase_label last_phase engaged feed self = Ok (None, self).
Proof.
  intros Hfeed Hout.
  unfold TEPS.get_phase_label.
  assert (Hbig : Qgtb (Qabs feed) 1000 = false) by now apply Qltb_ge.
  rewrite Hbig.
  repeat match goal with
         | |- context [?x =? ?n] =>
             let E := fresh "E" in
             destruct (x =? n) eqn:E; [apply Z.eqb_eq in E; lia | clear E]
         end.
  reflexivity.
Qed.

(** ** Window statistics and the weighted distance *)

Ltac unfold_monad :=
  unfold bind, ret, get, modify, raise, truediv, sub_from, number in *.

Lemma compute_rolling_stats_frame (self s' : TEPS.t) v :
  TEPS.compute_rolling_stats self = Ok (v, s') -> s' = self.
Proof.
  unfold TEPS.compute_rolling_stats. unfold_monad.
  destruct (Deque.items (TEPS.x_hist self)); intros H; now inversion H.
Qed.

Lemma compute_rolling_stats_full (self : TEPS.t) :
  0 < TEPS.hist_size self -> window_full self ->
  exists x_min x_max x_mean : Q,
    TEPS.compute_rolling_stats self
    = Ok ((Some x_min, Some x_max, Some x_mean), self).
Proof.
  unfold window_full, Deque.len, TEPS.compute_rolling_stats. unfold_monad.
  intros Hpos Hfull.
  destruct (Deque.items (TEPS.x_hist self)) as [|x r]; simpl in *; [lia|].
  now eauto.
Qed.

Lemma compute_cluster_distance_ok
  (self : TEPS.t) (c : cluster_obj) (x_min x_max x_mean : Q) :
  ~ (weight_sum (TEPS.weights self) == 0)%Q ->
  TEPS.compute_cluster_distance c (Some x_min) (Some x_max) (Some x_mean) self
  = Ok (weighted_distance self c x_min x_max x_mean, self).
Proof.
  unfold TEPS.compute_cluster_distance, weighted_distance, weight_sum.
  unfold_monad.
  destruct (TEPS.weights self) as [[w1 w2] w3]. intros Hw.
  apply Qeq_bool_false in Hw. now rewrite Hw.
Qed.

Lemma compute_cluster_distance_zero_weights
  (self : TEPS.t) (c : cluster_obj) (x_min x_max x_mean : Q) :
  (weight_sum (TEPS.weights self) == 0)%Q ->
  TEPS.compute_cluster_distance c (Some x_min) (Some x_max) (Some x_mean) self
  = Raise ZeroDivisionError.
Proof.
  unfold TEPS.compute_cluster_distance, weight_sum. unfold_monad.
  destruct (TEPS.weights self) as [[w1 w2] w3]. intros Hw.
  apply Qeq_bool_iff in Hw. now rewrite Hw.
Qed.

(** ** The drift-compensated drill cluster *)

Section Clipped.
Variable self : TEPS.t.

Lemma clipped_nearer_air_test :
  Qltb (Qabs (clipped_min self - Cluster.min (TEPS.air_cluster self)))
       (Qabs (clipped_min self - Cluster.min (TEPS.drill_cluster self)))
  && Qltb (Qabs (clipped_max self - Cluster.max (TEPS.air_cluster self)))
          (Qabs (clipped_max self - Cluster.max (TEPS.drill_cluster self)))
  = true
  <-> clipped_nearer_air self.
Proof.
  unfold clipped_nearer_air. now rewrite andb_true_iff, !Qltb_lt.
Qed.

Lemma clipped_nearer_air_dec :
  clipped_nearer_air self \/ ~ clipped_nearer_air self.
Proof.
  rewrite <- clipped_nearer_air_test.
  destruct (_ && _); [now left | right; discriminate].
Qed.

Lemma get_drill_or_clipped_cluster_eq :
  TEPS.get_drill_or_clipped_cluster self
  = Ok (if Qltb (Qabs (clipped_min self
                       - Cluster.min (TEPS.air_cluster self)))
                (Qabs (clipped_min self
                       - Cluster.min (TEPS.drill_cluster self)))
           && Qltb (Qabs (clipped_max self
                          - Cluster.max (TEPS.air_cluster self)))
                   (Qabs (clipped_max self
                          - Cluster.max (TEPS.drill_cluster self)))
        then Literal (clipped_mean self) (clipped_max self)
                     (clipped_min self)
        else Stored DrillCluster,
        self).
Proof.
  unfold TEPS.get_drill_or_clipped_cluster, clipped_mean, clipped_max,
    clipped_min, shift.
  unfold_monad. now destruct (_ && _).
Qed.

Lemma get_drill_or_clipped_cluster_clipped :
  clipped_nearer_air self ->
  TEPS.get_drill_or_clipped_cluster self
  = Ok (Literal (clipped_mean self) (clipped_max self) (clipped_min self),
        self).
Proof.
  intros Hnear. apply clipped_nearer_air_test in Hnear.
  rewrite get_drill_or_clipped_cluster_eq. now rewrite Hnear.
Qed.

Lemma get_drill_or_clipped_cluster_tracked :
  ~ clipped_nearer_air self ->
  TEPS.get_drill_or_clipped_cluster self = Ok (Stored DrillCluster, self).
Proof.
  intros Hn. rewrite get_drill_or_clipped_cluster_eq.
  destruct (_ && _) eqn:E; [|reflexivity].
  apply clipped_nearer_air_test in E. contradiction.
Qed.

Lemma get_drill_or_clipped_cluster_total :
  exists c, TEPS.get_drill_or_clipped_cluster self = Ok (c, self).
Proof.
  rewrite get_drill_or_clipped_cluster_eq. eauto.
Qed.
End Clipped.

(** ** Prediction *)

Lemma compute_cluster_distance_frame
  (self s' : TEPS.t) (c : cluster_obj) (x_min x_max x_mean : option Q) v :
  TEPS.compute_cluster_distance c x_min x_max x_mean self = Ok (v, s') ->
  s' = self.
Proof.
  unfold TEPS.compute_cluster_distance. unfold_monad.
  destruct (TEPS.weights self) as [[w1 w2] w3].
  destruct x_mean, x_min, x_max; try discriminate.
  destruct (Qeq_bool (w1 + w2 + w3) 0); intros H; now inversion H.
Qed.

Lemma get_drill_or_clipped_cluster_frame (self s' : TEPS.t) c :
  TEPS.get_drill_or_clipped_cluster self = Ok (c, s') -> s' = self.
Proof.
  destruct (get_drill_or_clipped_cluster_total self) as [c' Hc].
  rewrite Hc. intros H; now inversion H.
Qed.

Lemma clusters_too_close_test (self : TEPS.t) :
  String.eqb (TEPS.init_mode self) "min_distance"
  && Qltb (Qabs (Cluster.mean (TEPS.drill_cluster self)
                 - Cluster.mean (TEPS.air_cluster self)))
          (TEPS.min_distance_threshold self) = true
  <-> clusters_too_close self.
Proof.
  unfold clusters_too_close.
  now rewrite andb_true_iff, String.eqb_eq, Qltb_lt.
Qed.

Lemma predict_short (self : TEPS.t) :
  Deque.len (TEPS.x_hist self) < TEPS.hist_size self ->
  TEPS.predict self = Ok (0, self).
Proof.
  intros Hlen. apply Z.ltb_lt in Hlen.
  unfold TEPS.predict. unfold_monad. now rewrite Hlen.
Qed.

(** [predict] on a full window, in closed form. *)
Lemma predict_full
  (self : TEPS.t) (x_min x_max x_mean : Q) (drill_c : cluster_obj) :
  window_full self ->
  ~ (weight_sum (TEPS.weights self) == 0)%Q ->
  TEPS.compute_rolling_stats self
  = Ok ((Some x_min, Some x_max, Some x_mean), self) ->
  TEPS.get_drill_or_clipped_cluster self = Ok (drill_c, self) ->
  TEPS.predict self
  = Ok (if String.eqb (TEPS.init_mode self) "min_distance"
           && Qltb (Qabs (Cluster.mean (TEPS.drill_cluster self)
                          - Cluster.mean (TEPS.air_cluster self)))
                   (TEPS.min_distance_threshold self)
        then 0
        else if Qgtb (weighted_distance self drill_c x_min x_max x_mean)
                     (weighted_distance self (Stored AirCluster)
                                        x_min x_max x_mean)
             then 0 else 1,
        self).
Proof.
  intros Hfull Hw Hstats Hclip.
  apply Z.ltb_ge in Hfull.
  unfold TEPS.predict, bind at 1, get at 1.
  rewrite Hfull.
  unfold bind at 1. rewrite Hstats.
  unfold bind at 1. rewrite (compute_cluster_distance_ok _ _ _ _ _ Hw).
  unfold bind at 1. rewrite Hclip.
  unfold bind at 1. rewrite (compute_cluster_distance_ok _ _ _ _ _ Hw).
  unfold bind, get, ret.
  now destruct (_ && _).
Qed.

Lemma predict_frame (self s' : TEPS.t) (p : Z) :
  TEPS.predict self = Ok (p, s') -> s' = self.
Proof.
  unfold TEPS.predict, bind at 1, get at 1.
  destruct (_ <? _); [unfold ret; intros H; now inversion H|].
  unfold bind at 1.
  destruct (TEPS.compute_rolling_stats self) as [[[[x_min x_max] x_mean] s1]|]
    eqn:Hstats; [|discriminate].
  apply compute_rolling_stats_frame in Hstats. subst s1.
  unfold bind at 1.
  destruct (TEPS.compute_cluster_distance _ _ _ _ self) as [[d1 s1]|]
    eqn:Hd1; [|discriminate].
  apply compute_cluster_distance_frame in Hd1. subst s1.
  unfold bind at 1.
  destruct (get_drill_or_clipped_cluster_total self) as [c Hc]. rewrite Hc.
  unfold bind at 1.
  destruct (TEPS.compute_cluster_distance c _ _ _ self) as [[d2 s2]|]
    eqn:Hd2; [|discriminate].
  apply compute_cluster_distance_frame in Hd2. subst s2.
  unfold bind, get, ret.
  destruct (_ && _); intros H; now inversion H.
Qed.

Lemma predict_total (self : TEPS.t) :
  0 < TEPS.hist_size self ->
  ~ (weight_sum (TEPS.weights self) == 0)%Q ->
  exists p, TEPS.predict self = Ok (p, self) /\ (p = 0 \/ p = 1).
Proof.
  intros Hpos Hw.
  destruct (Z.lt_ge_cases (Deque.len (TEPS.x_hist self))
                          (TEPS.hist_size self)) as [Hlt | Hge].
  - exists 0. split; [now apply predict_short | now left].
  - destruct (compute_rolling_stats_full self Hpos Hge)
      as (x_min & x_max & x_mean & Hstats).
    destruct (get_drill_or_clipped_cluster_total self) as [c Hc].
    rewrite (predict_full self x_min x_max x_mean c Hge Hw Hstats Hc).
    eexists; split; [reflexivity|].
    destruct (_ && _); [now left|]. destruct (Qgtb _ _); auto.
Qed.

(** C2: [predict] returns 0 while the window holds fewer than
    [hist_size] samples.  On a full window it returns 0 when [init_mode]
    is ['min_distance'] and [|drill.mean - air.mean|] is below
    [min_distance_threshold]; otherwise it returns 1 when the weighted
    distance of the window statistics to the drill cluster
    [get_drill_or_clipped_cluster] gives is at most the distance to the
    air cluster, and 0 when it is greater.  The object is unchanged.
    For the full window, the capacity is positive and the weights do not
    sum to 0. *)
Theorem predict_decision (self : TEPS.t) :
  (Deque.len (TEPS.x_hist self) < TEPS.hist_size self ->
   TEPS.predict self = Ok (0, self))
  /\
  (0 < TEPS.hist_size self ->
   ~ (weight_sum (TEPS.weights self) == 0)%Q ->
   window_full self ->
   exists (x_min x_max x_mean : Q) (drill_c : cluster_obj),
     TEPS.compute_rolling_stats self
     = Ok ((Some x_min, Some x_max, Some x_mean), self)
     /\ TEPS.get_drill_or_clipped_cluster self = Ok (drill_c, self)
     /\ let air_dist :=
          weighted_distance self (Stored AirCluster) x_min x_max x_mean in
        let drill_dist :=
          weighted_distance self drill_c x_min x_max x_mean in
        (clusters_too_close self -> TEPS.predict self = Ok (0, self))
        /\ (~ clusters_too_close self ->
            ((drill_dist <= air_dist)%Q -> TEPS.predict self = Ok (1, self))
            /\ ((air_dist < drill_dist)%Q ->
                TEPS.predict self = Ok (0, self)))).
Proof.
  split; [apply predict_short|].
  intros Hpos Hw Hfull.
  destruct (compute_rolling_stats_full self Hpos Hfull)
    as (x_min & x_max & x_mean & Hstats).
  destruct (get_drill_or_clipped_cluster_total self) as [c Hc].
  exists x_min, x_max, x_mean, c.
  split; [assumption|]. split; [assumption|]. cbv zeta.
  rewrite (predict_full self x_min x_max x_mean c Hfull Hw Hstats Hc).
  split.
  - intros Hclose. apply clusters_too_close_test in Hclose.
    now rewrite Hclose.
  - intros Hfar.
    destruct (_ && _) eqn:Htest;
      [apply clusters_too_close_test in Htest; contradiction|].
    unfold Qgtb. split.
    + intros Hle. apply Qltb_ge in Hle. now rewrite Hle.
    + intros Hlt. apply Qltb_lt in Hlt. now rewrite Hlt.
Qed.

(** C4: the cluster [get_drill_or_clipped_cluster] hands to the
    prediction is the candidate clipped cluster (the air cluster's mean,
    max and min, each moved by [factor * shift] with
    [shift = 2 * |air.min - air.max|]) when the candidate's min and max
    are each nearer to the air cluster's bound than to the tracked drill
    cluster's, and the stored drill cluster itself when they are not;
    neither the call nor the prediction that uses it changes the stored
    drill cluster. *)
Theorem get_drill_or_clipped_cluster_choice (self : TEPS.t) :
  (clipped_nearer_air self <->
   TEPS.get_drill_or_clipped_cluster self
   = Ok (Literal (clipped_mean self) (clipped_max self) (clipped_min self),
         self))
  /\ (~ clipped_nearer_air self <->
      TEPS.get_drill_or_clipped_cluster self = Ok (Stored DrillCluster, self))
  /\ (forall c s', TEPS.get_drill_or_clipped_cluster self = Ok (c, s') ->
                   s' = self)
  /\ (forall p s', TEPS.predict self = Ok (p, s') ->
                   TEPS.drill_cluster s' = TEPS.drill_cluster self).
Proof.
  split; [split|split; [split|split]].
  - apply get_drill_or_clipped_cluster_clipped.
  - intros Hlit. destruct (clipped_nearer_air_dec self) as [|Hn]; auto.
    rewrite (get_drill_or_clipped_cluster_tracked self Hn) in Hlit.
    discriminate.
  - apply get_drill_or_clipped_cluster_tracked.
  - intros Hst Hnear.
    rewrite (get_drill_or_clipped_cluster_clipped self Hnear) in Hst.
    discriminate.
  - intros c s'. apply get_drill_or_clipped_cluster_frame.
  - intros p s' Hp. now rewrite (predict_frame _ _ _ Hp).
Qed.

(** The test compares the candidate's distance to the air bound with
    the candidate's distance to the drill bound, not with the distance
    between the drill bound and the air bound: with air bounds [[0,1]],
    drill bounds [[-1,0]] and factor 1 the candidate bounds are [[2,3]],
    the candidate is chosen, and the drill bounds are nearer to the air
    bounds (1) than the candidate's are (2). *)
Remark clipped_test_is_relative_to_candidate :
  let self :=
    TEPS.mk (Cluster.mk 0 1 (1 # 2) 0 0 false)
            (Cluster.mk (- 1) 0 (- (1 # 2)) 0 0 false)
            (1 # 100) (1 # 1000) (1 # 100) (9995 # 10000)
            0 0 "fixed" (1 # 10) 3 (Deque.mk [] 3) (1, 1, 1)%Q 1 in
  clipped_nearer_air self
  /\ ~ (Qabs (clipped_min self - Cluster.min (TEPS.air_cluster self))
        < Qabs (Cluster.min (TEPS.drill_cluster self)
                - Cluster.min (TEPS.air_cluster self)))%Q.
Proof.
  cbv zeta. split; [split|]; vm_compute; first [reflexivity | discriminate].
Qed.

(** C4 fails as worded: the candidate is not chosen exactly when its
    bounds are closer to the air cluster's bounds than the tracked drill
    cluster's bounds are.  With air bounds [[0,1]], drill bounds
    [[-1,0]] and factor 1 the candidate bounds are [[2,3]], at distance
    2 from the air bounds, while the drill bounds are at distance 1;
    the candidate is chosen all the same. *)
Lemma get_drill_or_clipped_cluster_not_by_drill_gap :
  ~ (forall self : TEPS.t,
       clipped_closer_than_drill self <->
       TEPS.get_drill_or_clipped_cluster self
       = Ok (Literal (clipped_mean self) (clipped_max self)
                     (clipped_min self), self)).
Proof.
  intros H.
  assert (Hret : TEPS.get_drill_or_clipped_cluster adjacent_object
                 = Ok (Literal (clipped_mean adjacent_object)
                               (clipped_max adjacent_object)
                               (clipped_min adjacent_object),
                       adjacent_object))
    by (vm_compute; reflexivity).
  destruct (proj2 (H adjacent_object) Hret) as [Hmin _].
  vm_compute in Hmin. discriminate Hmin.
Qed.

(** ** Cluster updates *)

Lemma seeding_pending_test (self : TEPS.t) :
  String.eqb (TEPS.init_mode self) "min_distance"
  && negb (Cluster.ready (TEPS.air_cluster self)) = true
  <-> seeding_pending self.
Proof.
  unfold seeding_pending.
  now rewrite andb_true_iff, String.eqb_eq, negb_true_iff.
Qed.

Lemma update_short (self : TEPS.t) :
  Deque.len (TEPS.x_hist self) < TEPS.hist_size self ->
  TEPS.update self = Ok (tt, self).
Proof.
  intros Hlen. apply Z.ltb_lt in Hlen.
  unfold TEPS.update. unfold_monad. now rewrite Hlen.
Qed.

Lemma update_seeding (self : TEPS.t) (x_min x_max x_mean : Q) :
  window_full self ->
  TEPS.compute_rolling_stats self
  = Ok ((Some x_min, Some x_max, Some x_mean), self) ->
  seeding_pending self ->
  TEPS.update self = Ok (tt, seeded self x_min x_max x_mean).
Proof.
  intros Hfull Hstats Hseed.
  apply Z.ltb_ge in Hfull. apply seeding_pending_test in Hseed.
  unfold TEPS.update, bind at 1, get at 1. rewrite Hfull.
  unfold bind at 1. rewrite Hstats.
  unfold bind at 1, get at 1. rewrite Hseed.
  reflexivity.
Qed.

Lemma update_tracking (self : TEPS.t) (x_min x_max x_mean : Q) :
  window_full self ->
  TEPS.compute_rolling_stats self
  = Ok ((Some x_min, Some x_max, Some x_mean), self) ->
  ~ seeding_pending self ->
  ~ (weight_sum (TEPS.weights self) == 0)%Q ->
  TEPS.update self = Ok (tt, tracked self x_min x_max x_mean).
Proof.
  intros Hfull Hstats Hseed Hw.
  apply Z.ltb_ge in Hfull.
  assert (Htest : String.eqb (TEPS.init_mode self) "min_distance"
                  && negb (Cluster.ready (TEPS.air_cluster self)) = false).
  { destruct (_ && _) eqn:E; [|reflexivity].
    apply seeding_pending_test in E. contradiction. }
  unfold TEPS.update, bind at 1, get at 1. rewrite Hfull.
  unfold bind at 1. rewrite Hstats.
  unfold bind at 1, get at 1. rewrite Htest.
  unfold bind at 1. rewrite (compute_cluster_distance_ok _ _ _ _ _ Hw).
  unfold bind at 1. rewrite (compute_cluster_distance_ok _ _ _ _ _ Hw).
  unfold tracked.
  destruct (Qle_bool _ _); reflexivity.
Qed.

Lemma compute_rolling_stats_cases (self : TEPS.t) :
  TEPS.compute_rolling_stats self = Ok ((None, None, None), self)
  \/ exists x_min x_max x_mean : Q,
       TEPS.compute_rolling_stats self
       = Ok ((Some x_min, Some x_max, Some x_mean), self).
Proof.
  unfold TEPS.compute_rolling_stats. unfold_monad.
  destruct (Deque.items (TEPS.x_hist self)); [now left | right; eauto].
Qed.

(** Every way in which [update] returns. *)
Lemma update_cases (self s' : TEPS.t) (u : unit) :
  TEPS.update self = Ok (u, s') ->
  (Deque.len (TEPS.x_hist self) < TEPS.hist_size self /\ s' = self)
  \/ (window_full self /\
      exists x_min x_max x_mean : Q,
        TEPS.compute_rolling_stats self
        = Ok ((Some x_min, Some x_max, Some x_mean), self)
        /\ ((seeding_pending self /\ s' = seeded self x_min x_max x_mean)
            \/ (~ seeding_pending self
                /\ ~ (weight_sum (TEPS.weights self) == 0)%Q
                /\ s' = tracked self x_min x_max x_mean))).
Proof.
  intros Hup.
  destruct (Z.lt_ge_cases (Deque.len (TEPS.x_hist self))
                          (TEPS.hist_size self)) as [Hlt | Hfull].
  { left. split; [assumption|].
    rewrite (update_short self Hlt) in Hup. now inversion Hup. }
  right. split; [assumption|].
  assert (Hseed : seeding_pending self \/ ~ seeding_pending self).
  { destruct (String.eqb (TEPS.init_mode self) "min_distance"
              && negb (Cluster.ready (TEPS.air_cluster self))) eqn:E.
    - left. now apply seeding_pending_test.
    - right. intros H. apply seeding_pending_test in H. congruence. }
  destruct (compute_rolling_stats_cases self)
    as [Hnone | (x_min & x_max & x_mean & Hstats)].
  - exfalso. revert Hup.
    pose proof Hfull as Hfull'. apply Z.ltb_ge in Hfull'.
    unfold TEPS.update, bind at 1, get at 1. rewrite Hfull'.
    unfold bind at 1. rewrite Hnone.
    unfold bind at 1, get at 1.
    destruct (_ && _); [discriminate|].
    unfold bind at 1, TEPS.compute_cluster_distance. unfold_monad.
    destruct (TEPS.weights self) as [[w1 w2] w3]. discriminate.
  - exists x_min, x_max, x_mean. split; [assumption|].
    destruct Hseed as [Hseed | Hseed].
    + left. split; [assumption|].
      rewrite (update_seeding self _ _ _ Hfull Hstats Hseed) in Hup.
      now inversion Hup.
    + right. split; [assumption|].
      destruct (Qeq_bool (weight_sum (TEPS.weights self)) 0) eqn:Hw;
        bool_to_prop.
      * exfalso. revert Hup.
        pose proof Hfull as Hfull'. apply Z.ltb_ge in Hfull'.
        assert (Htest : String.eqb (TEPS.init_mode self) "min_distance"
                        && negb (Cluster.ready (TEPS.air_cluster self))
                        = false).
        { destruct (_ && _) eqn:E; [|reflexivity].
          apply seeding_pending_test in E. contradiction. }
        unfold TEPS.update, bind at 1, get at 1. rewrite Hfull'.
        unfold bind at 1. rewrite Hstats.
        unfold bind at 1, get at 1. rewrite Htest.
        unfold bind at 1.
        rewrite (compute_cluster_distance_zero_weights _ _ _ _ _ Hw).
        discriminate.
      * split; [assumption|].
        rewrite (update_tracking self _ _ _ Hfull Hstats Hseed Hw) in Hup.
        now inversion Hup.
Qed.

(** [update] assigns to the two cluster dicts only. *)
Lemma update_frame (self s' : TEPS.t) (u : unit) :
  TEPS.update self = Ok (u, s') ->
  s' = TEPS.set_drill_cluster
         (TEPS.set_air_cluster self (TEPS.air_cluster s'))
         (TEPS.drill_cluster s').
Proof.
  intros Hup. apply update_cases in Hup.
  destruct Hup as [[_ ->] | (_ & x_min & x_max & x_mean & _ &
                             [[_ ->] | (_ & _ & ->)])].
  - now destruct self.
  - reflexivity.
  - unfold tracked. destruct (Qle_bool _ _); now destruct self.
Qed.

(** Once set, the air cluster's [ready] flag stays set. *)
Lemma update_ready_stays (self s' : TEPS.t) (u : unit) :
  TEPS.update self = Ok (u, s') ->
  Cluster.ready (TEPS.air_cluster self) = true ->
  Cluster.ready (TEPS.air_cluster s') = true.
Proof.
  intros Hup Hready. apply update_cases in Hup.
  destruct Hup as [[_ ->] | (_ & x_min & x_max & x_mean & _ &
                             [[_ ->] | (_ & _ & ->)])];
    try assumption; try reflexivity.
  unfold tracked. destruct (Qle_bool _ _); assumption.
Qed.

(** [update] returns when the capacity is positive and either the
    seeding step is due or the weights do not sum to 0. *)
Lemma update_total (self : TEPS.t) :
  0 < TEPS.hist_size self ->
  ~ (weight_sum (TEPS.weights self) == 0)%Q ->
  exists s', TEPS.update self = Ok (tt, s').
Proof.
  intros Hpos Hw.
  destruct (Z.lt_ge_cases (Deque.len (TEPS.x_hist self))
                          (TEPS.hist_size self)) as [Hlt | Hfull].
  { exists self. now apply update_short. }
  destruct (compute_rolling_stats_full self Hpos Hfull)
    as (x_min & x_max & x_mean & Hstats).
  destruct (String.eqb (TEPS.init_mode self) "min_distance"
            && negb (Cluster.ready (TEPS.air_cluster self))) eqn:E.
  - apply seeding_pending_test in E. eexists.
    now apply (update_seeding self x_min x_max x_mean).
  - eexists. apply (update_tracking self x_min x_max x_mean); auto.
    intros H. apply seeding_pending_test in H. congruence.
Qed.

(** C6: on a full window, when the seeding step of [min_distance] is
    not due, [update] moves one cluster and leaves the other as it is:
    the air cluster when its weighted distance to the window statistics
    (taken on the stored clusters) is at most the drill cluster's, the
    drill cluster otherwise.  The cluster moved gets
    [(1 - a) * param + a * window_stat] in each of mean, min and max;
    nothing else in the object changes.  The window capacity is
    positive and the weights do not sum to 0. *)
Theorem update_moves_nearer_cluster (self : TEPS.t) :
  0 < TEPS.hist_size self ->
  ~ (weight_sum (TEPS.weights self) == 0)%Q ->
  window_full self ->
  ~ seeding_pending self ->
  exists (x_min x_max x_mean : Q) (s' : TEPS.t),
    TEPS.compute_rolling_stats self
    = Ok ((Some x_min, Some x_max, Some x_mean), self)
    /\ TEPS.update self = Ok (tt, s')
    /\ s' = TEPS.set_drill_cluster
              (TEPS.set_air_cluster self (TEPS.air_cluster s'))
              (TEPS.drill_cluster s')
    /\ let air_dist :=
         weighted_distance self (Stored AirCluster) x_min x_max x_mean in
       let drill_dist :=
         weighted_distance self (Stored DrillCluster) x_min x_max x_mean in
       let rate := TEPS.a self in
       ((air_dist <= drill_dist)%Q ->
        TEPS.air_cluster s'
        = Cluster.mk
            ((1 - rate) * Cluster.min (TEPS.air_cluster self)
             + rate * x_min)%Q
            ((1 - rate) * Cluster.max (TEPS.air_cluster self)
             + rate * x_max)%Q
            ((1 - rate) * Cluster.mean (TEPS.air_cluster self)
             + rate * x_mean)%Q
            (Cluster.count (TEPS.air_cluster self))
            (Cluster.sum (TEPS.air_cluster self))
            (Cluster.ready (TEPS.air_cluster self))
        /\ TEPS.drill_cluster s' = TEPS.drill_cluster self)
       /\
       ((drill_dist < air_dist)%Q ->
        TEPS.drill_cluster s'
        = Cluster.mk
            ((1 - rate) * Cluster.min (TEPS.drill_cluster self)
             + rate * x_min)%Q
            ((1 - rate) * Cluster.max (TEPS.drill_cluster self)
             + rate * x_max)%Q
            ((1 - rate) * Cluster.mean (TEPS.drill_cluster self)
             + rate * x_mean)%Q
            (Cluster.count (TEPS.drill_cluster self))
            (Cluster.sum (TEPS.drill_cluster self))
            (Cluster.ready (TEPS.drill_cluster self))
        /\ TEPS.air_cluster s' = TEPS.air_cluster self).
Proof.
  intros Hpos Hw Hfull Hseed.
  destruct (compute_rolling_stats_full self Hpos Hfull)
    as (x_min & x_max & x_mean & Hstats).
  pose proof (update_tracking self _ _ _ Hfull Hstats Hseed Hw) as Hup.
  exists x_min, x_max, x_mean, (tracked self x_min x_max x_mean).
  split; [assumption|]. split; [assumption|].
  split; [apply (update_frame _ _ _ Hup)|].
  cbv zeta. unfold tracked. split.
  - intros Hle. apply Qle_bool_iff in Hle. rewrite Hle. now split.
  - intros Hlt. apply Qle_bool_gt in Hlt. rewrite Hlt. now split.
Qed.

(** ** The learning rate *)

Lemma update_step_size_eq (self : TEPS.t) :
  TEPS.update_step_size self = Ok (tt, decayed self).
Proof.
  unfold TEPS.update_step_size, decayed. unfold_monad.
  destruct (Qgtb _ _); [|reflexivity]. simpl.
  destruct (Qltb _ _); reflexivity.
Qed.

Lemma decayed_frame (self : TEPS.t) :
  decayed self = TEPS.set_a self (TEPS.a (decayed self)).
Proof.
  unfold decayed.
  destruct (Qgtb _ _); [destruct (Qltb _ _)|]; now destruct self.
Qed.

Lemma decayed_rate (self : TEPS.t) :
  (0 < TEPS.a_min self)%Q ->
  (0 < TEPS.decay_factor self < 1)%Q ->
  (TEPS.a_min self <= TEPS.a self)%Q ->
  (TEPS.a (decayed self) <= TEPS.a self)%Q
  /\ (TEPS.a_min self <= TEPS.a (decayed self))%Q.
Proof.
  intros Hmin [Hd0 Hd1] Hinv. unfold decayed.
  destruct (Qgtb _ _) eqn:Hgt; [|split; [apply Qle_refl | assumption]].
  destruct (Qltb _ _) eqn:Hlt; simpl; bool_to_prop.
  - split; [assumption | apply Qle_refl].
  - split; [|assumption].
    assert (H : (0 <= TEPS.a self * (1 - TEPS.decay_factor self))%Q).
    { apply Qmult_le_0_compat; lra. }
    lra.
Qed.

(** ** One sample *)

Lemma process_sample_warmup (self : TEPS.t) (x : Q) (p : Z) :
  TEPS.start_index self < TEPS.ignore_start self ->
  TEPS.predict (skipped self) = Ok (p, skipped self) ->
  TEPS.process_sample x self = Ok (output p (skipped self), skipped self).
Proof.
  intros Hwarm Hp. apply Z.ltb_lt in Hwarm. rewrite <- Z.gtb_ltb in Hwarm.
  unfold TEPS.process_sample, bind at 1, get at 1. rewrite Hwarm.
  unfold bind at 1, modify at 1. fold (skipped self).
  unfold bind at 1. rewrite Hp. reflexivity.
Qed.

Lemma process_sample_active (self s1 : TEPS.t) (x : Q) (p : Z) :
  TEPS.ignore_start self <= TEPS.start_index self ->
  TEPS.update (pushed self x) = Ok (tt, s1) ->
  TEPS.predict (decayed s1) = Ok (p, decayed s1) ->
  TEPS.process_sample x self = Ok (output p (decayed s1), decayed s1).
Proof.
  intros Hact Hup Hp. apply Z.ltb_ge in Hact. rewrite <- Z.gtb_ltb in Hact.
  unfold TEPS.process_sample, bind at 1, get at 1. rewrite Hact.
  unfold bind at 1, bind at 1, modify at 1. fold (pushed self x).
  unfold bind at 1. rewrite Hup. rewrite update_step_size_eq.
  unfold bind at 1. rewrite Hp. reflexivity.
Qed.

(** Every way in which [process_sample] returns. *)
Lemma process_sample_cases (self s' : TEPS.t) (x : Q) (o : Z * (Q * Q)) :
  TEPS.process_sample x self = Ok (o, s') ->
  (exists p, TEPS.predict s' = Ok (p, s') /\ o = output p s')
  /\ ((TEPS.start_index self < TEPS.ignore_start self /\ s' = skipped self)
      \/ (TEPS.ignore_start self <= TEPS.start_index self /\
          exists s1, TEPS.update (pushed self x) = Ok (tt, s1)
                     /\ s' = decayed s1)).
Proof.
  unfold TEPS.process_sample, bind at 1, get at 1.
  destruct (TEPS.ignore_start self >? TEPS.start_index self) eqn:Hwarm;
    bool_to_prop.
  - unfold bind at 1, modify at 1. fold (skipped self).
    unfold bind at 1.
    destruct (TEPS.predict (skipped self)) as [[p s1]|] eqn:Hp;
      [|discriminate].
    pose proof (predict_frame _ _ _ Hp) as ->.
    unfold bind, get, ret. intros H. inversion H. subst.
    split; [exists p; now split | left; now split].
  - unfold bind at 1, bind at 1, modify at 1. fold (pushed self x).
    unfold bind at 1.
    destruct (TEPS.update (pushed self x)) as [[[] s1]|] eqn:Hup;
      [|discriminate].
    rewrite update_step_size_eq.
    unfold bind at 1.
    destruct (TEPS.predict (decayed s1)) as [[p s2]|] eqn:Hp;
      [|discriminate].
    pose proof (predict_frame _ _ _ Hp) as ->.
    unfold bind, get, ret. intros H. inversion H. subst.
    split; [exists p; now split | right; split; eauto].
Qed.

Lemma process_sample_rate (self s' : TEPS.t) (x : Q) (o : Z * (Q * Q)) :
  rate_ok self ->
  TEPS.process_sample x self = Ok (o, s') ->
  rate_ok s'
  /\ TEPS.a_min s' = TEPS.a_min self
  /\ (TEPS.a s' <= TEPS.a self)%Q.
Proof.
  intros (Hmin & Hdec & Hinv) Hps.
  apply process_sample_cases in Hps.
  destruct Hps as [_ [[_ ->] | (_ & s1 & Hup & ->)]].
  - unfold rate_ok. simpl. repeat split; try assumption; try apply Hdec.
    apply Qle_refl.
  - apply update_frame in Hup.
    assert (Ha : TEPS.a s1 = TEPS.a self) by (rewrite Hup; reflexivity).
    assert (Hm : TEPS.a_min s1 = TEPS.a_min self)
      by (rewrite Hup; reflexivity).
    assert (Hd : TEPS.decay_factor s1 = TEPS.decay_factor self)
      by (rewrite Hup; reflexivity).
    destruct (decayed_rate s1) as [Hle Hge];
      rewrite ?Hm, ?Hd, ?Ha; try assumption.
    rewrite (decayed_frame s1). unfold rate_ok. simpl.
    rewrite Hm, Hd. rewrite Ha, Hm in *. repeat split; try assumption;
      apply Hdec.
Qed.

Lemma states_head (s : TEPS.t) (xs : list Q) :
  exists l, states s xs = s :: l.
Proof. destruct xs; simpl; eauto. Qed.

Lemma states_rate (xs : list Q) :
  forall s : TEPS.t,
    rate_ok s ->
    Forall (fun s' => (TEPS.a_min s <= TEPS.a s')%Q) (states s xs)
    /\ forall (i : nat) (s1 s2 : TEPS.t),
         nth_error (states s xs) i = Some s1 ->
         nth_error (states s xs) (S i) = Some s2 ->
         (TEPS.a s2 <= TEPS.a s1)%Q.
Proof.
  induction xs as [|x r IH]; intros s Hok.
  - simpl. split.
    + constructor; [apply Hok | constructor].
    + intros i s1 s2 _ H. destruct i; discriminate.
  - simpl.
    destruct (TEPS.process_sample x s) as [[o s']|] eqn:Hps.
    + destruct (process_sample_rate _ _ _ _ Hok Hps) as (Hok' & Hm & Hle).
      destruct (IH s' Hok') as [Hall Hchain]. rewrite Hm in Hall.
      split; [constructor; [apply Hok | assumption]|].
      intros [|i] s1 s2 H1 H2; simpl in H1, H2.
      * inversion H1; subst s1.
        destruct (states_head s' r) as [l Hl]. rewrite Hl in H2.
        simpl in H2. inversion H2; subst s2. assumption.
      * now apply (Hchain i).
    + split; [constructor; [apply Hok | constructor]|].
      intros [|i] s1 s2 H1 H2; simpl in H1, H2;
        [discriminate | destruct i; discriminate].
Qed.

(** C9: given [0 < a_min <= a_init] and [0 < decay_factor < 1], along
    every sequence of [process_sample] calls on a new object the
    learning rate [a] never grows from one call to the next and never
    falls below [a_min]. *)
Theorem learning_rate_schedule
  (start_mean_air start_mean_drill : Q * Q * Q) (ignore_start : Z)
  (init_mode : string) (min_distance_threshold : Q) (hist_size : Z)
  (weights : Q * Q * Q) (factor a_init a_min decay_factor : Q)
  (s0 : TEPS.t) (xs : list Q) :
  (0 < a_min)%Q -> (a_min <= a_init)%Q ->
  (0 < decay_factor)%Q -> (decay_factor < 1)%Q ->
  TEPS.__init__ start_mean_air start_mean_drill ignore_start init_mode
                min_distance_threshold hist_size weights factor
                a_init a_min decay_factor = Ok s0 ->
  Forall (fun s => (a_min <= TEPS.a s)%Q) (states s0 xs)
  /\ forall (i : nat) (s1 s2 : TEPS.t),
       nth_error (states s0 xs) i = Some s1 ->
       nth_error (states s0 xs) (S i) = Some s2 ->
       (TEPS.a s2 <= TEPS.a s1)%Q.
Proof.
  intros Hmin Hinit Hd0 Hd1 Hnew.
  unfold TEPS.__init__ in Hnew.
  destruct start_mean_air as [[air0 air1] air2].
  destruct start_mean_drill as [[drill0 drill1] drill2].
  destruct (Deque.new hist_size) as [d|]; [|discriminate].
  injection Hnew as Hs0.
  assert (Hok : rate_ok s0).
  { subst s0. unfold rate_ok. simpl. repeat split; assumption. }
  assert (Hm : TEPS.a_min s0 = a_min) by (subst s0; reflexivity).
  destruct (states_rate xs s0 Hok) as [Hall Hchain].
  rewrite Hm in Hall. split; assumption.
Qed.

(** ** Warm-up *)

Lemma feed_cons (x : Q) (r : list Q) (s s' : TEPS.t) (o : Z * (Q * Q))
  (os : list (Z * (Q * Q))) (s'' : TEPS.t) :
  TEPS.process_sample x s = Ok (o, s') ->
  feed r s' = Ok (os, s'') ->
  feed (x :: r) s = Ok (o :: os, s'').
Proof.
  intros Hps Hr. simpl. unfold bind at 1. rewrite Hps.
  unfold bind at 1. rewrite Hr. reflexivity.
Qed.

(** While the window is short, calls within the warm-up count only. *)
Lemma feed_warmup (xs : list Q) :
  forall s : TEPS.t,
    Deque.len (TEPS.x_hist s) < TEPS.hist_size s ->
    TEPS.start_index s + Z.of_nat (length xs) <= TEPS.ignore_start s ->
    feed xs s
    = Ok (repeat (output 0 s) (length xs),
          TEPS.set_start_index s
            (TEPS.start_index s + Z.of_nat (length xs))).
Proof.
  induction xs as [|x r IH]; intros s Hshort Hwarm.
  - simpl. unfold ret. rewrite Z.add_0_r. now destruct s.
  - assert (Hlen : Z.of_nat (length (x :: r)) = Z.of_nat (length r) + 1)
      by (simpl length; lia).
    rewrite Hlen in *.
    assert (Hps : TEPS.process_sample x s
                  = Ok (output 0 (skipped s), skipped s)).
    { apply process_sample_warmup; [lia|].
      apply predict_short. exact Hshort. }
    assert (Hwarm' : TEPS.start_index (skipped s) + Z.of_nat (length r)
                     <= TEPS.ignore_start (skipped s))
      by (unfold skipped; cbn [TEPS.start_index TEPS.ignore_start
                               TEPS.set_start_index]; lia).
    rewrite (feed_cons x r s (skipped s) _ _ _ Hps
               (IH (skipped s) Hshort Hwarm')).
    unfold output, skipped, TEPS.set_start_index.
    cbn [TEPS.start_index TEPS.ignore_start TEPS.air_cluster
         TEPS.drill_cluster TEPS.a_init TEPS.a_min TEPS.a TEPS.decay_factor
         TEPS.init_mode TEPS.min_distance_threshold TEPS.hist_size
         TEPS.x_hist TEPS.weights TEPS.factor length repeat].
    do 3 f_equal. lia.
Qed.

(** C8: with [ignore_start = n] and a positive window capacity, the
    first [n] calls of [process_sample] on a new object each return
    prediction 0 with the initial air and drill means, and leave the
    clusters, the window and the learning rate as they were: the object
    differs from the new one in [start_index] only, which counts the
    calls. *)
Theorem warmup_is_inert
  (air_min air_max air_mean drill_min drill_max drill_mean : Q)
  (ignore_start : Z) (init_mode : string) (min_distance_threshold : Q)
  (hist_size : Z) (weights : Q * Q * Q)
  (factor a_init a_min decay_factor : Q) :
  0 < hist_size ->
  exists s0 : TEPS.t,
    TEPS.__init__ (air_min, air_max, air_mean)
                  (drill_min, drill_max, drill_mean)
                  ignore_start init_mode min_distance_threshold hist_size
                  weights factor a_init a_min decay_factor = Ok s0
    /\ forall xs : list Q,
         Z.of_nat (length xs) <= ignore_start ->
         feed xs s0
         = Ok (repeat (0, (air_mean, drill_mean)) (length xs),
               TEPS.set_start_index s0 (Z.of_nat (length xs))).
Proof.
  intros Hpos. unfold TEPS.__init__, Deque.new.
  destruct (hist_size <? 0) eqn:Hneg; bool_to_prop; [lia|].
  eexists. split; [reflexivity|].
  intros xs Hlen.
  rewrite feed_warmup;
    [reflexivity | unfold Deque.len; simpl; lia | simpl; lia].
Qed.

(** The capacity has to be positive: with [hist_size=0] the empty
    window counts as full, and the first call, still within the
    warm-up, raises [TypeError] on the statistics [None]. *)
Remark warmup_needs_capacity :
  exists s0 : TEPS.t,
    TEPS.__init__ TEPS.default_start_mean_air TEPS.default_start_mean_drill
                  1 TEPS.default_init_mode
                  TEPS.default_min_distance_threshold 0
                  TEPS.default_weights TEPS.default_factor
                  TEPS.default_a_init TEPS.default_a_min
                  TEPS.default_decay_factor = Ok s0
    /\ TEPS.process_sample 0 s0 = Raise TypeError.
Proof.
  eexists. split; [reflexivity|]. vm_compute. reflexivity.
Qed.

(** ** The all-zero stream on fixed clusters *)

(** The run on [0,0,0,0,0], evaluated. *)
Lemma fixed_zero_stream_run :
  exists (s0 s' : TEPS.t) (outs : list (Z * (Q * Q))),
    fixed_zero_config = Ok s0
    /\ feed [0; 0; 0; 0; 0]%Q s0 = Ok (outs, s')
    /\ map fst outs = [0; 0; 1; 1; 1]
    /\ exists c_mean c_max c_min : Q,
         TEPS.get_drill_or_clipped_cluster s'
         = Ok (Literal c_mean c_max c_min, s')
         /\ (c_mean == Cluster.mean (TEPS.air_cluster s'))%Q
         /\ (c_max == Cluster.max (TEPS.air_cluster s'))%Q
         /\ (c_min == Cluster.min (TEPS.air_cluster s'))%Q.
Proof.
  unfold fixed_zero_config. simpl TEPS.__init__.
  eexists. eexists. eexists.
  split; [reflexivity|].
  split; [vm_compute; reflexivity|].
  split; [vm_compute; reflexivity|].
  eexists. eexists. eexists.
  split; [vm_compute; reflexivity|].
  repeat split; vm_compute; reflexivity.
Qed.

(** C3, as the code has it: on the stream [0,0,0,0,0] the first two
    predictions are 0 (the window is short) and the third, fourth and
    fifth are 1: with [air.min = air.max] the shift is 0, the clipped
    cluster is the air cluster itself, the two distances tie at 0 and a
    tie predicts 1. *)
Theorem fixed_zero_stream_predictions :
  exists (s0 s' : TEPS.t) (outs : list (Z * (Q * Q))),
    fixed_zero_config = Ok s0
    /\ feed [0; 0; 0; 0; 0]%Q s0 = Ok (outs, s')
    /\ map fst outs = [0; 0; 1; 1; 1]
    /\ exists c_mean c_max c_min : Q,
         TEPS.get_drill_or_clipped_cluster s'
         = Ok (Literal c_mean c_max c_min, s')
         /\ (c_mean == Cluster.mean (TEPS.air_cluster s'))%Q
         /\ (c_max == Cluster.max (TEPS.air_cluster s'))%Q
         /\ (c_min == Cluster.min (TEPS.air_cluster s'))%Q.
Proof. exact fixed_zero_stream_run. Qed.

(** C3 fails as stated: the predictions for the third, fourth and fifth
    sample are not all 0. *)
Lemma fixed_zero_stream_not_all_zero :
  ~ (forall s0 : TEPS.t,
       fixed_zero_config = Ok s0 ->
       exists (s' : TEPS.t) (outs : list (Z * (Q * Q))),
         feed [0; 0; 0; 0; 0]%Q s0 = Ok (outs, s')
         /\ map fst (skipn 2 outs) = [0; 0; 0]).
Proof.
  intros H.
  destruct fixed_zero_stream_run
    as (s0 & s' & outs & Hnew & Hfeed & Hout & _).
  destruct (H s0 Hnew) as (s2 & outs2 & Hfeed2 & Hzero).
  rewrite Hfeed in Hfeed2. inversion Hfeed2; subst.
  destruct outs2 as [|o1 [|o2 [|o3 r]]]; try discriminate.
  simpl in Hout, Hzero. congruence.
Qed.

(** ** Seeding under [min_distance] *)

Lemma append_len (d : Deque.t) (x : Q) :
  Deque.len d <= Deque.maxlen d ->
  Deque.len (Deque.append d x) = Z.min (Deque.len d + 1) (Deque.maxlen d)
  /\ Deque.maxlen (Deque.append d x) = Deque.maxlen d.
Proof.
  unfold Deque.len, Deque.append. intros Hle.
  assert (Hlen : Z.of_nat (length (Deque.items d ++ [x]))
                 = Z.of_nat (length (Deque.items d)) + 1)
    by (rewrite length_app; simpl; lia).
  rewrite Hlen.
  destruct (_ >? _) eqn:Hgt; bool_to_prop; simpl; split; try reflexivity.
  - destruct (Deque.items d ++ [x])%list eqn:E; simpl in *; lia.
  - lia.
Qed.

Lemma seeding_step (self : TEPS.t) :
  0 < TEPS.hist_size self ->
  window_full self ->
  seeding_pending self ->
  exists x_min x_max x_mean : Q,
    TEPS.compute_rolling_stats self
    = Ok ((Some x_min, Some x_max, Some x_mean), self)
    /\ TEPS.update self = Ok (tt, seeded self x_min x_max x_mean).
Proof.
  intros Hpos Hfull Hseed.
  destruct (compute_rolling_stats_full self Hpos Hfull)
    as (x_min & x_max & x_mean & Hstats).
  exists x_min, x_max, x_mean. split; [assumption|].
  now apply update_seeding.
Qed.

(** The flag changes in the seeding step only. *)
Lemma update_ready_flips (self s' : TEPS.t) (u : unit) :
  TEPS.update self = Ok (u, s') ->
  Cluster.ready (TEPS.air_cluster self) = false ->
  Cluster.ready (TEPS.air_cluster s') = true ->
  window_full self /\ seeding_pending self.
Proof.
  intros Hup Hoff Hon. apply update_cases in Hup.
  destruct Hup as [[_ ->] | (Hfull & x_min & x_max & x_mean & _ &
                             [[Hseed ->] | (_ & _ & ->)])].
  - congruence.
  - now split.
  - unfold tracked in Hon. destruct (Qle_bool _ _); simpl in Hon; congruence.
Qed.

Section MinDistanceRun.
Variables ignore hist : Z.
Hypothesis hist_pos : 0 < hist.

Lemma run_inv_step (k : Z) (s : TEPS.t) (x : Q) :
  0 <= k -> run_inv ignore hist k s ->
  exists o s', TEPS.process_sample x s = Ok (o, s') /\ run_inv ignore hist (k + 1) s'.
Proof.
  intros Hk (Hmode & Hhist & Hmax & Hign & Hw & Hidx & Hlen & Hready).
  destruct (Z.lt_ge_cases k ignore) as [Hwarm | Hact].
  - (* warm-up *)
    destruct (predict_total (skipped s)) as (p & Hp & _);
      [simpl; lia | exact Hw |].
    exists (output p (skipped s)), (skipped s). split.
    + apply process_sample_warmup; [lia | exact Hp].
    + unfold run_inv, skipped. simpl.
      repeat split; try assumption; try lia.
      rewrite Hready. destruct (Z.leb_spec (ignore + hist) k);
        destruct (Z.leb_spec (ignore + hist) (k + 1)); try reflexivity; lia.
  - (* a processed sample *)
    destruct (append_len (TEPS.x_hist s) x) as [Hplen Hpmax]; [lia|].
    set (sp := pushed s x).
    assert (Hsp_len : Deque.len (TEPS.x_hist sp)
                      = Z.min (k + 1 - ignore) hist)
      by (unfold sp, pushed; simpl; lia).
    assert (Hsp_w : ~ (weight_sum (TEPS.weights sp) == 0)%Q) by exact Hw.
    destruct (update_total sp) as [s1 Hup]; [simpl; lia | exact Hsp_w |].
    pose proof (update_frame _ _ _ Hup) as Hfr.
    pose proof (decayed_frame s1) as Hdec.
    assert (Hready1 : Cluster.ready (TEPS.air_cluster s1)
                      = (ignore + hist <=? k + 1)).
    { pose proof Hup as Hc. apply update_cases in Hc.
      destruct Hc as [[Hshort ->] | (Hfull & x_min & x_max & x_mean & _ &
                                     [[Hseed ->] | (Hns & _ & ->)])].
      - unfold sp at 1, pushed. simpl. rewrite Hready.
        rewrite Hsp_len in Hshort. simpl in Hshort.
        destruct (Z.leb_spec (ignore + hist) k);
          destruct (Z.leb_spec (ignore + hist) (k + 1)); try reflexivity; lia.
      - simpl. unfold window_full in Hfull. rewrite Hsp_len in Hfull.
        simpl in Hfull. symmetry. apply Z.leb_le. lia.
      - unfold window_full in Hfull. rewrite Hsp_len in Hfull.
        simpl in Hfull.
        assert (Hon : Cluster.ready (TEPS.air_cluster sp) = true).
        { destruct (Cluster.ready (TEPS.air_cluster sp)) eqn:E; auto.
          exfalso. apply Hns. split; [exact Hmode | exact E]. }
        unfold tracked. destruct (Qle_bool _ _); simpl;
          try (unfold sp, pushed in Hon; simpl in Hon);
          rewrite ?Hon; symmetry; apply Z.leb_le; lia. }
    assert (Hfields : TEPS.init_mode (decayed s1) = TEPS.init_mode s
                      /\ TEPS.hist_size (decayed s1) = TEPS.hist_size s
                      /\ TEPS.x_hist (decayed s1) = TEPS.x_hist sp
                      /\ TEPS.ignore_start (decayed s1) = TEPS.ignore_start s
                      /\ TEPS.weights (decayed s1) = TEPS.weights s
                      /\ TEPS.start_index (decayed s1) = TEPS.start_index s
                      /\ TEPS.air_cluster (decayed s1) = TEPS.air_cluster s1).
    { rewrite Hdec. simpl. rewrite Hfr. simpl. repeat split. }
    destruct Hfields as (F1 & F2 & F3 & F4 & F5 & F6 & F7).
    destruct (predict_total (decayed s1)) as (p & Hp & _);
      [rewrite F2; lia | rewrite F5; exact Hw |].
    exists (output p (decayed s1)), (decayed s1). split.
    + apply process_sample_active; [lia | exact Hup | exact Hp].
    + unfold run_inv. rewrite F1, F2, F3, F4, F5, F6, F7.
      repeat split; try assumption; try lia.
      unfold sp, pushed. simpl. lia.
Qed.

Lemma states_run_inv (xs : list Q) :
  forall (k : Z) (s : TEPS.t),
    0 <= k -> run_inv ignore hist k s ->
    length (states s xs) = S (length xs)
    /\ forall (i : nat) (s' : TEPS.t),
         nth_error (states s xs) i = Some s' ->
         run_inv ignore hist (k + Z.of_nat i) s'.
Proof.
  induction xs as [|x r IH]; intros k s Hk Hinv.
  - simpl. split; [reflexivity|].
    intros [|i] s' H; simpl in H; [|destruct i; discriminate].
    inversion H; subst. now rewrite Z.add_0_r.
  - destruct (run_inv_step k s x Hk Hinv) as (o & s1 & Hps & Hinv1).
    simpl. rewrite Hps.
    destruct (IH (k + 1) s1 ltac:(lia) Hinv1) as [Hlen Hnth].
    split; [simpl; now rewrite Hlen|].
    intros [|i] s' H; simpl in H.
    + inversion H; subst. now rewrite Z.add_0_r.
    + apply Hnth in H.
      replace (k + Z.of_nat (S i)) with (k + 1 + Z.of_nat i) by lia.
      exact H.
Qed.
End MinDistanceRun.

Lemma Qabs_half (t : Q) : (Qabs (t / 2) == Qabs t / 2)%Q.
Proof. unfold Qdiv. rewrite Qabs_Qmult. reflexivity. Qed.

(** C7: under [init_mode = 'min_distance'] the air cluster's [ready]
    flag of a new object is off, and over every run it is on after
    exactly those calls that come at or after the first call whose
    window is full (call number [ignore_start + hist_size]): it goes
    from off to on once, in that call, and stays on.  In the call of
    [update] that turns it on, the air cluster's mean, min and max
    become the window statistics and the drill cluster's become the
    window statistics plus [factor * |min_distance_threshold| / 2];
    nothing but the two clusters changes, and no distance is computed
    (the step does not depend on the weights).  A call of [update]
    turns the flag on only this way, and never turns it off. *)
Theorem min_distance_seeding
  (start_mean_air start_mean_drill : Q * Q * Q) (ignore_start : Z)
  (min_distance_threshold : Q) (hist_size : Z) (weights : Q * Q * Q)
  (factor a_init a_min decay_factor : Q) :
  0 < hist_size ->
  0 <= ignore_start ->
  ~ (weight_sum weights == 0)%Q ->
  exists s0 : TEPS.t,
    TEPS.__init__ start_mean_air start_mean_drill ignore_start
                  "min_distance" min_distance_threshold hist_size weights
                  factor a_init a_min decay_factor = Ok s0
    /\ (forall xs : list Q,
          length (states s0 xs) = S (length xs)
          /\ forall (k : nat) (s : TEPS.t),
               nth_error (states s0 xs) k = Some s ->
               Cluster.ready (TEPS.air_cluster s)
               = (ignore_start + hist_size <=? Z.of_nat k)
               /\ (window_full s <->
                   ignore_start + hist_size <= Z.of_nat k))
    /\ (forall self : TEPS.t,
          0 < TEPS.hist_size self ->
          window_full self ->
          seeding_pending self ->
          exists (x_min x_max x_mean : Q) (s' : TEPS.t),
            TEPS.compute_rolling_stats self
            = Ok ((Some x_min, Some x_max, Some x_mean), self)
            /\ TEPS.update self = Ok (tt, s')
            /\ s' = TEPS.set_drill_cluster
                      (TEPS.set_air_cluster self (TEPS.air_cluster s'))
                      (TEPS.drill_cluster s')
            /\ TEPS.air_cluster s'
               = Cluster.mk x_min x_max x_mean
                   (Cluster.count (TEPS.air_cluster self))
                   (Cluster.sum (TEPS.air_cluster self)) true
            /\ let offset :=
                 (TEPS.factor self
                  * Qabs (TEPS.min_distance_threshold self) / 2)%Q in
               (Cluster.mean (TEPS.drill_cluster s') == x_mean + offset)%Q
               /\ (Cluster.min (TEPS.drill_cluster s') == x_min + offset)%Q
               /\ (Cluster.max (TEPS.drill_cluster s') == x_max + offset)%Q
               /\ Cluster.count (TEPS.drill_cluster s')
                  = Cluster.count (TEPS.drill_cluster self)
               /\ Cluster.sum (TEPS.drill_cluster s')
                  = Cluster.sum (TEPS.drill_cluster self)
               /\ Cluster.ready (TEPS.drill_cluster s')
                  = Cluster.ready (TEPS.drill_cluster self))
    /\ (forall (self s' : TEPS.t),
          TEPS.update self = Ok (tt, s') ->
          Cluster.ready (TEPS.air_cluster self) = false ->
          Cluster.ready (TEPS.air_cluster s') = true ->
          window_full self /\ seeding_pending self)
    /\ (forall (self s' : TEPS.t),
          TEPS.update self = Ok (tt, s') ->
          Cluster.ready (TEPS.air_cluster self) = true ->
          Cluster.ready (TEPS.air_cluster s') = true).
Proof.
  intros Hpos Hign Hw.
  destruct start_mean_air as [[air0 air1] air2].
  destruct start_mean_drill as [[drill0 drill1] drill2].
  unfold TEPS.__init__, Deque.new.
  destruct (hist_size <? 0) eqn:Hneg; bool_to_prop; [lia|].
  eexists. split; [reflexivity|].
  split; [|split; [|split]].
  - intros xs.
    match goal with |- context [states ?s xs] => set (s0 := s) end.
    assert (Hinv : run_inv ignore_start hist_size 0 s0).
    { unfold run_inv, s0, Deque.len. simpl.
      repeat split; try assumption; try lia;
        try (symmetry; apply Z.leb_gt; lia). }
    destruct (states_run_inv ignore_start hist_size Hpos xs 0 s0
                ltac:(lia) Hinv) as [Hlen Hnth].
    split; [exact Hlen|].
    intros k s Hk. apply Hnth in Hk.
    destruct Hk as (_ & Hh & _ & _ & _ & _ & Hl & Hr).
    split; [exact Hr|].
    unfold window_full. rewrite Hh, Hl. lia.
  - intros self Hp Hfull Hseed.
    destruct (seeding_step self Hp Hfull Hseed)
      as (x_min & x_max & x_mean & Hstats & Hup).
    exists x_min, x_max, x_mean, (seeded self x_min x_max x_mean).
    split; [exact Hstats|]. split; [exact Hup|].
    split; [reflexivity|]. split; [reflexivity|].
    cbv zeta. unfold seeded.
    cbn [TEPS.drill_cluster TEPS.air_cluster TEPS.set_drill_cluster
         TEPS.set_air_cluster TEPS.factor TEPS.min_distance_threshold
         Cluster.mean Cluster.min Cluster.max Cluster.count Cluster.sum
         Cluster.ready].
    split; [|split; [|split; [|repeat split]]];
      rewrite Qabs_half; unfold Qdiv; ring.
  - intros self s'. apply update_ready_flips.
  - intros self s'. apply update_ready_stays.
Qed.

(** ** Construction and the configuration it accepts *)

Section OtherModes.
Variable m : string.
Hypothesis other : m <> "min_distance"%string.

Lemma agree_bind {A B} (c c' : M TEPS.t A) (k k' : A -> M TEPS.t B)
  (s1 s2 : TEPS.t) :
  agree m (c s1) (c' s2) ->
  (forall v t, TEPS.init_mode t = "fixed"%string ->
               agree m (k v (with_init_mode t m)) (k' v t)) ->
  agree m (bind c k s1) (bind c' k' s2).
Proof.
  unfold bind. intros Hc Hk.
  destruct (c s1) as [[v1 t1]|e1], (c' s2) as [[v2 t2]|e2];
    simpl in Hc; try contradiction; [|exact Hc].
  destruct Hc as (-> & -> & Ht). now apply Hk.
Qed.

Lemma bind_ret {A B} (v : A) (k : A -> M TEPS.t B) (s : TEPS.t) :
  bind (ret v) k s = k v s.
Proof. reflexivity. Qed.

Lemma agree_ok {A} (v : A) (t : TEPS.t) :
  TEPS.init_mode t = "fixed"%string ->
  agree m (Ok (v, with_init_mode t m)) (Ok (v, t)).
Proof. intros Ht. simpl. auto. Qed.

Lemma other_test : String.eqb m "min_distance" = false.
Proof. now apply String.eqb_neq. Qed.

Ltac same_fields :=
  cbn [with_init_mode TEPS.air_cluster TEPS.drill_cluster TEPS.a_init
       TEPS.a_min TEPS.a TEPS.decay_factor TEPS.start_index
       TEPS.ignore_start TEPS.init_mode TEPS.min_distance_threshold
       TEPS.hist_size TEPS.x_hist TEPS.weights TEPS.factor TEPS.deref
       TEPS.item_mean TEPS.item_min TEPS.item_max TEPS.set_a
       TEPS.set_air_cluster TEPS.set_drill_cluster TEPS.set_start_index
       TEPS.set_x_hist].

Ltac step_get :=
  match goal with
  | |- agree m (bind get ?k ?s1) (bind get ?k' ?s2) =>
      change (agree m (k s1 s1) (k' s2 s2)); cbv beta; same_fields
  end.

Lemma compute_rolling_stats_same :
  same_as_fixed m TEPS.compute_rolling_stats.
Proof.
  intros t Ht. unfold TEPS.compute_rolling_stats. unfold_monad. same_fields.
  destruct (Deque.items (TEPS.x_hist t)); now apply agree_ok.
Qed.

Lemma compute_cluster_distance_same
  (c : cluster_obj) (x_min x_max x_mean : option Q) :
  same_as_fixed m (TEPS.compute_cluster_distance c x_min x_max x_mean).
Proof.
  intros t Ht. unfold TEPS.compute_cluster_distance. unfold_monad.
  same_fields.
  destruct (TEPS.weights t) as [[w1 w2] w3].
  destruct x_mean, x_min, x_max; try reflexivity.
  replace (TEPS.item_mean (with_init_mode t m) c) with (TEPS.item_mean t c)
    by (destruct c as [[|]|]; reflexivity).
  replace (TEPS.item_min (with_init_mode t m) c) with (TEPS.item_min t c)
    by (destruct c as [[|]|]; reflexivity).
  replace (TEPS.item_max (with_init_mode t m) c) with (TEPS.item_max t c)
    by (destruct c as [[|]|]; reflexivity).
  destruct (Qeq_bool _ _); [reflexivity | now apply agree_ok].
Qed.

Lemma get_drill_or_clipped_cluster_same :
  same_as_fixed m TEPS.get_drill_or_clipped_cluster.
Proof.
  intros t Ht. unfold TEPS.get_drill_or_clipped_cluster. unfold_monad.
  same_fields.
  destruct (_ && _); now apply agree_ok.
Qed.

Lemma update_step_size_same : same_as_fixed m TEPS.update_step_size.
Proof.
  intros t Ht. rewrite !update_step_size_eq. unfold decayed. same_fields.
  destruct (Qgtb _ _); [destruct (Qltb _ _)|];
    simpl; repeat split; assumption.
Qed.

Lemma predict_same : same_as_fixed m TEPS.predict.
Proof.
  intros t Ht. unfold TEPS.predict. step_get.
  destruct (_ <? _); [now apply agree_ok|].
  apply agree_bind; [now apply compute_rolling_stats_same|].
  intros [[x_min x_max] x_mean] t1 Ht1.
  apply agree_bind; [now apply compute_cluster_distance_same|].
  intros air_dist t2 Ht2.
  apply agree_bind; [now apply get_drill_or_clipped_cluster_same|].
  intros drill_c t3 Ht3.
  apply agree_bind; [now apply compute_cluster_distance_same|].
  intros drill_dist t4 Ht4.
  step_get. rewrite other_test, Ht4.
  change (String.eqb "fixed" "min_distance") with false.
  now apply agree_ok.
Qed.

Lemma assign_same (h : stored) (f : Cluster.t -> Q -> Cluster.t) (v : Q) :
  same_as_fixed m (TEPS.assign h f v).
Proof.
  intros t Ht. unfold TEPS.assign, modify.
  destruct h; simpl; repeat split; assumption.
Qed.

Lemma update_same : same_as_fixed m TEPS.update.
Proof.
  intros t Ht. unfold TEPS.update. step_get.
  destruct (_ <? _); [now apply agree_ok|].
  apply agree_bind; [now apply compute_rolling_stats_same|].
  intros [[x_min x_max] x_mean] t1 Ht1.
  step_get. rewrite other_test, Ht1.
  change (String.eqb "fixed" "min_distance") with false.
  cbn [andb].
  apply agree_bind; [now apply compute_cluster_distance_same|].
  intros air_dist t2 Ht2.
  apply agree_bind; [now apply compute_cluster_distance_same|].
  intros drill_dist t3 Ht3.
  destruct x_mean as [v_mean|]; [|reflexivity].
  destruct x_min as [v_min|]; [|reflexivity].
  destruct x_max as [v_max|]; [|reflexivity].
  unfold number. rewrite !bind_ret.
  step_get.
  replace (TEPS.deref (with_init_mode t3 m)) with (TEPS.deref t3)
    by reflexivity.
  apply agree_bind; [now apply assign_same|].
  intros [] t4 Ht4. step_get.
  replace (TEPS.deref (with_init_mode t4 m)) with (TEPS.deref t4)
    by reflexivity.
  apply agree_bind; [now apply assign_same|].
  intros [] t5 Ht5. step_get.
  replace (TEPS.deref (with_init_mode t5 m)) with (TEPS.deref t5)
    by reflexivity.
  now apply assign_same.
Qed.

Lemma process_sample_same (x : Q) : same_as_fixed m (TEPS.process_sample x).
Proof.
  intros t Ht. unfold TEPS.process_sample. step_get.
  apply agree_bind.
  - destruct (_ >? _).
    + unfold modify. simpl. repeat split; assumption.
    + apply agree_bind;
        [unfold modify; simpl; repeat split; assumption|].
      intros [] t1 Ht1.
      apply agree_bind; [now apply update_same|].
      intros [] t2 Ht2. now apply update_step_size_same.
  - intros [] t1 Ht1.
    apply agree_bind; [now apply predict_same|].
    intros p t2 Ht2. step_get. now apply agree_ok.
Qed.

Lemma process_sample_other_mode (self : TEPS.t) (x : Q) :
  TEPS.process_sample x (with_init_mode self m)
  = relabel m (TEPS.process_sample x (with_init_mode self "fixed")).
Proof.
  pose proof (process_sample_same x (with_init_mode self "fixed")
                                  eq_refl) as H.
  change (with_init_mode (with_init_mode self "fixed") m)
    with (with_init_mode self m) in H.
  unfold agree in H. unfold relabel.
  destruct (TEPS.process_sample x (with_init_mode self m)) as [[v1 t1]|e1],
           (TEPS.process_sample x (with_init_mode self "fixed"))
             as [[v2 t2]|e2]; try contradiction.
  - destruct H as (-> & -> & _). reflexivity.
  - now subst.
Qed.
End OtherModes.

Lemma predict_zero_weights (self : TEPS.t) :
  0 < TEPS.hist_size self ->
  window_full self ->
  (weight_sum (TEPS.weights self) == 0)%Q ->
  TEPS.predict self = Raise ZeroDivisionError.
Proof.
  intros Hpos Hfull Hw.
  destruct (compute_rolling_stats_full self Hpos Hfull)
    as (x_min & x_max & x_mean & Hstats).
  apply Z.ltb_ge in Hfull.
  unfold TEPS.predict, bind at 1, get at 1. rewrite Hfull.
  unfold bind at 1. rewrite Hstats.
  unfold bind at 1.
  now rewrite (compute_cluster_distance_zero_weights _ _ _ _ _ Hw).
Qed.

(** C5, as the code has it: [__init__] checks neither the weights nor
    [init_mode].  It returns the object for every weights triple and
    every [init_mode] string, and raises only for a negative
    [hist_size] (the [ValueError] of [deque]).  With weights that sum
    to 0 the distance computation is reached and raises
    [ZeroDivisionError], and so does [predict] once the window is full.
    An [init_mode] other than ['min_distance'] makes [process_sample]
    do what it does under ['fixed']. *)
Theorem construction_is_unvalidated
  (air_min air_max air_mean drill_min drill_max drill_mean : Q)
  (ignore_start : Z) (init_mode : string) (min_distance_threshold : Q)
  (hist_size : Z) (weights : Q * Q * Q)
  (factor a_init a_min decay_factor : Q) :
  TEPS.__init__ (air_min, air_max, air_mean)
                (drill_min, drill_max, drill_mean)
                ignore_start init_mode min_distance_threshold hist_size
                weights factor a_init a_min decay_factor
  = (if hist_size <? 0 then Raise ValueError
     else Ok (TEPS.mk (Cluster.mk air_min air_max air_mean 0 0 false)
                      (Cluster.mk drill_min drill_max drill_mean 0 0 false)
                      a_init a_min a_init decay_factor 0 ignore_start
                      init_mode min_distance_threshold hist_size
                      (Deque.mk [] hist_size) weights factor))
  /\ ((weight_sum weights == 0)%Q ->
      forall self : TEPS.t,
        TEPS.weights self = weights ->
        (forall (c : cluster_obj) (x_min x_max x_mean : Q),
           TEPS.compute_cluster_distance
             c (Some x_min) (Some x_max) (Some x_mean) self
           = Raise ZeroDivisionError)
        /\ (0 < TEPS.hist_size self -> window_full self ->
            TEPS.predict self = Raise ZeroDivisionError))
  /\ (init_mode <> "min_distance"%string ->
      forall (self : TEPS.t) (x : Q),
        TEPS.process_sample x (with_init_mode self init_mode)
        = relabel init_mode
            (TEPS.process_sample x (with_init_mode self "fixed"))).
Proof.
  split; [|split].
  - unfold TEPS.__init__, Deque.new. now destruct (hist_size <? 0).
  - intros Hw self Hself. rewrite <- Hself in Hw. split.
    + intros c x_min x_max x_mean.
      now apply compute_cluster_distance_zero_weights.
    + intros Hpos Hfull. now apply predict_zero_weights.
  - intros Hother self x. now apply process_sample_other_mode.
Qed.

(** C5 fails as stated: the default configuration with weights
    [(0,0,0)] (and [hist_size=1], [ignore_start=0]) is constructed, and
    its first sample raises [ZeroDivisionError] in the distance
    computation; the default configuration with [init_mode='auto'] is
    constructed too. *)
Lemma construction_accepts_invalid_config :
  (exists s : TEPS.t,
     TEPS.__init__ TEPS.default_start_mean_air TEPS.default_start_mean_drill
                   0 TEPS.default_init_mode
                   TEPS.default_min_distance_threshold 1 (0, 0, 0)%Q
                   TEPS.default_factor TEPS.default_a_init
                   TEPS.default_a_min TEPS.default_decay_factor = Ok s
     /\ TEPS.predict (pushed s 0) = Raise ZeroDivisionError
     /\ TEPS.process_sample 0 s = Raise ZeroDivisionError)
  /\ (exists s : TEPS.t,
        TEPS.__init__ TEPS.default_start_mean_air
                      TEPS.default_start_mean_drill
                      TEPS.default_ignore_start "auto"
                      TEPS.default_min_distance_threshold
                      TEPS.default_hist_size TEPS.default_weights
                      TEPS.default_factor TEPS.default_a_init
                      TEPS.default_a_min TEPS.default_decay_factor = Ok s).
Proof.
  split.
  - eexists. split; [reflexivity|]. split; vm_compute; reflexivity.
  - eexists. reflexivity.
Qed.

(** * Instances *)

Ltac evaluate := solve [vm_compute; first [reflexivity | discriminate]].

(** Previous phase 6 is outside the labels: no phase comes back. *)
Lemma get_phase_label_out_of_domain_witness :
  (Qabs 0 <= 1000)%Q
  /\ ~ (0 <= 6 <= 5)
  /\ TEPS.get_phase_label 6 1 0 full_object = Ok (None, full_object).
Proof.
  assert (H1 : (Qabs 0 <= 1000)%Q) by evaluate.
  assert (H2 : ~ (0 <= 6 <= 5)) by lia.
  repeat (split; [assumption|]).
  exact (get_phase_label_out_of_domain full_object 6 1 0 H1 H2).
Defined.

Lemma predict_decision_witness :
  0 < TEPS.hist_size full_object
  /\ ~ (weight_sum (TEPS.weights full_object) == 0)%Q
  /\ window_full full_object
  /\ ~ clusters_too_close full_object
  /\ exists (x_min x_max x_mean : Q) (drill_c : cluster_obj),
       TEPS.compute_rolling_stats full_object
       = Ok ((Some x_min, Some x_max, Some x_mean), full_object)
       /\ TEPS.get_drill_or_clipped_cluster full_object
          = Ok (drill_c, full_object)
       /\ ((weighted_distance full_object drill_c x_min x_max x_mean
            <= weighted_distance full_object (Stored AirCluster)
                 x_min x_max x_mean)%Q ->
           TEPS.predict full_object = Ok (1, full_object))
       /\ ((weighted_distance full_object (Stored AirCluster)
              x_min x_max x_mean
            < weighted_distance full_object drill_c x_min x_max x_mean)%Q ->
           TEPS.predict full_object = Ok (0, full_object)).
Proof.
  assert (Hpos : 0 < TEPS.hist_size full_object) by evaluate.
  assert (Hw : ~ (weight_sum (TEPS.weights full_object) == 0)%Q)
    by evaluate.
  assert (Hfull : window_full full_object) by evaluate.
  assert (Hfar : ~ clusters_too_close full_object)
    by (intros [Hmode _]; discriminate Hmode).
  repeat (split; [assumption|]).
  destruct (proj2 (predict_decision full_object) Hpos Hw Hfull)
    as (x_min & x_max & x_mean & drill_c & Hstats & Hclip & _ & Hdec).
  exists x_min, x_max, x_mean, drill_c.
  split; [exact Hstats|]. split; [exact Hclip|]. exact (Hdec Hfar).
Defined.

Lemma get_drill_or_clipped_cluster_choice_witness :
  clipped_nearer_air full_object
  /\ TEPS.get_drill_or_clipped_cluster full_object
     = Ok (Literal (clipped_mean full_object) (clipped_max full_object)
                   (clipped_min full_object), full_object).
Proof.
  assert (Hnear : clipped_nearer_air full_object)
    by (split; evaluate).
  split; [exact Hnear|].
  exact (proj1 (proj1 (get_drill_or_clipped_cluster_choice full_object))
               Hnear).
Defined.

Lemma update_moves_nearer_cluster_witness :
  0 < TEPS.hist_size full_object
  /\ ~ (weight_sum (TEPS.weights full_object) == 0)%Q
  /\ window_full full_object
  /\ ~ seeding_pending full_object
  /\ exists (x_min x_max x_mean : Q) (s' : TEPS.t),
       TEPS.compute_rolling_stats full_object
       = Ok ((Some x_min, Some x_max, Some x_mean), full_object)
       /\ TEPS.update full_object = Ok (tt, s')
       /\ s' = TEPS.set_drill_cluster
                 (TEPS.set_air_cluster full_object (TEPS.air_cluster s'))
                 (TEPS.drill_cluster s').
Proof.
  assert (Hpos : 0 < TEPS.hist_size full_object) by evaluate.
  assert (Hw : ~ (weight_sum (TEPS.weights full_object) == 0)%Q)
    by evaluate.
  assert (Hfull : window_full full_object) by evaluate.
  assert (Hseed : ~ seeding_pending full_object)
    by (intros [Hmode _]; discriminate Hmode).
  repeat (split; [assumption|]).
  destruct (update_moves_nearer_cluster full_object Hpos Hw Hfull Hseed)
    as (x_min & x_max & x_mean & s' & Hstats & Hup & Hfr & _).
  exists x_min, x_max, x_mean, s'. auto.
Defined.

Lemma min_distance_seeding_witness :
  0 < 3 /\ 0 <= 2
  /\ ~ (weight_sum TEPS.default_weights == 0)%Q
  /\ exists s0 : TEPS.t,
       TEPS.__init__ TEPS.default_start_mean_air
                     TEPS.default_start_mean_drill 2 "min_distance"
                     TEPS.default_min_distance_threshold 3
                     TEPS.default_weights TEPS.default_factor
                     TEPS.default_a_init TEPS.default_a_min
                     TEPS.default_decay_factor = Ok s0
       /\ forall xs : list Q,
            length (states s0 xs) = S (length xs)
            /\ forall (k : nat) (s : TEPS.t),
                 nth_error (states s0 xs) k = Some s ->
                 Cluster.ready (TEPS.air_cluster s)
                 = (2 + 3 <=? Z.of_nat k)
                 /\ (window_full s <-> 2 + 3 <= Z.of_nat k).
Proof.
  assert (H1 : 0 < 3) by lia.
  assert (H2 : 0 <= 2) by lia.
  assert (H3 : ~ (weight_sum TEPS.default_weights == 0)%Q) by evaluate.
  repeat (split; [assumption|]).
  destruct (min_distance_seeding
              TEPS.default_start_mean_air TEPS.default_start_mean_drill 2
              TEPS.default_min_distance_threshold 3 TEPS.default_weights
              TEPS.default_factor TEPS.default_a_init TEPS.default_a_min
              TEPS.default_decay_factor H1 H2 H3)
    as (s0 & Hnew & Hrun & _).
  exists s0. split; [exact Hnew | exact Hrun].
Defined.

Lemma warmup_is_inert_witness :
  0 < TEPS.default_hist_size
  /\ exists s0 : TEPS.t,
       TEPS.__init__ (0, 0, 0)%Q (- (3 # 2), - (3 # 2), - (3 # 2))%Q
                     TEPS.default_ignore_start TEPS.default_init_mode
                     TEPS.default_min_distance_threshold
                     TEPS.default_hist_size TEPS.default_weights
                     TEPS.default_factor TEPS.default_a_init
                     TEPS.default_a_min TEPS.default_decay_factor = Ok s0
       /\ feed [1; 2; 3]%Q s0
          = Ok (repeat (0, (0%Q, (- (3 # 2))%Q)) 3,
                TEPS.set_start_index s0 3).
Proof.
  assert (Hpos : 0 < TEPS.default_hist_size) by evaluate.
  split; [exact Hpos|].
  destruct (warmup_is_inert
              0 0 0 (- (3 # 2)) (- (3 # 2)) (- (3 # 2))
              TEPS.default_ignore_start TEPS.default_init_mode
              TEPS.default_min_distance_threshold TEPS.default_hist_size
              TEPS.default_weights TEPS.default_factor TEPS.default_a_init
              TEPS.default_a_min TEPS.default_decay_factor Hpos)
    as (s0 & Hnew & Hrun).
  exists s0. split; [exact Hnew|].
  apply (Hrun [1; 2; 3]%Q). evaluate.
Defined.

Lemma learning_rate_schedule_witness :
  (0 < TEPS.default_a_min)%Q
  /\ (TEPS.default_a_min <= TEPS.default_a_init)%Q
  /\ (0 < TEPS.default_decay_factor)%Q
  /\ (TEPS.default_decay_factor < 1)%Q
  /\ exists s0 : TEPS.t,
       fixed_zero_config = Ok s0
       /\ length (states s0 [0; 0; 0; 0]%Q) = 5%nat
       /\ Forall (fun s => (TEPS.default_a_min <= TEPS.a s)%Q)
                 (states s0 [0; 0; 0; 0]%Q).
Proof.
  assert (H1 : (0 < TEPS.default_a_min)%Q) by evaluate.
  assert (H2 : (TEPS.default_a_min <= TEPS.default_a_init)%Q) by evaluate.
  assert (H3 : (0 < TEPS.default_decay_factor)%Q) by evaluate.
  assert (H4 : (TEPS.default_decay_factor < 1)%Q) by evaluate.
  repeat (split; [assumption|]).
  eexists. split; [reflexivity|]. split; [evaluate|].
  exact (proj1 (learning_rate_schedule
                  (0, 0, 0)%Q (- (3 # 2), - (3 # 2), - (3 # 2))%Q 0 "fixed"
                  TEPS.default_min_distance_threshold 3
                  TEPS.default_weights TEPS.default_factor
                  TEPS.default_a_init TEPS.default_a_min
                  TEPS.default_decay_factor _ [0; 0; 0; 0]%Q
                  H1 H2 H3 H4 eq_refl)).
Defined.

Lemma construction_is_unvalidated_witness :
  (weight_sum (0, 0, 0) == 0)%Q
  /\ "auto"%string <> "min_distance"%string
  /\ (forall (c : cluster_obj) (x_min x_max x_mean : Q),
        TEPS.compute_cluster_distance
          c (Some x_min) (Some x_max) (Some x_mean)
          (TEPS.mk (Cluster.mk 0 0 0 0 0 false) (Cluster.mk 0 0 0 0 0 false)
                   0 0 0 0 0 0 "auto" 0 1 (Deque.mk [] 1) (0, 0, 0)%Q 0)
        = Raise ZeroDivisionError)
  /\ forall (self : TEPS.t) (x : Q),
       TEPS.process_sample x (with_init_mode self "auto")
       = relabel "auto" (TEPS.process_sample x (with_init_mode self "fixed")).
Proof.
  assert (H1 : (weight_sum (0, 0, 0) == 0)%Q) by evaluate.
  assert (H2 : "auto"%string <> "min_distance"%string) by discriminate.
  repeat (split; [assumption|]).
  destruct (construction_is_unvalidated
              0 0 0 0 0 0 0 "auto" 0 1 (0, 0, 0)%Q 0 0 0 0)
    as (_ & Hzero & Hmode).
  split.
  - exact (proj1 (Hzero H1
             (TEPS.mk (Cluster.mk 0 0 0 0 0 false)
                      (Cluster.mk 0 0 0 0 0 false)
                      0 0 0 0 0 0 "auto" 0 1 (Deque.mk [] 1) (0, 0, 0)%Q 0)
             eq_refl)).
  - exact (Hmode H2).
Defined.

(** * Further properties *)

(** ** The phase state machine on all its inputs *)

(** The tests of [get_phase_label], decided along its branches. *)
Ltac split_tests :=
  repeat match goal with
         | H : _ && _ = true |- _ => apply andb_true_iff in H; destruct H
         | H : _ || _ = false |- _ => apply orb_false_iff in H; destruct H
         | H : _ && _ = false |- _ => apply andb_false_iff in H; destruct H
         | H : _ || _ = true |- _ => apply orb_true_iff in H; destruct H
         end;
  bool_to_prop.

Ltac phase_tree :=
  unfold TEPS.get_phase_label;
  repeat match goal with
         | |- context [if ?c then _ else _] => destruct c eqn:?
         end.

(** The same along the branches of the method on a float feed. *)
Ltac float_phase_tree :=
  unfold FloatFeed.get_phase_label;
  repeat match goal with
         | |- context [if ?c then _ else _] => destruct c eqn:?
         end.

(** On a finite feed the two embeddings of the method are one. *)
Lemma get_phase_label_num (last_state treshold : Z) (feed : Q) :
  FloatFeed.get_phase_label last_state treshold (Float.Num feed)
  = TEPS.get_phase_label last_state treshold feed.
Proof. reflexivity. Qed.

(** A float is below 0, or not below 0, or NaN. *)
Lemma float_sign (feed : Float.t) :
  (Float.ltb feed 0 = true /\ Float.geb feed 0 = false)
  \/ (Float.ltb feed 0 = false /\ Float.geb feed 0 = true)
  \/ feed = Float.NaN.
Proof.
  destruct feed as [q | [|] |]; cbn; auto.
  destruct (Qltb q 0) eqn:Hneg; [left | right; left]; split;
    try reflexivity; bool_to_prop.
  - now apply Qle_bool_gt.
  - now apply Qle_bool_iff.
Qed.

Lemma float_sign_number (feed : Float.t) :
  is_number feed ->
  (Float.ltb feed 0 = true /\ Float.geb feed 0 = false)
  \/ (Float.ltb feed 0 = false /\ Float.geb feed 0 = true).
Proof.
  intros Hnum. destruct (float_sign feed) as [H | [H | H]]; auto.
  contradiction.
Qed.

Lemma get_phase_label_value
  (self : TEPS.t) (last_state treshold : Z) (feed : Float.t) :
  FloatFeed.get_phase_label last_state treshold feed self
  = Ok (phase_value last_state treshold feed, self).
Proof.
  unfold phase_value. float_phase_tree; reflexivity.
Qed.

(** X1: for a previous phase in [[0,5]], [get_phase_label] returns a
    label in [[0,5]] whatever integer the engagement argument is (not
    only 0 or 1) and whatever the feed, and leaves the object as it
    is. *)
Theorem get_phase_label_closed
  (self : TEPS.t) (last_state treshold : Z) (feed : Q) :
  0 <= last_state <= 5 ->
  exists phase : Z,
    0 <= phase <= 5
    /\ TEPS.get_phase_label last_state treshold feed self
       = Ok (Some phase, self).
Proof.
  intros Hl. phase_tree; split_tests; try lia;
    eexists; (split; [|reflexivity]); lia.
Qed.

(** X2: for a previous phase in [[0,5]], the label is 0 (rapid
    traverse) exactly when [|feed| > 1000]. *)
Theorem get_phase_label_rapid_iff
  (self : TEPS.t) (last_state treshold : Z) (feed : Q) :
  0 <= last_state <= 5 ->
  (TEPS.get_phase_label last_state treshold feed self = Ok (Some 0, self)
   <-> (1000 < Qabs feed)%Q).
Proof.
  intros Hl. phase_tree; split_tests; try lia;
    (split; [intros Hret; try discriminate Hret; assumption
            | intros Hret; try reflexivity; lra]).
Qed.

(** X3: what each drilling label needs, on every feed, finite or not.
    Label 3 (unexpected drop) comes only from previous phase 2 or 3
    with engagement below 1 and a negative feed.  Label 4 (expected
    drop) comes only with engagement 1, and with a feed that is not
    negative unless the feed is NaN and the previous phase is 0.  Label
    2 (drilling) comes only with engagement 1 and a negative feed,
    unless the previous phase is 1: then it comes with an engagement of
    at least 1, or with a NaN feed. *)
Theorem get_phase_label_drilling_labels
  (self s' : TEPS.t) (last_state treshold : Z) (feed : Float.t)
  (phase : Z) :
  FloatFeed.get_phase_label last_state treshold feed self
  = Ok (Some phase, s') ->
  (phase = 3 ->
   (last_state = 2 \/ last_state = 3) /\ treshold < 1
   /\ feed_negative feed)
  /\ (phase = 4 ->
      treshold = 1
      /\ (feed_not_negative feed
          \/ (feed = Float.NaN /\ last_state = 0)))
  /\ (phase = 2 ->
      (treshold = 1 /\ feed_negative feed)
      \/ (last_state = 1 /\ (1 <= treshold \/ feed = Float.NaN))).
Proof.
  unfold feed_negative, feed_not_negative.
  destruct (float_sign feed) as [[Hn Hp] | [[Hn Hp] | Hnan]];
    [| | subst feed];
    float_phase_tree; intros Hret; inversion Hret; subst;
    split_tests; try congruence;
    (split; [|split]); intros Hlabel; try discriminate Hlabel;
    try lia;
    repeat match goal with
           | |- _ /\ _ => split
           end;
    first [ lia | assumption | reflexivity
          | left; first [lia | assumption | split; first [lia|assumption]]
          | right; split; [lia|]; first [left; lia | right; reflexivity]
          | right; split; first [lia | reflexivity] ].
Qed.

(** X4: with the engagement bit and the feed held constant, and the
    feed a number (finite or infinite), the phase no longer changes
    after the second call: feeding the label back twice gives a label
    that the machine maps to itself.  On a NaN feed no label is mapped
    to itself: the phase changes at every call. *)
Theorem get_phase_label_settles
  (self : TEPS.t) (last_state engaged : Z) (feed : Float.t) (p1 p2 : Z) :
  0 <= last_state <= 5 ->
  engaged = 0 \/ engaged = 1 ->
  FloatFeed.get_phase_label last_state engaged feed self
  = Ok (Some p1, self) ->
  FloatFeed.get_phase_label p1 engaged feed self = Ok (Some p2, self) ->
  (is_number feed ->
   FloatFeed.get_phase_label p2 engaged feed self = Ok (Some p2, self))
  /\ (feed = Float.NaN ->
      FloatFeed.get_phase_label p2 engaged feed self
      <> Ok (Some p2, self)).
Proof.
  intros Hl He.
  assert (Hcases : last_state = 0 \/ last_state = 1 \/ last_state = 2 \/
                   last_state = 3 \/ last_state = 4 \/ last_state = 5)
    by lia.
  unfold FloatFeed.get_phase_label.
  destruct (Float.gtb (Float.abs feed) 1000) eqn:Hbig.
  { intros H1 H2. inversion H2; subst. split; [reflexivity|].
    intros ->. discriminate Hbig. }
  destruct (float_sign feed) as [[Hn Hp] | [[Hn Hp] | Hnan]].
  1, 2: rewrite Hn, Hp;
    destruct He as [-> | ->];
    destruct Hcases as [-> | [-> | [-> | [-> | [-> | ->]]]]];
    cbn; intros H1; inversion H1; subst p1; cbn;
    intros H2; inversion H2; subst p2;
    (split; [reflexivity | intros ->; discriminate Hn || discriminate Hp]).
  subst feed.
  destruct He as [-> | ->];
    destruct Hcases as [-> | [-> | [-> | [-> | [-> | ->]]]]];
    cbn; intros H1; inversion H1; subst p1; cbn;
    intros H2; inversion H2; subst p2;
    (split; [intros Hnum; now contradiction Hnum | intros _; discriminate]).
Qed.

(** ** The window statistics *)

Lemma py_min_spec (r : list Q) :
  forall x : Q,
    In (py_min x r) (x :: r)
    /\ Forall (fun y => (py_min x r <= y)%Q) (x :: r).
Proof.
  unfold py_min.
  induction r as [|y r IH]; intros x; simpl.
  - split; [now left | constructor; [apply Qle_refl | constructor]].
  - destruct (Qltb y x) eqn:E; bool_to_prop.
    + destruct (IH y) as [Hin Hall]. split; [simpl in *; tauto|].
      inversion Hall as [|? ? Hy Hr]; subst.
      constructor; [lra | now constructor].
    + destruct (IH x) as [Hin Hall]. split; [simpl in *; tauto|].
      inversion Hall as [|? ? Hx Hr]; subst.
      constructor; [assumption | constructor; [lra | assumption]].
Qed.

Lemma py_max_spec (r : list Q) :
  forall x : Q,
    In (py_max x r) (x :: r)
    /\ Forall (fun y => (y <= py_max x r)%Q) (x :: r).
Proof.
  unfold py_max.
  induction r as [|y r IH]; intros x; simpl.
  - split; [now left | constructor; [apply Qle_refl | constructor]].
  - destruct (Qgtb y x) eqn:E; bool_to_prop.
    + destruct (IH y) as [Hin Hall]. split; [simpl in *; tauto|].
      inversion Hall as [|? ? Hy Hr]; subst.
      constructor; [lra | now constructor].
    + destruct (IH x) as [Hin Hall]. split; [simpl in *; tauto|].
      inversion Hall as [|? ? Hx Hr]; subst.
      constructor; [assumption | constructor; [lra | assumption]].
Qed.

(** The statistics of a window that holds [x :: r]. *)
Lemma rolling_stats_nonempty (self : TEPS.t) (x : Q) (r : list Q) :
  Deque.items (TEPS.x_hist self) = x :: r ->
  exists x_min x_max x_mean : Q,
    TEPS.compute_rolling_stats self
    = Ok ((Some x_min, Some x_max, Some x_mean), self)
    /\ In x_min (x :: r) /\ In x_max (x :: r)
    /\ Forall (fun y => (x_min <= y)%Q /\ (y <= x_max)%Q) (x :: r).
Proof.
  intros Hitems.
  unfold TEPS.compute_rolling_stats, Deque.len. unfold_monad.
  rewrite Hitems.
  destruct (py_min_spec r x) as [Hmin_in Hmin].
  destruct (py_max_spec r x) as [Hmax_in Hmax].
  exists (py_min x r), (py_max x r),
    (py_sum (x :: r) / inject_Z (Z.of_nat (length (x :: r))))%Q.
  repeat split; try assumption.
  rewrite Forall_forall in *. intros y Hy. split; auto.
Qed.

(** X5: on an empty window [compute_rolling_stats] returns
    [(None, None, None)]; on a window with items it returns, with the
    mean, a minimum and a maximum that are items of the window and
    bound all its items.  The object is unchanged. *)
Theorem compute_rolling_stats_bounds (self : TEPS.t) :
  (Deque.items (TEPS.x_hist self) = [] ->
   TEPS.compute_rolling_stats self = Ok ((None, None, None), self))
  /\ (Deque.items (TEPS.x_hist self) <> [] ->
      exists x_min x_max x_mean : Q,
        TEPS.compute_rolling_stats self
        = Ok ((Some x_min, Some x_max, Some x_mean), self)
        /\ In x_min (Deque.items (TEPS.x_hist self))
        /\ In x_max (Deque.items (TEPS.x_hist self))
        /\ Forall (fun y => (x_min <= y)%Q /\ (y <= x_max)%Q)
                  (Deque.items (TEPS.x_hist self))).
Proof.
  split.
  - intros Hempty. unfold TEPS.compute_rolling_stats. unfold_monad.
    now rewrite Hempty.
  - intros Hne.
    destruct (Deque.items (TEPS.x_hist self)) as [|x r] eqn:Hitems;
      [contradiction|].
    exact (rolling_stats_nonempty self x r Hitems).
Qed.

(** ** The weighted distance *)

Lemma Qabs_zero_iff (x : Q) : (Qabs x == 0)%Q <-> (x == 0)%Q.
Proof.
  split; intros H.
  - pose proof (Qabs_nonneg x). pose proof (Qle_Qabs x).
    pose proof (Qle_Qabs (- x)). rewrite Qabs_opp in *. lra.
  - rewrite H. reflexivity.
Qed.

Lemma weighted_sum_zero (w1 w2 w3 d1 d2 d3 : Q) :
  (0 < w1)%Q -> (0 < w2)%Q -> (0 < w3)%Q ->
  (0 <= d1)%Q -> (0 <= d2)%Q -> (0 <= d3)%Q ->
  (w1 * d1 + w2 * d2 + w3 * d3 == 0)%Q ->
  (d1 == 0)%Q /\ (d2 == 0)%Q /\ (d3 == 0)%Q.
Proof.
  intros Hw1 Hw2 Hw3 Hd1 Hd2 Hd3 Hsum.
  assert (H1 : (0 <= w1 * d1)%Q) by (apply Qmult_le_0_compat; lra).
  assert (H2 : (0 <= w2 * d2)%Q) by (apply Qmult_le_0_compat; lra).
  assert (H3 : (0 <= w3 * d3)%Q) by (apply Qmult_le_0_compat; lra).
  assert (Z1 : (w1 * d1 == 0)%Q) by lra.
  assert (Z2 : (w2 * d2 == 0)%Q) by lra.
  assert (Z3 : (w3 * d3 == 0)%Q) by lra.
  apply Qmult_integral in Z1, Z2, Z3.
  repeat split; [destruct Z1 | destruct Z2 | destruct Z3]; lra.
Qed.

(** X6: with weights that are not negative and sum to more than 0, the
    distance [compute_cluster_distance] returns is not negative, and it
    is 0 when the window statistics equal the cluster's mean, min and
    max; with all three weights positive it is 0 only then. *)
Theorem compute_cluster_distance_metric
  (self : TEPS.t) (c : cluster_obj) (x_min x_max x_mean w1 w2 w3 : Q) :
  TEPS.weights self = (w1, w2, w3) ->
  (0 <= w1)%Q -> (0 <= w2)%Q -> (0 <= w3)%Q -> (0 < w1 + w2 + w3)%Q ->
  exists d : Q,
    TEPS.compute_cluster_distance
      c (Some x_min) (Some x_max) (Some x_mean) self = Ok (d, self)
    /\ (0 <= d)%Q
    /\ ((x_mean == TEPS.item_mean self c)%Q ->
        (x_min == TEPS.item_min self c)%Q ->
        (x_max == TEPS.item_max self c)%Q -> (d == 0)%Q)
    /\ ((0 < w1)%Q -> (0 < w2)%Q -> (0 < w3)%Q -> (d == 0)%Q ->
        (x_mean == TEPS.item_mean self c)%Q
        /\ (x_min == TEPS.item_min self c)%Q
        /\ (x_max == TEPS.item_max self c)%Q).
Proof.
  intros Hweights Hw1 Hw2 Hw3 Hsum.
  assert (Hw : ~ (weight_sum (TEPS.weights self) == 0)%Q)
    by (rewrite Hweights; unfold weight_sum; lra).
  exists (weighted_distance self c x_min x_max x_mean).
  split; [now apply compute_cluster_distance_ok|].
  unfold weighted_distance. rewrite Hweights.
  set (d1 := Qabs (x_mean - TEPS.item_mean self c)).
  set (d2 := Qabs (x_min - TEPS.item_min self c)).
  set (d3 := Qabs (x_max - TEPS.item_max self c)).
  assert (Hd1 : (0 <= d1)%Q) by apply Qabs_nonneg.
  assert (Hd2 : (0 <= d2)%Q) by apply Qabs_nonneg.
  assert (Hd3 : (0 <= d3)%Q) by apply Qabs_nonneg.
  assert (H1 : (0 <= w1 * d1)%Q) by (apply Qmult_le_0_compat; lra).
  assert (H2 : (0 <= w2 * d2)%Q) by (apply Qmult_le_0_compat; lra).
  assert (H3 : (0 <= w3 * d3)%Q) by (apply Qmult_le_0_compat; lra).
  split; [|split].
  - apply Qle_shift_div_l; [assumption | lra].
  - intros E1 E2 E3.
    assert (Z1 : (d1 == 0)%Q)
      by (unfold d1; apply Qabs_zero_iff; lra).
    assert (Z2 : (d2 == 0)%Q)
      by (unfold d2; apply Qabs_zero_iff; lra).
    assert (Z3 : (d3 == 0)%Q)
      by (unfold d3; apply Qabs_zero_iff; lra).
    rewrite Z1, Z2, Z3. field. lra.
  - intros P1 P2 P3 Hzero.
    assert (Hnum : (w1 * d1 + w2 * d2 + w3 * d3 == 0)%Q).
    { assert (E : (w1 * d1 + w2 * d2 + w3 * d3
                   == (w1 * d1 + w2 * d2 + w3 * d3) / (w1 + w2 + w3)
                      * (w1 + w2 + w3))%Q) by (field; lra).
      rewrite E, Hzero. ring. }
    destruct (weighted_sum_zero _ _ _ _ _ _ P1 P2 P3 Hd1 Hd2 Hd3 Hnum)
      as (Z1 & Z2 & Z3).
    unfold d1, d2, d3 in Z1, Z2, Z3.
    apply (proj1 (Qabs_zero_iff _)) in Z1.
    apply (proj1 (Qabs_zero_iff _)) in Z2.
    apply (proj1 (Qabs_zero_iff _)) in Z3.
    split; [|split]; lra.
Qed.

(** ** What [process_sample] returns and what it leaves alone *)

Lemma update_fields (self s' : TEPS.t) (u : unit) :
  TEPS.update self = Ok (u, s') ->
  TEPS.a_init s' = TEPS.a_init self
  /\ TEPS.a_min s' = TEPS.a_min self
  /\ TEPS.a s' = TEPS.a self
  /\ TEPS.decay_factor s' = TEPS.decay_factor self
  /\ TEPS.start_index s' = TEPS.start_index self
  /\ TEPS.ignore_start s' = TEPS.ignore_start self
  /\ TEPS.init_mode s' = TEPS.init_mode self
  /\ TEPS.min_distance_threshold s' = TEPS.min_distance_threshold self
  /\ TEPS.hist_size s' = TEPS.hist_size self
  /\ TEPS.x_hist s' = TEPS.x_hist self
  /\ TEPS.weights s' = TEPS.weights self
  /\ TEPS.factor s' = TEPS.factor self.
Proof.
  intros Hup. apply update_frame in Hup. rewrite Hup. simpl.
  repeat split.
Qed.

Lemma decayed_fields (self : TEPS.t) :
  TEPS.air_cluster (decayed self) = TEPS.air_cluster self
  /\ TEPS.drill_cluster (decayed self) = TEPS.drill_cluster self
  /\ TEPS.a_init (decayed self) = TEPS.a_init self
  /\ TEPS.a_min (decayed self) = TEPS.a_min self
  /\ TEPS.decay_factor (decayed self) = TEPS.decay_factor self
  /\ TEPS.start_index (decayed self) = TEPS.start_index self
  /\ TEPS.ignore_start (decayed self) = TEPS.ignore_start self
  /\ TEPS.init_mode (decayed self) = TEPS.init_mode self
  /\ TEPS.min_distance_threshold (decayed self)
     = TEPS.min_distance_threshold self
  /\ TEPS.hist_size (decayed self) = TEPS.hist_size self
  /\ TEPS.x_hist (decayed self) = TEPS.x_hist self
  /\ TEPS.weights (decayed self) = TEPS.weights self
  /\ TEPS.factor (decayed self) = TEPS.factor self.
Proof.
  rewrite (decayed_frame self). simpl. repeat split.
Qed.

(** The cluster fields that no method assigns. *)
Lemma update_dead_fields (self s' : TEPS.t) (u : unit) :
  TEPS.update self = Ok (u, s') ->
  Cluster.count (TEPS.air_cluster s') = Cluster.count (TEPS.air_cluster self)
  /\ Cluster.sum (TEPS.air_cluster s') = Cluster.sum (TEPS.air_cluster self)
  /\ Cluster.count (TEPS.drill_cluster s')
     = Cluster.count (TEPS.drill_cluster self)
  /\ Cluster.sum (TEPS.drill_cluster s')
     = Cluster.sum (TEPS.drill_cluster self)
  /\ Cluster.ready (TEPS.drill_cluster s')
     = Cluster.ready (TEPS.drill_cluster self).
Proof.
  intros Hup. apply update_cases in Hup.
  destruct Hup as [[_ ->] | (_ & x_min & x_max & x_mean & _ &
                             [[_ ->] | (_ & _ & ->)])].
  - repeat split.
  - simpl. repeat split.
  - unfold tracked. destruct (Qle_bool _ _); simpl; repeat split.
Qed.

(** [process_sample] returns on an object that can process samples. *)
Lemma process_sample_total (self : TEPS.t) (x : Q) :
  0 < TEPS.hist_size self ->
  ~ (weight_sum (TEPS.weights self) == 0)%Q ->
  exists (p : Z) (s' : TEPS.t),
    TEPS.process_sample x self
    = Ok ((p, (Cluster.mean (TEPS.air_cluster s'),
               Cluster.mean (TEPS.drill_cluster s'))), s')
    /\ (p = 0 \/ p = 1).
Proof.
  intros Hpos Hw.
  destruct (Z.lt_ge_cases (TEPS.start_index self) (TEPS.ignore_start self))
    as [Hwarm | Hact].
  - destruct (predict_total (skipped self) Hpos Hw) as (p & Hp & Hrange).
    exists p, (skipped self). split; [|exact Hrange].
    now apply process_sample_warmup.
  - destruct (update_total (pushed self x) Hpos Hw) as [s1 Hup].
    destruct (update_fields _ _ _ Hup)
      as (_ & _ & _ & _ & _ & _ & _ & _ & Hh & _ & Hwt & _).
    destruct (decayed_fields s1)
      as (_ & _ & _ & _ & _ & _ & _ & _ & _ & Hh' & _ & Hwt' & _).
    destruct (predict_total (decayed s1)) as (p & Hp & Hrange);
      [rewrite Hh', Hh; exact Hpos | rewrite Hwt', Hwt; exact Hw |].
    exists p, (decayed s1). split; [|exact Hrange].
    now apply (process_sample_active self s1).
Qed.

(** X8: on an object with a positive window capacity and weights that
    do not sum to 0, [process_sample] returns for every sample; the
    prediction is 0 or 1 and the two means returned are those of the
    object after the call. *)
Theorem process_sample_returns (self : TEPS.t) (x : Q) :
  0 < TEPS.hist_size self ->
  ~ (weight_sum (TEPS.weights self) == 0)%Q ->
  exists (p : Z) (s' : TEPS.t),
    TEPS.process_sample x self
    = Ok ((p, (Cluster.mean (TEPS.air_cluster s'),
               Cluster.mean (TEPS.drill_cluster s'))), s')
    /\ (p = 0 \/ p = 1).
Proof. exact (process_sample_total self x). Qed.

Lemma process_sample_keeps (self s' : TEPS.t) (x : Q) (o : Z * (Q * Q)) :
  TEPS.process_sample x self = Ok (o, s') ->
  (TEPS.a_init s' = TEPS.a_init self
   /\ TEPS.a_min s' = TEPS.a_min self
   /\ TEPS.decay_factor s' = TEPS.decay_factor self
   /\ TEPS.ignore_start s' = TEPS.ignore_start self
   /\ TEPS.init_mode s' = TEPS.init_mode self
   /\ TEPS.min_distance_threshold s' = TEPS.min_distance_threshold self
   /\ TEPS.hist_size s' = TEPS.hist_size self
   /\ Deque.maxlen (TEPS.x_hist s') = Deque.maxlen (TEPS.x_hist self)
   /\ TEPS.weights s' = TEPS.weights self
   /\ TEPS.factor s' = TEPS.factor self)
  /\ (Cluster.count (TEPS.air_cluster s')
      = Cluster.count (TEPS.air_cluster self)
      /\ Cluster.sum (TEPS.air_cluster s')
         = Cluster.sum (TEPS.air_cluster self)
      /\ Cluster.count (TEPS.drill_cluster s')
         = Cluster.count (TEPS.drill_cluster self)
      /\ Cluster.sum (TEPS.drill_cluster s')
         = Cluster.sum (TEPS.drill_cluster self)
      /\ Cluster.ready (TEPS.drill_cluster s')
         = Cluster.ready (TEPS.drill_cluster self)).
Proof.
  intros Hps. apply process_sample_cases in Hps.
  destruct Hps as [_ [[_ ->] | (_ & s1 & Hup & ->)]].
  - simpl. repeat split.
  - destruct (update_fields _ _ _ Hup)
      as (F1 & F2 & F3 & F4 & F5 & F6 & F7 & F8 & F9 & F10 & F11 & F12).
    destruct (update_dead_fields _ _ _ Hup) as (D1 & D2 & D3 & D4 & D5).
    destruct (decayed_fields s1)
      as (G1 & G2 & G3 & G4 & G5 & G6 & G7 & G8 & G9 & G10 & G11 & G12
          & G13).
    rewrite G1, G2, G3, G4, G5, G7, G8, G9, G10, G11, G12, G13.
    rewrite F1, F2, F4, F6, F7, F8, F9, F10, F11, F12, D1, D2, D3, D4, D5.
    unfold pushed, Deque.append. simpl.
    repeat split.
    destruct (_ >? _); reflexivity.
Qed.

(** X9: over every run on a new object, the calls of [process_sample]
    leave the configuration as [__init__] stored it ([a_init], [a_min],
    [decay_factor], [ignore_start], [init_mode],
    [min_distance_threshold], [hist_size], the capacity of the window,
    [weights], [factor]); the [count] and [sum] of both clusters stay 0
    and the [ready] flag of the drill cluster stays off: nothing
    assigns them. *)
Theorem run_keeps_configuration
  (start_mean_air start_mean_drill : Q * Q * Q) (ignore_start : Z)
  (init_mode : string) (min_distance_threshold : Q) (hist_size : Z)
  (weights : Q * Q * Q) (factor a_init a_min decay_factor : Q)
  (s0 : TEPS.t) (xs : list Q) :
  TEPS.__init__ start_mean_air start_mean_drill ignore_start init_mode
                min_distance_threshold hist_size weights factor
                a_init a_min decay_factor = Ok s0 ->
  Forall
    (fun s =>
       (TEPS.a_init s = a_init
        /\ TEPS.a_min s = a_min
        /\ TEPS.decay_factor s = decay_factor
        /\ TEPS.ignore_start s = ignore_start
        /\ TEPS.init_mode s = init_mode
        /\ TEPS.min_distance_threshold s = min_distance_threshold
        /\ TEPS.hist_size s = hist_size
        /\ Deque.maxlen (TEPS.x_hist s) = hist_size
        /\ TEPS.weights s = weights
        /\ TEPS.factor s = factor)
       /\ (Cluster.count (TEPS.air_cluster s) = 0
           /\ Cluster.sum (TEPS.air_cluster s) = 0
           /\ Cluster.count (TEPS.drill_cluster s) = 0
           /\ Cluster.sum (TEPS.drill_cluster s) = 0
           /\ Cluster.ready (TEPS.drill_cluster s) = false))
    (states s0 xs).
Proof.
  intros Hnew.
  unfold TEPS.__init__, Deque.new in Hnew.
  destruct start_mean_air as [[air0 air1] air2].
  destruct start_mean_drill as [[drill0 drill1] drill2].
  destruct (hist_size <? 0); [discriminate|].
  injection Hnew as Hs0.
  assert (Hinit :
    (TEPS.a_init s0 = a_init
     /\ TEPS.a_min s0 = a_min
     /\ TEPS.decay_factor s0 = decay_factor
     /\ TEPS.ignore_start s0 = ignore_start
     /\ TEPS.init_mode s0 = init_mode
     /\ TEPS.min_distance_threshold s0 = min_distance_threshold
     /\ TEPS.hist_size s0 = hist_size
     /\ Deque.maxlen (TEPS.x_hist s0) = hist_size
     /\ TEPS.weights s0 = weights
     /\ TEPS.factor s0 = factor)
    /\ (Cluster.count (TEPS.air_cluster s0) = 0
        /\ Cluster.sum (TEPS.air_cluster s0) = 0
        /\ Cluster.count (TEPS.drill_cluster s0) = 0
        /\ Cluster.sum (TEPS.drill_cluster s0) = 0
        /\ Cluster.ready (TEPS.drill_cluster s0) = false))
    by (subst s0; simpl; repeat split).
  clear Hs0. revert s0 Hinit.
  induction xs as [|x r IH]; intros s0 Hinit.
  - simpl. constructor; [exact Hinit | constructor].
  - simpl. constructor; [exact Hinit|].
    destruct (TEPS.process_sample x s0) as [[o s1]|] eqn:Hps;
      [|constructor].
    apply IH.
    destruct (process_sample_keeps _ _ _ _ Hps)
      as ((K1 & K2 & K3 & K4 & K5 & K6 & K7 & K8 & K9 & K10)
          & (D1 & D2 & D3 & D4 & D5)).
    rewrite K1, K2, K3, K4, K5, K6, K7, K8, K9, K10, D1, D2, D3, D4, D5.
    exact Hinit.
Qed.

(** ** The order of a cluster's bounds *)






(** ** Streams: composing calls *)

Lemma feed_app_ok (a b : list Q) :
  forall (s s1 s2 : TEPS.t) (outs1 outs2 : list (Z * (Q * Q))),
    feed a s = Ok (outs1, s1) ->
    feed b s1 = Ok (outs2, s2) ->
    feed (a ++ b) s = Ok ((outs1 ++ outs2)%list, s2).
Proof.
  induction a as [|x r IH]; intros s s1 s2 outs1 outs2 Ha Hb.
  - simpl in Ha. unfold ret in Ha. inversion Ha; subst. exact Hb.
  - simpl in Ha. unfold bind at 1 in Ha.
    destruct (TEPS.process_sample x s) as [[o t]|] eqn:Hps; [|discriminate].
    unfold bind at 1 in Ha.
    destruct (feed r t) as [[os t']|] eqn:Hr; [|discriminate].
    unfold ret in Ha. inversion Ha; subst.
    simpl. apply (feed_cons x (r ++ b) s t o (os ++ outs2) s2 Hps).
    now apply (IH t s1 s2).
Qed.

Lemma feed_cons_raise (x : Q) (r : list Q) (s : TEPS.t) (e : exn) :
  TEPS.process_sample x s = Raise e -> feed (x :: r) s = Raise e.
Proof.
  intros Hps. simpl. unfold bind at 1. now rewrite Hps.
Qed.

Lemma feed_app_raise (a b : list Q) :
  forall (s s1 : TEPS.t) (outs1 : list (Z * (Q * Q))) (e : exn),
    feed a s = Ok (outs1, s1) ->
    feed b s1 = Raise e ->
    feed (a ++ b) s = Raise e.
Proof.
  induction a as [|x r IH]; intros s s1 outs1 e Ha Hb.
  - simpl in Ha. unfold ret in Ha. inversion Ha; subst. exact Hb.
  - simpl in Ha. unfold bind at 1 in Ha.
    destruct (TEPS.process_sample x s) as [[o t]|] eqn:Hps; [|discriminate].
    unfold bind at 1 in Ha.
    destruct (feed r t) as [[os t']|] eqn:Hr; [|discriminate].
    unfold ret in Ha. inversion Ha; subst.
    simpl. unfold bind at 1. rewrite Hps. unfold bind at 1.
    now rewrite (IH t s1 os e Hr Hb).
Qed.

Lemma feed_length (xs : list Q) :
  forall (s s' : TEPS.t) (outs : list (Z * (Q * Q))),
    feed xs s = Ok (outs, s') -> length outs = length xs.
Proof.
  induction xs as [|x r IH]; intros s s' outs H.
  - simpl in H. unfold ret in H. now inversion H.
  - simpl in H. unfold bind at 1 in H.
    destruct (TEPS.process_sample x s) as [[o t]|]; [|discriminate].
    unfold bind at 1 in H.
    destruct (feed r t) as [[os t']|] eqn:Hr; [|discriminate].
    unfold ret in H. inversion H; subst. simpl. f_equal.
    now apply (IH t s').
Qed.

(** ** Before the window is full *)

Lemma append_short (d : Deque.t) (x : Q) :
  Deque.len d + 1 <= Deque.maxlen d ->
  Deque.append d x = Deque.mk (Deque.items d ++ [x]) (Deque.maxlen d).
Proof.
  unfold Deque.len, Deque.append. intros Hle.
  rewrite length_app. simpl length.
  destruct (_ >? _) eqn:Hgt; bool_to_prop; [lia | reflexivity].
Qed.

(** A call that finds the window short of one more sample. *)
Lemma process_sample_filling (self : TEPS.t) (x : Q) :
  TEPS.ignore_start self <= TEPS.start_index self ->
  Deque.maxlen (TEPS.x_hist self) = TEPS.hist_size self ->
  Deque.len (TEPS.x_hist self) + 1 < TEPS.hist_size self ->
  TEPS.process_sample x self
  = Ok (output 0 self, decayed (pushed self x))
  /\ Deque.items (TEPS.x_hist (decayed (pushed self x)))
     = (Deque.items (TEPS.x_hist self) ++ [x])%list.
Proof.
  intros Hact Hmax Hshort.
  assert (Happ : Deque.append (TEPS.x_hist self) x
                 = Deque.mk (Deque.items (TEPS.x_hist self) ++ [x])
                            (Deque.maxlen (TEPS.x_hist self)))
    by (apply append_short; lia).
  assert (Hlen : Deque.len (TEPS.x_hist (pushed self x))
                 = Deque.len (TEPS.x_hist self) + 1).
  { unfold pushed. cbn [TEPS.x_hist TEPS.set_x_hist]. rewrite Happ.
    unfold Deque.len. cbn [Deque.items]. rewrite length_app. simpl. lia. }
  assert (Hup : TEPS.update (pushed self x) = Ok (tt, pushed self x)).
  { apply update_short. rewrite Hlen. unfold pushed. simpl. lia. }
  destruct (decayed_fields (pushed self x))
    as (G1 & G2 & _ & _ & _ & _ & _ & _ & _ & G10 & G11 & _).
  assert (Hp : TEPS.predict (decayed (pushed self x))
               = Ok (0, decayed (pushed self x))).
  { apply predict_short. rewrite G10, G11, Hlen. unfold pushed. simpl. lia. }
  split.
  - rewrite (process_sample_active self (pushed self x) x 0 Hact Hup Hp).
    unfold output. rewrite G1, G2. reflexivity.
  - rewrite G11. unfold pushed. cbn [TEPS.x_hist TEPS.set_x_hist].
    now rewrite Happ.
Qed.

(** A stream that leaves the window short. *)
Lemma feed_filling (xs : list Q) :
  forall s : TEPS.t,
    TEPS.ignore_start s <= TEPS.start_index s ->
    Deque.maxlen (TEPS.x_hist s) = TEPS.hist_size s ->
    Deque.len (TEPS.x_hist s) + Z.of_nat (length xs) < TEPS.hist_size s ->
    exists s' : TEPS.t,
      feed xs s = Ok (repeat (output 0 s) (length xs), s')
      /\ TEPS.air_cluster s' = TEPS.air_cluster s
      /\ TEPS.drill_cluster s' = TEPS.drill_cluster s
      /\ Deque.items (TEPS.x_hist s')
         = (Deque.items (TEPS.x_hist s) ++ xs)%list
      /\ Deque.maxlen (TEPS.x_hist s') = Deque.maxlen (TEPS.x_hist s)
      /\ TEPS.start_index s' = TEPS.start_index s
      /\ TEPS.ignore_start s' = TEPS.ignore_start s
      /\ TEPS.hist_size s' = TEPS.hist_size s
      /\ TEPS.init_mode s' = TEPS.init_mode s
      /\ TEPS.weights s' = TEPS.weights s.
Proof.
  induction xs as [|x r IH]; intros s Hact Hmax Hshort.
  - exists s. simpl. rewrite app_nil_r. repeat split.
  - assert (Hlen : Z.of_nat (length (x :: r)) = Z.of_nat (length r) + 1)
      by (simpl length; lia).
    rewrite Hlen in Hshort.
    destruct (process_sample_filling s x Hact Hmax ltac:(lia))
      as [Hps Hitems].
    set (s1 := decayed (pushed s x)) in *.
    destruct (decayed_fields (pushed s x))
      as (G1 & G2 & _ & _ & _ & G6 & G7 & G8 & _ & G10 & G11 & G12 & _).
    fold s1 in G1, G2, G6, G7, G8, G10, G11, G12.
    assert (Hmax1 : Deque.maxlen (TEPS.x_hist s1) = Deque.maxlen (TEPS.x_hist s)).
    { rewrite G11. unfold pushed. cbn [TEPS.x_hist TEPS.set_x_hist].
      rewrite append_short by lia. reflexivity. }
    assert (Hlen1 : Deque.len (TEPS.x_hist s1)
                    = Deque.len (TEPS.x_hist s) + 1).
    { unfold Deque.len. rewrite Hitems, length_app. simpl. lia. }
    destruct (IH s1) as (s' & Hfeed & A1 & A2 & A3 & A4 & A5 & A6 & A7 & A8
                         & A9).
    + rewrite G6, G7. exact Hact.
    + rewrite Hmax1, G10. exact Hmax.
    + rewrite Hlen1, G10. unfold pushed. simpl. lia.
    + exists s'. split.
      * rewrite (feed_cons x r s s1 _ _ _ Hps Hfeed).
        simpl. unfold output. rewrite G1, G2. reflexivity.
      * rewrite A1, A2, A3, A4, A5, A6, A7, A8, A9.
        rewrite Hitems, <- app_assoc, G1, G2, G6, G7, G8, G10, G12, Hmax1.
        unfold pushed. simpl. repeat split.
Qed.

(** A stream on a new object that ends before the window is full. *)
Lemma feed_before_full (s0 : TEPS.t) (xs : list Q) :
  TEPS.start_index s0 = 0 ->
  0 <= TEPS.ignore_start s0 ->
  Deque.items (TEPS.x_hist s0) = [] ->
  Deque.maxlen (TEPS.x_hist s0) = TEPS.hist_size s0 ->
  0 < TEPS.hist_size s0 ->
  Z.of_nat (length xs) < TEPS.ignore_start s0 + TEPS.hist_size s0 ->
  exists s' : TEPS.t,
    feed xs s0 = Ok (repeat (output 0 s0) (length xs), s')
    /\ TEPS.air_cluster s' = TEPS.air_cluster s0
    /\ TEPS.drill_cluster s' = TEPS.drill_cluster s0
    /\ Deque.items (TEPS.x_hist s')
       = skipn (Z.to_nat (TEPS.ignore_start s0)) xs
    /\ Deque.maxlen (TEPS.x_hist s') = TEPS.hist_size s0
    /\ TEPS.start_index s'
       = Z.min (Z.of_nat (length xs)) (TEPS.ignore_start s0)
    /\ TEPS.ignore_start s' = TEPS.ignore_start s0
    /\ TEPS.hist_size s' = TEPS.hist_size s0
    /\ TEPS.init_mode s' = TEPS.init_mode s0
    /\ TEPS.weights s' = TEPS.weights s0.
Proof.
  intros Hstart Hign Hempty Hmax Hpos Hlen.
  assert (Hshort0 : Deque.len (TEPS.x_hist s0) < TEPS.hist_size s0)
    by (unfold Deque.len; rewrite Hempty; simpl; lia).
  destruct (Z.le_gt_cases (Z.of_nat (length xs)) (TEPS.ignore_start s0))
    as [Hin | Hout].
  - exists (TEPS.set_start_index s0
              (TEPS.start_index s0 + Z.of_nat (length xs))).
    split; [apply feed_warmup; [exact Hshort0 | lia]|].
    simpl. rewrite Hstart, Hempty.
    rewrite skipn_all2 by lia.
    repeat split; try assumption; lia.
  - set (n := Z.to_nat (TEPS.ignore_start s0)).
    assert (Hn : (n <= length xs)%nat) by (unfold n; lia).
    assert (Hpre : length (firstn n xs) = n) by (rewrite length_firstn; lia).
    assert (Hpost : length (skipn n xs) = (length xs - n)%nat)
      by apply length_skipn.
    set (s1 := TEPS.set_start_index s0
                 (TEPS.start_index s0 + Z.of_nat (length (firstn n xs)))).
    assert (Hwarm : feed (firstn n xs) s0
                    = Ok (repeat (output 0 s0) (length (firstn n xs)), s1)).
    { apply feed_warmup; [exact Hshort0|]. rewrite Hpre. unfold n. lia. }
    destruct (feed_filling (skipn n xs) s1)
      as (s' & Hfill & A1 & A2 & A3 & A4 & A5 & A6 & A7 & A8 & A9).
    + unfold s1. simpl. rewrite Hpre, Hstart. unfold n. lia.
    + unfold s1. simpl. exact Hmax.
    + unfold s1, Deque.len. simpl. rewrite Hempty, Hpost. simpl.
      unfold n. lia.
    + exists s'. split.
      * rewrite <- (firstn_skipn n xs) at 1.
        rewrite (feed_app_ok _ _ _ _ _ _ _ Hwarm Hfill).
        f_equal. f_equal.
        change (output 0 s1) with (output 0 s0).
        rewrite <- repeat_app. f_equal. rewrite Hpre, Hpost. lia.
      * rewrite A1, A2, A3, A4, A5, A6, A7, A8, A9.
        unfold s1. simpl. rewrite Hempty, Hpre, Hstart. simpl.
        repeat split; try assumption. unfold n. lia.
Qed.

(** X11: over a new object with a positive window capacity and a
    warm-up count that is not negative, whatever the weights and the
    init mode: every stream shorter than [ignore_start + hist_size]
    returns prediction 0 with the initial means for each sample, leaves
    both clusters as constructed, and the window holds the samples that
    came after the warm-up, in order. *)
Theorem run_before_full_window
  (air_min air_max air_mean drill_min drill_max drill_mean : Q)
  (ignore_start : Z) (init_mode : string) (min_distance_threshold : Q)
  (hist_size : Z) (weights : Q * Q * Q)
  (factor a_init a_min decay_factor : Q) (xs : list Q) :
  0 < hist_size ->
  0 <= ignore_start ->
  Z.of_nat (length xs) < ignore_start + hist_size ->
  exists s0 s' : TEPS.t,
    TEPS.__init__ (air_min, air_max, air_mean)
                  (drill_min, drill_max, drill_mean)
                  ignore_start init_mode min_distance_threshold hist_size
                  weights factor a_init a_min decay_factor = Ok s0
    /\ feed xs s0
       = Ok (repeat (0, (air_mean, drill_mean)) (length xs), s')
    /\ TEPS.air_cluster s' = TEPS.air_cluster s0
    /\ TEPS.drill_cluster s' = TEPS.drill_cluster s0
    /\ Deque.items (TEPS.x_hist s') = skipn (Z.to_nat ignore_start) xs.
Proof.
  intros Hpos Hign Hlen. unfold TEPS.__init__, Deque.new.
  destruct (hist_size <? 0) eqn:Hneg; bool_to_prop; [lia|].
  eexists.
  match goal with
  | |- exists s', Ok ?s = Ok _ /\ _ =>
      destruct (feed_before_full s xs) as (s' & Hfeed & A1 & A2 & A3 & _);
        try reflexivity; try assumption
  end.
  exists s'. split; [reflexivity|]. split; [exact Hfeed|].
  split; [exact A1|]. split; [exact A2 | exact A3].
Qed.

(** ** Calls that raise *)

Lemma update_zero_weights (self : TEPS.t) :
  0 < TEPS.hist_size self ->
  window_full self ->
  ~ seeding_pending self ->
  (weight_sum (TEPS.weights self) == 0)%Q ->
  TEPS.update self = Raise ZeroDivisionError.
Proof.
  intros Hpos Hfull Hseed Hw.
  destruct (compute_rolling_stats_full self Hpos Hfull)
    as (x_min & x_max & x_mean & Hstats).
  assert (Htest : String.eqb (TEPS.init_mode self) "min_distance"
                  && negb (Cluster.ready (TEPS.air_cluster self)) = false).
  { destruct (_ && _) eqn:E; [|reflexivity].
    apply seeding_pending_test in E. contradiction. }
  apply Z.ltb_ge in Hfull.
  unfold TEPS.update, bind at 1, get at 1. rewrite Hfull.
  unfold bind at 1. rewrite Hstats.
  unfold bind at 1, get at 1. rewrite Htest.
  unfold bind at 1.
  now rewrite (compute_cluster_distance_zero_weights _ _ _ _ _ Hw).
Qed.

Lemma process_sample_raise_update (self : TEPS.t) (x : Q) (e : exn) :
  TEPS.ignore_start self <= TEPS.start_index self ->
  TEPS.update (pushed self x) = Raise e ->
  TEPS.process_sample x self = Raise e.
Proof.
  intros Hact Hup. apply Z.ltb_ge in Hact. rewrite <- Z.gtb_ltb in Hact.
  unfold TEPS.process_sample, bind at 1, get at 1. rewrite Hact.
  unfold bind at 1, bind at 1, modify at 1. fold (pushed self x).
  unfold bind at 1. now rewrite Hup.
Qed.

Lemma process_sample_raise_predict
  (self s1 : TEPS.t) (x : Q) (e : exn) :
  TEPS.ignore_start self <= TEPS.start_index self ->
  TEPS.update (pushed self x) = Ok (tt, s1) ->
  TEPS.predict (decayed s1) = Raise e ->
  TEPS.process_sample x self = Raise e.
Proof.
  intros Hact Hup Hp. apply Z.ltb_ge in Hact. rewrite <- Z.gtb_ltb in Hact.
  unfold TEPS.process_sample, bind at 1, get at 1. rewrite Hact.
  unfold bind at 1, bind at 1, modify at 1. fold (pushed self x).
  unfold bind at 1. rewrite Hup. rewrite update_step_size_eq.
  unfold bind at 1. now rewrite Hp.
Qed.

Lemma process_sample_raise_warmup (self : TEPS.t) (x : Q) (e : exn) :
  TEPS.start_index self < TEPS.ignore_start self ->
  TEPS.predict (skipped self) = Raise e ->
  TEPS.process_sample x self = Raise e.
Proof.
  intros Hwarm Hp. apply Z.ltb_lt in Hwarm. rewrite <- Z.gtb_ltb in Hwarm.
  unfold TEPS.process_sample, bind at 1, get at 1. rewrite Hwarm.
  unfold bind at 1, modify at 1. fold (skipped self).
  unfold bind at 1. now rewrite Hp.
Qed.

(** With weights that sum to 0, a call past the warm-up that fills the
    window, or finds it full, raises. *)
Lemma process_sample_zero_weights (self : TEPS.t) (x : Q) :
  TEPS.ignore_start self <= TEPS.start_index self ->
  0 < TEPS.hist_size self ->
  window_full (pushed self x) ->
  (weight_sum (TEPS.weights self) == 0)%Q ->
  TEPS.process_sample x self = Raise ZeroDivisionError.
Proof.
  intros Hact Hpos Hfull Hw.
  destruct (String.eqb (TEPS.init_mode (pushed self x)) "min_distance"
            && negb (Cluster.ready (TEPS.air_cluster (pushed self x))))
    eqn:E.
  - apply seeding_pending_test in E.
    destruct (seeding_step (pushed self x) Hpos Hfull E)
      as (x_min & x_max & x_mean & _ & Hup).
    apply (process_sample_raise_predict self _ x _ Hact Hup).
    destruct (decayed_fields (seeded (pushed self x) x_min x_max x_mean))
      as (_ & _ & _ & _ & _ & _ & _ & _ & _ & G10 & G11 & G12 & _).
    apply predict_zero_weights.
    + rewrite G10. exact Hpos.
    + unfold window_full. rewrite G10, G11. exact Hfull.
    + rewrite G12. exact Hw.
  - apply process_sample_raise_update; [exact Hact|].
    apply update_zero_weights; try assumption.
    intros H. apply seeding_pending_test in H. congruence.
Qed.

(** X12: a new object whose weights sum to 0 (with a positive window
    capacity and a warm-up count that is not negative) processes exactly
    the streams shorter than [ignore_start + hist_size]: those return,
    and every stream of at least that length raises
    [ZeroDivisionError], in either init mode. *)
Theorem zero_weights_raise_at_full_window
  (start_mean_air start_mean_drill : Q * Q * Q) (ignore_start : Z)
  (init_mode : string) (min_distance_threshold : Q) (hist_size : Z)
  (weights : Q * Q * Q) (factor a_init a_min decay_factor : Q)
  (xs : list Q) :
  0 < hist_size ->
  0 <= ignore_start ->
  (weight_sum weights == 0)%Q ->
  exists s0 : TEPS.t,
    TEPS.__init__ start_mean_air start_mean_drill ignore_start init_mode
                  min_distance_threshold hist_size weights factor
                  a_init a_min decay_factor = Ok s0
    /\ (Z.of_nat (length xs) < ignore_start + hist_size ->
        exists outs s', feed xs s0 = Ok (outs, s'))
    /\ (ignore_start + hist_size <= Z.of_nat (length xs) ->
        feed xs s0 = Raise ZeroDivisionError).
Proof.
  intros Hpos Hign Hw.
  destruct start_mean_air as [[air0 air1] air2].
  destruct start_mean_drill as [[drill0 drill1] drill2].
  unfold TEPS.__init__, Deque.new.
  destruct (hist_size <? 0) eqn:Hneg; bool_to_prop; [lia|].
  eexists. split; [reflexivity|].
  match goal with
  | |- context [feed xs ?s] => set (s0 := s)
  end.
  split.
  - intros Hlen.
    destruct (feed_before_full s0 xs) as (s' & Hfeed & _);
      try reflexivity; try assumption.
    eauto.
  - intros Hlen.
    set (m := Z.to_nat (ignore_start + hist_size - 1)).
    assert (Hm : (m < length xs)%nat) by (unfold m; lia).
    assert (Hpre : length (firstn m xs) = m) by (rewrite length_firstn; lia).
    destruct (skipn m xs) as [|x rest] eqn:Hpost.
    { pose proof (length_skipn m xs) as Hl. rewrite Hpost in Hl.
      simpl in Hl. lia. }
    destruct (feed_before_full s0 (firstn m xs))
      as (s1 & Hfeed & _ & _ & A3 & A4 & A5 & A6 & A7 & _ & A9);
      try reflexivity; try assumption.
    { rewrite Hpre. unfold m. simpl. lia. }
    rewrite <- (firstn_skipn m xs), Hpost.
    apply (feed_app_raise _ _ _ _ _ _ Hfeed).
    apply feed_cons_raise.
    simpl in A3, A4, A5, A6, A7, A9.
    apply process_sample_zero_weights.
    + rewrite A5, A6, Hpre. unfold m. lia.
    + rewrite A7. exact Hpos.
    + unfold window_full, pushed. cbn [TEPS.hist_size TEPS.set_x_hist
                                       TEPS.x_hist].
      rewrite A7.
      destruct (append_len (TEPS.x_hist s1) x) as [Hl _].
      * unfold Deque.len. rewrite A3, A4, length_skipn, Hpre. unfold m. lia.
      * rewrite Hl, A4. unfold Deque.len.
        rewrite A3, length_skipn, Hpre. unfold m. lia.
    + rewrite A9. exact Hw.
Qed.

(** X13: a new object with [hist_size = 0] raises [TypeError] on its
    first sample, whatever the other parameters: the empty window counts
    as full and its statistics are [None]. *)
Theorem zero_capacity_raises
  (start_mean_air start_mean_drill : Q * Q * Q) (ignore_start : Z)
  (init_mode : string) (min_distance_threshold : Q)
  (weights : Q * Q * Q) (factor a_init a_min decay_factor : Q) (x : Q) :
  exists s0 : TEPS.t,
    TEPS.__init__ start_mean_air start_mean_drill ignore_start init_mode
                  min_distance_threshold 0 weights factor
                  a_init a_min decay_factor = Ok s0
    /\ TEPS.process_sample x s0 = Raise TypeError.
Proof.
  destruct start_mean_air as [[air0 air1] air2].
  destruct start_mean_drill as [[drill0 drill1] drill2].
  destruct weights as [[w1 w2] w3].
  eexists. split; [reflexivity|].
  destruct (Z.lt_ge_cases 0 ignore_start) as [Hwarm | Hact].
  - apply process_sample_raise_warmup; [exact Hwarm|]. reflexivity.
  - apply process_sample_raise_update; [exact Hact|].
    unfold TEPS.update, pushed. unfold_monad. cbn.
    destruct (String.eqb init_mode "min_distance"); reflexivity.
Qed.

(** ** The contents of the window *)

Lemma last_n_all {A} (n : nat) (l : list A) :
  (length l <= n)%nat -> last_n n l = l.
Proof.
  intros H. unfold last_n. replace (length l - n)%nat with 0%nat by lia.
  reflexivity.
Qed.

Lemma last_n_length {A} (n : nat) (l : list A) :
  length (last_n n l) = Nat.min n (length l).
Proof. unfold last_n. rewrite length_skipn. lia. Qed.

Lemma last_n_app {A} (n : nat) (l r : list A) :
  last_n n (last_n n l ++ r) = last_n n (l ++ r).
Proof.
  destruct (Nat.le_gt_cases (length l) n) as [Hle | Hgt].
  - now rewrite (last_n_all n l Hle).
  - unfold last_n at 1 3. rewrite !length_app, last_n_length.
    unfold last_n.
    replace (Nat.min n (length l) + length r - n)%nat with (length r) by lia.
    replace (length l + length r - n)%nat
      with (length r + (length l - n))%nat by lia.
    rewrite <- skipn_skipn. f_equal.
    rewrite skipn_app.
    replace (length l - n - length l)%nat with 0%nat by lia.
    reflexivity.
Qed.

(** [append] keeps the last [maxlen] items. *)
Lemma append_last_n (d : Deque.t) (x : Q) :
  Deque.len d <= Deque.maxlen d ->
  Deque.items (Deque.append d x)
  = last_n (Z.to_nat (Deque.maxlen d)) (Deque.items d ++ [x]).
Proof.
  unfold Deque.len, Deque.append. intros Hle.
  assert (Hlen : length (Deque.items d ++ [x]) = S (length (Deque.items d)))
    by (rewrite length_app; simpl; lia).
  rewrite Hlen.
  destruct (_ >? _) eqn:Hgt; bool_to_prop; cbn [Deque.items].
  - unfold last_n. rewrite Hlen.
    replace (S (length (Deque.items d)) - Z.to_nat (Deque.maxlen d))%nat
      with 1%nat by lia.
    destruct (Deque.items d ++ [x])%list; reflexivity.
  - symmetry. apply last_n_all. rewrite Hlen. lia.
Qed.

(** The window after a stream, from any object whose window respects
    its capacity: the samples of the warm-up that is left are dropped,
    the others are appended, and the last [maxlen] items remain. *)
Lemma feed_window (xs : list Q) :
  forall (s s' : TEPS.t) (outs : list (Z * (Q * Q))),
    feed xs s = Ok (outs, s') ->
    Deque.len (TEPS.x_hist s) <= Deque.maxlen (TEPS.x_hist s) ->
    Deque.items (TEPS.x_hist s')
    = last_n (Z.to_nat (Deque.maxlen (TEPS.x_hist s)))
        (Deque.items (TEPS.x_hist s)
         ++ skipn (Z.to_nat (TEPS.ignore_start s - TEPS.start_index s)) xs).
Proof.
  induction xs as [|x r IH]; intros s s' outs Hfeed Hcap.
  - simpl in Hfeed. unfold ret in Hfeed. inversion Hfeed; subst.
    rewrite skipn_nil, app_nil_r. symmetry. apply last_n_all.
    unfold Deque.len in Hcap. lia.
  - simpl in Hfeed. unfold bind at 1 in Hfeed.
    destruct (TEPS.process_sample x s) as [[o t]|] eqn:Hps; [|discriminate].
    unfold bind at 1 in Hfeed.
    destruct (feed r t) as [[os t']|] eqn:Hr; [|discriminate].
    unfold ret in Hfeed. inversion Hfeed; subst. clear Hfeed.
    apply process_sample_cases in Hps.
    destruct Hps as [_ [[Hwarm ->] | (Hact & s1 & Hup & ->)]].
    + rewrite (IH _ _ _ Hr) by exact Hcap.
      unfold skipped. cbn [TEPS.x_hist TEPS.set_start_index
                           TEPS.ignore_start TEPS.start_index].
      replace (Z.to_nat (TEPS.ignore_start s - TEPS.start_index s))
        with (S (Z.to_nat (TEPS.ignore_start s
                           - (TEPS.start_index s + 1)))) by lia.
      reflexivity.
    + destruct (update_fields _ _ _ Hup)
        as (_ & _ & _ & _ & F5 & F6 & _ & _ & _ & F10 & _).
      destruct (decayed_fields s1)
        as (_ & _ & _ & _ & _ & G6 & G7 & _ & _ & _ & G11 & _).
      destruct (append_len (TEPS.x_hist s) x Hcap) as [Hl Hm].
      assert (Hx : TEPS.x_hist (decayed s1)
                   = Deque.append (TEPS.x_hist s) x)
        by (rewrite G11, F10; reflexivity).
      rewrite (IH _ _ _ Hr); rewrite Hx; [|rewrite Hl, Hm; lia].
      rewrite G6, G7, F5, F6, Hm.
      unfold pushed. cbn [TEPS.ignore_start TEPS.start_index
                          TEPS.set_x_hist].
      replace (Z.to_nat (TEPS.ignore_start s - TEPS.start_index s))
        with 0%nat by lia.
      cbn [skipn].
      rewrite (append_last_n _ _ Hcap), last_n_app, <- app_assoc.
      reflexivity.
Qed.

(** X14: after every stream that a new object (warm-up count not
    negative) processes, the window holds the last [hist_size] of the
    samples that came after the warm-up, in arrival order; so its
    length is the smaller of [hist_size] and the number of those
    samples, and every sample gets one output. *)
Theorem window_holds_latest_samples
  (start_mean_air start_mean_drill : Q * Q * Q) (ignore_start : Z)
  (init_mode : string) (min_distance_threshold : Q) (hist_size : Z)
  (weights : Q * Q * Q) (factor a_init a_min decay_factor : Q)
  (s0 s' : TEPS.t) (xs : list Q) (outs : list (Z * (Q * Q))) :
  0 <= ignore_start ->
  TEPS.__init__ start_mean_air start_mean_drill ignore_start init_mode
                min_distance_threshold hist_size weights factor
                a_init a_min decay_factor = Ok s0 ->
  feed xs s0 = Ok (outs, s') ->
  Deque.items (TEPS.x_hist s')
  = last_n (Z.to_nat hist_size) (skipn (Z.to_nat ignore_start) xs)
  /\ Deque.len (TEPS.x_hist s')
     = Z.min hist_size (Z.max 0 (Z.of_nat (length xs) - ignore_start))
  /\ length outs = length xs.
Proof.
  intros Hign Hnew Hfeed.
  unfold TEPS.__init__, Deque.new in Hnew.
  destruct start_mean_air as [[air0 air1] air2].
  destruct start_mean_drill as [[drill0 drill1] drill2].
  destruct (hist_size <? 0) eqn:Hneg; [discriminate|]. bool_to_prop.
  injection Hnew as Hs0.
  assert (Hitems : Deque.items (TEPS.x_hist s')
                   = last_n (Z.to_nat hist_size)
                       (skipn (Z.to_nat ignore_start) xs)).
  { rewrite (feed_window xs s0 s' outs Hfeed).
    - subst s0. cbn. now rewrite Z.sub_0_r.
    - subst s0. unfold Deque.len. cbn. lia. }
  split; [exact Hitems|]. split.
  - unfold Deque.len. rewrite Hitems, last_n_length, length_skipn. lia.
  - exact (feed_length xs s0 s' outs Hfeed).
Qed.

(** ** A degenerate air cluster *)


(** X17: without engagement (bit 0) and on a feed that is a number,
    from a previous phase 0, 1, 4 or 5 the machine returns 0, 1 or 5:
    the labels 2, 3 and 4 of the drilling cycle are out of reach. *)
Theorem get_phase_label_idle_closed
  (self : TEPS.t) (last_state : Z) (feed : Float.t) :
  is_number feed ->
  last_state = 0 \/ last_state = 1 \/ last_state = 4 \/ last_state = 5 ->
  exists phase : Z,
    FloatFeed.get_phase_label last_state 0 feed self
    = Ok (Some phase, self)
    /\ (phase = 0 \/ phase = 1 \/ phase = 5).
Proof.
  intros Hnum Hl. unfold FloatFeed.get_phase_label.
  destruct (Float.gtb (Float.abs feed) 1000);
    [eexists; split; [reflexivity | now left]|].
  destruct (float_sign_number feed Hnum) as [[Hn Hp] | [Hn Hp]];
    rewrite Hn, Hp;
    destruct Hl as [-> | [-> | [-> | ->]]]; cbn;
    eexists; (split; [reflexivity|]); lia.
Qed.

(** ** The driver *)

Lemma phase_value_closed (l te : Z) (feed : Float.t) :
  0 <= l <= 5 ->
  exists p : Z, phase_value l te feed = Some p /\ 0 <= p <= 5.
Proof.
  intros Hl. unfold phase_value. float_phase_tree;
    split_tests; try lia; cbn; eexists; (split; [reflexivity|]); lia.
Qed.

Lemma phase_value_idle (l : Z) (feed : Float.t) :
  is_number feed ->
  l = 0 \/ l = 1 \/ l = 5 ->
  exists p : Z,
    phase_value l 0 feed = Some p /\ (p = 0 \/ p = 1 \/ p = 5).
Proof.
  intros Hnum Hl. unfold phase_value, FloatFeed.get_phase_label.
  destruct (Float.gtb (Float.abs feed) 1000);
    [eexists; split; [reflexivity | now left]|].
  destruct (float_sign_number feed Hnum) as [[Hn Hp] | [Hn Hp]];
    rewrite Hn, Hp;
    destruct Hl as [-> | [-> | ->]]; cbn;
    eexists; (split; [reflexivity|]); lia.
Qed.

Lemma get_next_sample_done (g : Example.t) :
  (length (Example.data_ g) <= Example.index g)%nat ->
  Example.get_next_sample g = Ok (None, g).
Proof.
  intros Hend. unfold Example.get_next_sample, bind at 1, get at 1.
  unfold Example.data. rewrite length_map.
  apply Nat.leb_le in Hend. now rewrite Hend.
Qed.

(** One call of the driver on a row, given what [process_sample]
    returns for its torque. *)
Lemma get_next_sample_row
  (g : Example.t) (l te : Z) (means : Q * Q) (s' : TEPS.t) :
  (Example.index g < length (Example.data_ g))%nat ->
  Example.last_phase g = Some l ->
  TEPS.process_sample
    (fst (nth (Example.index g) (Example.data_ g) (0%Q, Float.Num 0)))
    (Example.teps g) = Ok ((te, means), s') ->
  Example.get_next_sample g
  = Ok (Some (fst (nth (Example.index g) (Example.data_ g) (0%Q, Float.Num 0)),
              phase_value l te
                (snd (nth (Example.index g) (Example.data_ g) (0%Q, Float.Num 0)))),
        Example.mk s' (Example.data_ g) (S (Example.index g))
          (phase_value l te
             (snd (nth (Example.index g) (Example.data_ g) (0%Q, Float.Num 0))))).
Proof.
  intros Hidx Hlast Hps.
  assert (Hval : nth (Example.index g) (map fst (Example.data_ g)) 0%Q
                 = fst (nth (Example.index g) (Example.data_ g) (0%Q, Float.Num 0)))
    by (change 0%Q with (fst (0%Q, Float.Num 0)) at 1; apply map_nth).
  unfold Example.get_next_sample, bind at 1, get at 1. cbv zeta.
  unfold Example.data. rewrite length_map, !Hval.
  apply Nat.leb_gt in Hidx. rewrite Hidx.
  unfold bind at 1, Example.on_teps at 1. rewrite Hps.
  unfold bind at 1, get at 1.
  unfold bind at 1, Example.on_teps at 1, Example.get_phase_label.
  cbn [Example.last_phase Example.set_teps Example.teps Example.index
       Example.data_ fst].
  rewrite Hlast, get_phase_label_value.
  reflexivity.
Qed.

Lemma get_next_sample_step (g : Example.t) :
  driver_ok g ->
  (Example.index g < length (Example.data_ g))%nat ->
  exists (te p : Z) (means : Q * Q) (g' : Example.t),
    TEPS.process_sample
      (fst (nth (Example.index g) (Example.data_ g) (0%Q, Float.Num 0)))
      (Example.teps g) = Ok ((te, means), Example.teps g')
    /\ (te = 0 \/ te = 1)
    /\ Example.get_next_sample g
       = Ok (Some (fst (nth (Example.index g) (Example.data_ g) (0%Q, Float.Num 0)),
                   Some p), g')
    /\ 0 <= p <= 5
    /\ (forall l, Example.last_phase g = Some l ->
                  phase_value l te
                    (snd (nth (Example.index g) (Example.data_ g)
                              (0%Q, Float.Num 0))) = Some p)
    /\ Example.index g' = S (Example.index g)
    /\ Example.last_phase g' = Some p
    /\ Example.data_ g' = Example.data_ g
    /\ driver_ok g'.
Proof.
  intros (Hpos & Hw & l & Hlast & Hl) Hidx.
  set (row := nth (Example.index g) (Example.data_ g) (0%Q, Float.Num 0)).
  destruct (process_sample_total (Example.teps g) (fst row) Hpos Hw)
    as (te & s' & Hps & Hte).
  destruct (phase_value_closed l te (snd row) Hl) as (p & Hp & Hrange).
  pose proof (get_next_sample_row g l te _ s' Hidx Hlast Hps) as Hstep.
  fold row in Hstep. rewrite Hp in Hstep.
  destruct (process_sample_keeps _ _ _ _ Hps)
    as ((_ & _ & _ & _ & _ & _ & K7 & _ & K9 & _) & _).
  exists te, p,
    (Cluster.mean (TEPS.air_cluster s'),
     Cluster.mean (TEPS.drill_cluster s')),
    (Example.mk s' (Example.data_ g) (S (Example.index g)) (Some p)).
  split; [exact Hps|]. split; [exact Hte|].
  split; [exact Hstep|]. split; [exact Hrange|].
  split; [intros l' Hl'; rewrite Hlast in Hl'; inversion Hl'; subst;
          exact Hp|].
  split; [reflexivity|]. split; [reflexivity|]. split; [reflexivity|].
  unfold driver_ok. cbn [Example.teps Example.last_phase].
  split; [rewrite K7; exact Hpos|]. split; [rewrite K9; exact Hw|].
  exists p. now split.
Qed.

(** X18: one call of the driver.  When the rows are used up it returns
    [None] and changes nothing, so it can be called again.  Otherwise,
    with a classifier that can process samples (positive capacity,
    weights not summing to 0) and a previous phase in [[0,5]], it
    returns the torque of the current row unchanged with a phase in
    [[0,5]], stores that phase as the previous phase, advances the
    position by one and leaves the rows as they are. *)
Theorem get_next_sample_spec (g : Example.t) :
  driver_ok g ->
  ((length (Example.data_ g) <= Example.index g)%nat ->
   Example.get_next_sample g = Ok (None, g))
  /\ ((Example.index g < length (Example.data_ g))%nat ->
      exists (p : Z) (g' : Example.t),
        Example.get_next_sample g
        = Ok (Some (fst (nth (Example.index g) (Example.data_ g) (0%Q, Float.Num 0)),
                    Some p), g')
        /\ 0 <= p <= 5
        /\ Example.last_phase g' = Some p
        /\ Example.index g' = S (Example.index g)
        /\ Example.data_ g' = Example.data_ g
        /\ driver_ok g').
Proof.
  intros Hok. split; [apply get_next_sample_done|].
  intros Hidx.
  destruct (get_next_sample_step g Hok Hidx)
    as (te & p & means & g' & _ & _ & Hstep & Hp & _ & Hi & Hl & Hd & Hok').
  exists p, g'.
  split; [exact Hstep|]. split; [exact Hp|]. split; [exact Hl|].
  split; [exact Hi|]. split; [exact Hd | exact Hok'].
Qed.

Lemma skipn_nth_cons {A} (d : A) (l : list A) :
  forall i : nat,
    (i < length l)%nat -> skipn i l = nth i l d :: skipn (S i) l.
Proof.
  induction l as [|x l IH]; intros i Hi; simpl in Hi; [lia|].
  destruct i as [|i]; [reflexivity|].
  simpl. apply IH. lia.
Qed.

Lemma poll_cons (n : nat) (g g1 g2 : Example.t)
  (r : option (Q * option Z)) (rs : list (option (Q * option Z))) :
  Example.get_next_sample g = Ok (r, g1) ->
  Example.poll n g1 = Ok (rs, g2) ->
  Example.poll (S n) g = Ok (r :: rs, g2).
Proof.
  intros H1 H2. simpl. unfold bind at 1. rewrite H1.
  unfold bind at 1. rewrite H2. reflexivity.
Qed.

(** The driver over its rows, from any position. *)
Lemma poll_run (n : nat) :
  forall g : Example.t,
    driver_ok g ->
    exists (results : list (option (Q * option Z))) (g' : Example.t),
      Example.poll n g = Ok (results, g')
      /\ map (option_map fst) results
         = (map Some (firstn n (skipn (Example.index g) (Example.data g)))
            ++ repeat None
                 (n - (length (Example.data_ g) - Example.index g)))%list
      /\ Forall (phase_among [0; 1; 2; 3; 4; 5]) results
      /\ Example.index g'
         = Nat.max (Example.index g)
             (Nat.min (Example.index g + n) (length (Example.data_ g)))
      /\ Example.data_ g' = Example.data_ g.
Proof.
  induction n as [|n IH]; intros g Hok.
  - exists [], g. simpl. repeat split; try constructor. lia.
  - destruct (Nat.le_gt_cases (length (Example.data_ g)) (Example.index g))
      as [Hend | Hidx].
    + destruct (IH g Hok) as (rs & g' & Hpoll & Hvals & Hph & Hi & Hd).
      exists (None :: rs), g'.
      split; [exact (poll_cons n g g g' None rs
                       (get_next_sample_done g Hend) Hpoll)|].
      split; [|split; [constructor; [exact I | exact Hph]
                      |split; [rewrite Hi; lia | exact Hd]]].
      cbn [map option_map]. rewrite Hvals.
      unfold Example.data.
      rewrite !skipn_all2 by (rewrite length_map; lia).
      rewrite !firstn_nil. cbn [map app].
      replace (S n - (length (Example.data_ g) - Example.index g))%nat
        with (S (n - (length (Example.data_ g) - Example.index g)))%nat
        by lia.
      reflexivity.
    + destruct (get_next_sample_step g Hok Hidx)
        as (te & p & means & g1 & _ & _ & Hstep & Hp & _ & Hi1 & _ & Hd1
            & Hok1).
      destruct (IH g1 Hok1) as (rs & g' & Hpoll & Hvals & Hph & Hi & Hd).
      eexists (_ :: rs), g'.
      split; [exact (poll_cons n g g1 g' _ rs Hstep Hpoll)|].
      split; [|split; [constructor; [cbn; lia | exact Hph]
                      |split; [rewrite Hi, Hi1, Hd1; lia
                              | rewrite Hd, Hd1; reflexivity]]].
      cbn [map option_map fst]. rewrite Hvals.
      unfold Example.data. rewrite Hi1, Hd1.
      rewrite (skipn_nth_cons 0%Q (map fst (Example.data_ g))
                 (Example.index g)) by (rewrite length_map; lia).
      cbn [firstn map app].
      assert (Hval : nth (Example.index g) (map fst (Example.data_ g)) 0%Q
                     = fst (nth (Example.index g) (Example.data_ g)
                                (0%Q, Float.Num 0)))
        by (change 0%Q with (fst (0%Q, Float.Num 0)) at 1; apply map_nth).
      rewrite Hval.
      replace (S n - (length (Example.data_ g) - Example.index g))%nat
        with (n - (length (Example.data_ g) - S (Example.index g)))%nat
        by lia.
      reflexivity.
Qed.

Lemma start_short (rows : list (Q * Float.t)) :
  (length rows < 2)%nat -> Example.start rows = Raise IndexError.
Proof.
  intros Hshort. unfold Example.start.
  apply Nat.ltb_lt in Hshort. now rewrite Hshort.
Qed.

Lemma start_ok (rows : list (Q * Float.t)) :
  (2 <= length rows)%nat ->
  exists g0 : Example.t,
    Example.start rows = Ok g0
    /\ driver_ok g0
    /\ Example.index g0 = 0%nat
    /\ Example.data_ g0 = rows
    /\ Example.last_phase g0 = Some 0
    /\ filling_inv 0 (Example.teps g0)
    /\ TEPS.ignore_start (Example.teps g0) = 30
    /\ TEPS.hist_size (Example.teps g0) = 20.
Proof.
  intros Hrows. unfold Example.start.
  apply Nat.ltb_ge in Hrows. rewrite Hrows.
  eexists. split; [reflexivity|].
  unfold driver_ok, filling_inv, Deque.len. cbn.
  repeat split; try lia; try discriminate.
  exists 0. split; [reflexivity | lia].
Qed.

(** X19: the driver over a data file.  A file with one data row or
    none stops the module with [IndexError] before any call.  For a
    file with two rows or more and every number [n] of calls, the calls
    all return: the first [min n (number of rows)] of them give the
    torque values of the rows in order, each with a phase in [[0,5]]
    whatever the feeds are (NaN included), and the calls after the last
    row give [None]; the position ends at [min n (number of rows)]. *)
Theorem driver_run (rows : list (Q * Float.t)) (n : nat) :
  ((length rows < 2)%nat -> Example.start rows = Raise IndexError)
  /\ ((2 <= length rows)%nat ->
      exists (g0 g : Example.t) (results : list (option (Q * option Z))),
        Example.start rows = Ok g0
        /\ Example.poll n g0 = Ok (results, g)
        /\ map (option_map fst) results
           = (map Some (firstn n (map fst rows))
              ++ repeat None (n - length rows))%list
        /\ Forall (phase_among [0; 1; 2; 3; 4; 5]) results
        /\ Example.index g = Nat.min n (length rows)).
Proof.
  split; [apply start_short|]. intros Hrows.
  destruct (start_ok rows Hrows) as (g0 & Hstart & Hok & Hi0 & Hd0 & _).
  destruct (poll_run n g0 Hok) as (results & g & Hpoll & Hvals & Hph & Hi & _).
  exists g0, g, results.
  split; [exact Hstart|]. split; [exact Hpoll|].
  unfold Example.data in Hvals. rewrite Hi0, Hd0 in *.
  cbn [skipn] in Hvals. rewrite Nat.sub_0_r in Hvals.
  split; [exact Hvals|]. split; [exact Hph|]. rewrite Hi. lia.
Qed.

(** A call that leaves the window short of full predicts 0. *)
Lemma process_sample_before_full (k : Z) (s : TEPS.t) (x : Q) :
  filling_inv k s ->
  k + 1 < TEPS.ignore_start s + TEPS.hist_size s ->
  exists s' : TEPS.t,
    TEPS.process_sample x s = Ok (output 0 s, s')
    /\ filling_inv (k + 1) s'
    /\ TEPS.hist_size s' = TEPS.hist_size s
    /\ TEPS.weights s' = TEPS.weights s.
Proof.
  intros (Hk & Hpos & Hign & Hmax & Hstart & Hlen & Hbelow) Hnext.
  destruct (Z.lt_ge_cases k (TEPS.ignore_start s)) as [Hwarm | Hact].
  - exists (skipped s). split.
    + assert (Hp : TEPS.predict (skipped s) = Ok (0, skipped s))
        by (apply predict_short; unfold skipped; simpl; lia).
      rewrite (process_sample_warmup s x 0 ltac:(lia) Hp). reflexivity.
    + unfold filling_inv, skipped. simpl.
      repeat split; try assumption; lia.
  - destruct (process_sample_filling s x) as [Hps Hitems]; try lia.
    exists (decayed (pushed s x)). split; [exact Hps|].
    destruct (decayed_fields (pushed s x))
      as (_ & _ & _ & _ & _ & G6 & G7 & _ & _ & G10 & G11 & G12 & _).
    assert (Hmax1 : Deque.maxlen (TEPS.x_hist (decayed (pushed s x)))
                    = Deque.maxlen (TEPS.x_hist s)).
    { rewrite G11. unfold pushed. cbn [TEPS.x_hist TEPS.set_x_hist].
      rewrite append_short by lia. reflexivity. }
    assert (Hlen1 : Deque.len (TEPS.x_hist (decayed (pushed s x)))
                    = Deque.len (TEPS.x_hist s) + 1).
    { unfold Deque.len. rewrite Hitems, length_app. simpl. lia. }
    unfold filling_inv. rewrite Hmax1, Hlen1, G6, G7, G10, G12.
    unfold pushed. simpl.
    repeat split; try assumption; lia.
Qed.

Lemma poll_idle (n : nat) :
  forall (g : Example.t) (k : Z),
    driver_ok g ->
    filling_inv k (Example.teps g) ->
    k + Z.of_nat n
    < TEPS.ignore_start (Example.teps g) + TEPS.hist_size (Example.teps g) ->
    (exists l, Example.last_phase g = Some l /\ (l = 0 \/ l = 1 \/ l = 5)) ->
    Forall (fun row => is_number (snd row)) (Example.data_ g) ->
    exists (results : list (option (Q * option Z))) (g' : Example.t),
      Example.poll n g = Ok (results, g')
      /\ Forall (phase_among [0; 1; 5]) results.
Proof.
  induction n as [|n IH];
    intros g k Hok Hinv Hbelow (l & Hlast & Hl) Hnums.
  - exists [], g. split; [reflexivity | constructor].
  - destruct (Nat.le_gt_cases (length (Example.data_ g)) (Example.index g))
      as [Hend | Hidx].
    + destruct (IH g k Hok Hinv ltac:(lia)) as (rs & g' & Hpoll & Hph);
        [exists l; now split | exact Hnums |].
      exists (None :: rs), g'. split.
      * exact (poll_cons n g g g' None rs
                 (get_next_sample_done g Hend) Hpoll).
      * constructor; [exact I | exact Hph].
    + set (row := nth (Example.index g) (Example.data_ g) (0%Q, Float.Num 0)).
      destruct (process_sample_before_full k (Example.teps g) (fst row) Hinv)
        as (s' & Hps & Hinv1 & Hh & Hw); [lia|].
      assert (Hnum : is_number (snd row)).
      { rewrite Forall_forall in Hnums. apply Hnums.
        apply nth_In. exact Hidx. }
      destruct (phase_value_idle l (snd row) Hnum Hl) as (p & Hp & Hpr).
      pose proof (get_next_sample_row g l 0 _ s' Hidx Hlast Hps) as Hstep.
      fold row in Hstep. rewrite Hp in Hstep.
      destruct Hok as (Hpos & Hws & _).
      destruct (IH (Example.mk s' (Example.data_ g) (S (Example.index g))
                      (Some p)) (k + 1))
        as (rs & g' & Hpoll & Hph).
      * unfold driver_ok. cbn [Example.teps Example.last_phase].
        split; [rewrite Hh; exact Hpos|].
        split; [rewrite Hw; exact Hws|].
        exists p. split; [reflexivity | lia].
      * exact Hinv1.
      * cbn [Example.teps].
        destruct Hinv1 as (_ & _ & _ & _ & _ & _ & _).
        rewrite Hh.
        assert (Hi : TEPS.ignore_start s'
                     = TEPS.ignore_start (Example.teps g)).
        { apply process_sample_keeps in Hps.
          destruct Hps as ((_ & _ & _ & K4 & _) & _). exact K4. }
        rewrite Hi. lia.
      * exists p. now split.
      * exact Hnums.
      * eexists (_ :: rs), g'. split.
        -- exact (poll_cons n g _ g' _ rs Hstep Hpoll).
        -- constructor; [|exact Hph]. cbn. lia.
Qed.

(** X20: the driver of the example (warm-up 30, window 20) reports no
    drilling before the window is full: for every file of two rows or
    more whose feeds are numbers (none of them NaN), the first 49 calls
    all return, and every phase they report is 0, 1 or 5. *)
Theorem driver_idle_until_window_full
  (rows : list (Q * Float.t)) (n : nat) :
  (2 <= length rows)%nat ->
  Forall (fun row => is_number (snd row)) rows ->
  (n <= 49)%nat ->
  exists (g0 g : Example.t) (results : list (option (Q * option Z))),
    Example.start rows = Ok g0
    /\ Example.poll n g0 = Ok (results, g)
    /\ Forall (phase_among [0; 1; 5]) results.
Proof.
  intros Hrows Hnums Hn.
  destruct (start_ok rows Hrows)
    as (g0 & Hstart & Hok & _ & Hd0 & Hlast & Hinv & Hi & Hh).
  destruct (poll_idle n g0 0 Hok Hinv) as (results & g & Hpoll & Hph).
  - rewrite Hi, Hh. lia.
  - exists 0. split; [exact Hlast | now left].
  - rewrite Hd0. exact Hnums.
  - exists g0, g, results. repeat split; assumption.
Qed.

(** ** The buffers of the animation *)

Lemma consecutive_length {A} (l : list A) :
  length (Animation.consecutive l) = (length l - 1)%nat.
Proof.
  induction l as [|p [|q r] IH]; try reflexivity.
  cbn [Animation.consecutive length] in *. rewrite IH. lia.
Qed.

Lemma tl_last_n {A} (l : list A) (x : A) :
  tl (l ++ [x]) = last_n (length l) (l ++ [x]).
Proof.
  unfold last_n. rewrite length_app. simpl length.
  replace (length l + 1 - length l)%nat with 1%nat by lia.
  destruct (l ++ [x])%list; reflexivity.
Qed.

Lemma update_stops (s : Animation.t) :
  (length (Example.data_ (Animation.driver s))
   <= Example.index (Animation.driver s))%nat ->
  Animation.update s
  = Ok (tt, Animation.mk (Animation.driver s) (Animation.xdata s)
              (Animation.ydata s) (Animation.phase_history s)
              (Animation.history_maxlen s) (Animation.segments s)
              (Animation.colors s) false).
Proof.
  intros Hend. unfold Animation.update, bind at 1, Animation.on_driver.
  rewrite (get_next_sample_done _ Hend). reflexivity.
Qed.

Lemma update_draws (window_size : Z) (s : Animation.t) :
  buffers_ok window_size s ->
  driver_ok (Animation.driver s) ->
  (Example.index (Animation.driver s)
   < length (Example.data_ (Animation.driver s)))%nat ->
  exists (p : Z) (s' : Animation.t),
    Animation.update s = Ok (tt, s')
    /\ buffers_ok window_size s'
    /\ driver_ok (Animation.driver s')
    /\ Example.index (Animation.driver s')
       = S (Example.index (Animation.driver s))
    /\ Example.data_ (Animation.driver s')
       = Example.data_ (Animation.driver s)
    /\ Animation.running s' = Animation.running s
    /\ 0 <= p <= 5
    /\ Animation.ydata s'
       = last_n (Z.to_nat window_size)
           (Animation.ydata s
            ++ [fst (nth (Example.index (Animation.driver s))
                         (Example.data_ (Animation.driver s)) (0%Q, Float.Num 0))])
    /\ Animation.phase_history s'
       = last_n (Z.to_nat window_size)
           (Animation.phase_history s ++ [Some p])
    /\ length (Animation.segments s') = (Z.to_nat window_size - 1)%nat
    /\ Animation.colors s'
       = map Animation.color_of (tl (Animation.phase_history s')).
Proof.
  intros (Hws & Hmax & Hx & Hy & Hh & Hc) Hok Hidx.
  destruct (get_next_sample_step _ Hok Hidx)
    as (te & p & means & g' & _ & _ & Hstep & Hp & _ & Hi & _ & Hd & Hok').
  set (value := fst (nth (Example.index (Animation.driver s))
                         (Example.data_ (Animation.driver s)) (0%Q, Float.Num 0)))
    in *.
  assert (Hy' : length (tl (Animation.ydata s ++ [value]))
                = Z.to_nat window_size).
  { rewrite tl_last_n, last_n_length, length_app. simpl. lia. }
  assert (Hhist : Animation.history_append (Animation.history_maxlen s)
                    (Animation.phase_history s) (Some p)
                  = tl (Animation.phase_history s ++ [Some p])).
  { unfold Animation.history_append. rewrite length_app, Hh, Hmax.
    simpl length.
    destruct (_ >? _) eqn:E; bool_to_prop; [reflexivity | lia]. }
  assert (Htest : (length (Animation.xdata s)
                   =? length (tl (Animation.ydata s ++ [value])))%nat
                  = true)
    by (apply Nat.eqb_eq; lia).
  exists p.
  eexists. split.
  - unfold Animation.update, bind at 1, Animation.on_driver.
    rewrite Hstep. unfold bind at 1, get at 1.
    cbn [Animation.xdata Animation.ydata Animation.phase_history
         Animation.history_maxlen].
    rewrite Htest. cbn [negb]. unfold modify.
    cbn [Animation.xdata Animation.ydata Animation.phase_history
         Animation.history_maxlen Animation.driver Animation.segments
         Animation.colors Animation.running].
    reflexivity.
  - cbn [Animation.xdata Animation.ydata Animation.phase_history
         Animation.history_maxlen Animation.driver Animation.segments
         Animation.colors Animation.running].
    rewrite Hhist.
    assert (Hh' : length (tl (Animation.phase_history s ++ [Some p]))
                  = Z.to_nat window_size).
    { rewrite tl_last_n, last_n_length, length_app. simpl. lia. }
    split.
    { unfold buffers_ok.
      cbn [Animation.xdata Animation.ydata Animation.phase_history
           Animation.history_maxlen Animation.colors].
      repeat split; try assumption.
      rewrite length_map.
      destruct (tl (Animation.phase_history s ++ [Some p])); simpl in *;
        lia. }
    split; [exact Hok'|]. split; [exact Hi|]. split; [exact Hd|].
    split; [reflexivity|]. split; [exact Hp|].
    split; [rewrite tl_last_n, Hy; reflexivity|].
    split; [rewrite tl_last_n, Hh; reflexivity|].
    split; [|reflexivity].
    rewrite consecutive_length, length_combine, Hx, Hy'. lia.
Qed.

Lemma frames_run (window_size : Z) (n : nat) :
  forall s : Animation.t,
    buffers_ok window_size s ->
    driver_ok (Animation.driver s) ->
    Animation.running s = true ->
    exists s' : Animation.t,
      Animation.frames n s = Ok (tt, s')
      /\ buffers_ok window_size s'
      /\ Animation.ydata s'
         = last_n (Z.to_nat window_size)
             (Animation.ydata s
              ++ firstn n (skipn (Example.index (Animation.driver s))
                             (Example.data (Animation.driver s))))
      /\ Animation.running s'
         = (n <=? length (Example.data_ (Animation.driver s))
                  - Example.index (Animation.driver s))%nat.
Proof.
  induction n as [|n IH]; intros s Hbuf Hok Hrun.
  - exists s. split; [reflexivity|]. split; [exact Hbuf|].
    cbn [firstn]. rewrite app_nil_r. split; [|exact Hrun].
    symmetry. apply last_n_all.
    destruct Hbuf as (_ & _ & _ & Hy & _). lia.
  - destruct (Nat.le_gt_cases
                (length (Example.data_ (Animation.driver s)))
                (Example.index (Animation.driver s))) as [Hend | Hidx].
    + eexists. split.
      * cbn [Animation.frames]. unfold bind at 1.
        rewrite (update_stops s Hend). unfold bind at 1, get at 1.
        cbn [Animation.running]. reflexivity.
      * split; [exact Hbuf|].
        cbn [Animation.ydata Animation.running].
        unfold Example.data.
        rewrite skipn_all2 by (rewrite length_map; lia).
        rewrite firstn_nil, app_nil_r. split.
        -- symmetry. apply last_n_all.
           destruct Hbuf as (_ & _ & _ & Hy & _). lia.
        -- symmetry. apply Nat.leb_gt. lia.
    + destruct (update_draws window_size s Hbuf Hok Hidx)
        as (p & s1 & Hup & Hbuf1 & Hok1 & Hi1 & Hd1 & Hrun1 & _ & Hy1 & _).
      destruct (IH s1 Hbuf1 Hok1 ltac:(congruence))
        as (s' & Hfr & Hbuf' & Hy' & Hrun').
      exists s'. split.
      * cbn [Animation.frames]. unfold bind at 1. rewrite Hup.
        unfold bind at 1, get at 1. rewrite Hrun1, Hrun. exact Hfr.
      * split; [exact Hbuf'|]. split.
        -- rewrite Hy', Hy1, last_n_app, <- app_assoc.
           unfold Example.data. rewrite Hi1, Hd1.
           rewrite (skipn_nth_cons 0%Q
                      (map fst (Example.data_ (Animation.driver s)))
                      (Example.index (Animation.driver s)))
             by (rewrite length_map; lia).
           cbn [firstn app].
           assert (Hval : nth (Example.index (Animation.driver s))
                              (map fst (Example.data_ (Animation.driver s)))
                              0%Q
                          = fst (nth (Example.index (Animation.driver s))
                                     (Example.data_ (Animation.driver s))
                                     (0%Q, Float.Num 0)))
             by (change 0%Q with (fst (0%Q, Float.Num 0)) at 1; apply map_nth).
           rewrite Hval. reflexivity.
        -- rewrite Hrun', Hi1, Hd1.
           destruct (Nat.leb_spec n
                       (length (Example.data_ (Animation.driver s))
                        - S (Example.index (Animation.driver s))));
             symmetry; [apply Nat.leb_le | apply Nat.leb_gt]; lia.
Qed.

(** X21: the buffers of the animation.  For a window size that is not
    negative and every file of two rows or more, any number [n] of
    frames runs without an exception; afterwards [xdata], [ydata] and
    [phase_history] each hold [window_size] items (so the two plotted
    lists always pair up) and there are [window_size - 1] colours;
    [ydata] holds the last [window_size] items of the initial zeros
    followed by the torque values drawn so far; and the event source is
    still running exactly when [n] is at most the number of rows. *)
Theorem animation_buffers
  (rows : list (Q * Float.t)) (window_size : Z) (n : nat) :
  (2 <= length rows)%nat ->
  0 <= window_size ->
  exists (g0 : Example.t) (s0 s : Animation.t),
    Example.start rows = Ok g0
    /\ Animation.setup g0 window_size = Ok s0
    /\ Animation.frames n s0 = Ok (tt, s)
    /\ length (Animation.xdata s) = Z.to_nat window_size
    /\ length (Animation.ydata s) = Z.to_nat window_size
    /\ length (Animation.phase_history s) = Z.to_nat window_size
    /\ length (Animation.colors s) = (Z.to_nat window_size - 1)%nat
    /\ Animation.ydata s
       = last_n (Z.to_nat window_size)
           (repeat 0%Q (Z.to_nat window_size) ++ firstn n (map fst rows))
    /\ Animation.running s = (n <=? length rows)%nat.
Proof.
  intros Hrows Hws.
  destruct (start_ok rows Hrows) as (g0 & Hstart & Hok & Hi0 & Hd0 & _).
  unfold Animation.setup.
  destruct (window_size <? 0) eqn:Hneg; bool_to_prop; [lia|].
  eexists g0, _.
  match goal with
  | |- exists s, _ /\ Ok ?s0 = Ok _ /\ _ =>
      destruct (frames_run window_size n s0)
        as (s & Hfr & (_ & _ & Hx & Hy & Hh & Hc) & Hyd & Hrun)
  end.
  - unfold buffers_ok.
    cbn [Animation.xdata Animation.ydata Animation.phase_history
         Animation.history_maxlen Animation.colors].
    rewrite length_map, length_seq, !repeat_length.
    repeat split; lia.
  - exact Hok.
  - reflexivity.
  - exists s. split; [exact Hstart|]. split; [reflexivity|].
    split; [exact Hfr|].
    cbn [Animation.driver Animation.ydata] in Hyd, Hrun.
    unfold Example.data in Hyd. rewrite Hi0, Hd0 in *.
    cbn [skipn] in Hyd. rewrite Nat.sub_0_r in Hrun.
    repeat split; assumption.
Qed.

(** ** Instances of the further properties *)

Lemma get_phase_label_closed_witness :
  0 <= 3 <= 5
  /\ exists phase : Z,
       0 <= phase <= 5
       /\ TEPS.get_phase_label 3 7 (1 # 2) full_object
          = Ok (Some phase, full_object).
Proof.
  assert (H : 0 <= 3 <= 5) by lia.
  split; [exact H|].
  exact (get_phase_label_closed full_object 3 7 (1 # 2) H).
Defined.

Lemma get_phase_label_rapid_iff_witness :
  0 <= 2 <= 5
  /\ (TEPS.get_phase_label 2 1 2000 full_object = Ok (Some 0, full_object)
      <-> (1000 < Qabs 2000)%Q).
Proof.
  assert (H : 0 <= 2 <= 5) by lia.
  split; [exact H|].
  exact (get_phase_label_rapid_iff full_object 2 1 2000 H).
Defined.

Lemma get_phase_label_drilling_labels_witness :
  FloatFeed.get_phase_label 2 0 (Float.Num (- (5))) full_object
  = Ok (Some 3, full_object)
  /\ (2 = 2 \/ 2 = 3) /\ 0 < 1 /\ feed_negative (Float.Num (- (5))).
Proof.
  assert (H : FloatFeed.get_phase_label 2 0 (Float.Num (- (5))) full_object
              = Ok (Some 3, full_object)) by reflexivity.
  split; [exact H|].
  exact (proj1 (get_phase_label_drilling_labels
                  full_object full_object 2 0 (Float.Num (- (5))) 3 H)
               eq_refl).
Defined.

Lemma get_phase_label_settles_witness :
  0 <= 4 <= 5
  /\ (1 = 0 \/ 1 = 1)
  /\ FloatFeed.get_phase_label 4 1 (Float.Num (- (5))) full_object
     = Ok (Some 1, full_object)
  /\ FloatFeed.get_phase_label 1 1 (Float.Num (- (5))) full_object
     = Ok (Some 2, full_object)
  /\ is_number (Float.Num (- (5)))
  /\ FloatFeed.get_phase_label 2 1 (Float.Num (- (5))) full_object
     = Ok (Some 2, full_object).
Proof.
  assert (H1 : 0 <= 4 <= 5) by lia.
  assert (H2 : 1 = 0 \/ 1 = 1) by (right; reflexivity).
  assert (H3 : FloatFeed.get_phase_label 4 1 (Float.Num (- (5))) full_object
               = Ok (Some 1, full_object)) by reflexivity.
  assert (H4 : FloatFeed.get_phase_label 1 1 (Float.Num (- (5))) full_object
               = Ok (Some 2, full_object)) by reflexivity.
  assert (H5 : is_number (Float.Num (- (5)))) by discriminate.
  repeat (split; [assumption|]).
  exact (proj1 (get_phase_label_settles
                  full_object 4 1 (Float.Num (- (5))) 1 2 H1 H2 H3 H4) H5).
Defined.

Lemma compute_rolling_stats_bounds_witness :
  Deque.items (TEPS.x_hist full_object) <> []
  /\ exists x_min x_max x_mean : Q,
       TEPS.compute_rolling_stats full_object
       = Ok ((Some x_min, Some x_max, Some x_mean), full_object)
       /\ In x_min (Deque.items (TEPS.x_hist full_object))
       /\ In x_max (Deque.items (TEPS.x_hist full_object)).
Proof.
  assert (H : Deque.items (TEPS.x_hist full_object) <> []) by discriminate.
  split; [exact H|].
  destruct (proj2 (compute_rolling_stats_bounds full_object) H)
    as (x_min & x_max & x_mean & E & I1 & I2 & _).
  exists x_min, x_max, x_mean. repeat split; assumption.
Defined.

Lemma compute_cluster_distance_metric_witness :
  TEPS.weights full_object = (1, 1, 1)%Q
  /\ (0 <= 1)%Q /\ (0 < 1 + 1 + 1)%Q
  /\ exists d : Q,
       TEPS.compute_cluster_distance
         (Stored AirCluster) (Some (- (2))%Q) (Some 0%Q) (Some (- (1))%Q)
         full_object = Ok (d, full_object)
       /\ (0 <= d)%Q.
Proof.
  assert (H0 : TEPS.weights full_object = (1, 1, 1)%Q) by reflexivity.
  assert (H1 : (0 <= 1)%Q) by evaluate.
  assert (H2 : (0 < 1 + 1 + 1)%Q) by evaluate.
  repeat (split; [assumption|]).
  destruct (compute_cluster_distance_metric
              full_object (Stored AirCluster) (- (2)) 0 (- (1)) 1 1 1
              H0 H1 H1 H1 H2) as (d & E & Hd & _).
  exists d. split; assumption.
Defined.

Lemma process_sample_returns_witness :
  0 < TEPS.hist_size full_object
  /\ ~ (weight_sum (TEPS.weights full_object) == 0)%Q
  /\ exists (p : Z) (s' : TEPS.t),
       TEPS.process_sample 0 full_object
       = Ok ((p, (Cluster.mean (TEPS.air_cluster s'),
                  Cluster.mean (TEPS.drill_cluster s'))), s')
       /\ (p = 0 \/ p = 1).
Proof.
  assert (Hpos : 0 < TEPS.hist_size full_object) by evaluate.
  assert (Hw : ~ (weight_sum (TEPS.weights full_object) == 0)%Q)
    by evaluate.
  repeat (split; [assumption|]).
  exact (process_sample_returns full_object 0 Hpos Hw).
Defined.

Lemma run_keeps_configuration_witness :
  exists s0 : TEPS.t,
    fixed_zero_config = Ok s0
    /\ Forall (fun s => TEPS.hist_size s = 3
                        /\ Cluster.count (TEPS.air_cluster s) = 0
                        /\ Cluster.ready (TEPS.drill_cluster s) = false)
              (states s0 [0; 0; 0; 0]%Q).
Proof.
  eexists. split; [reflexivity|].
  eapply Forall_impl;
    [|exact (run_keeps_configuration
               (0, 0, 0)%Q (- (3 # 2), - (3 # 2), - (3 # 2))%Q 0 "fixed"
               TEPS.default_min_distance_threshold 3
               TEPS.default_weights TEPS.default_factor
               TEPS.default_a_init TEPS.default_a_min
               TEPS.default_decay_factor _ [0; 0; 0; 0]%Q eq_refl)].
  intros s ((_ & _ & _ & _ & _ & _ & Hh & _) & (Hc & _ & _ & _ & Hr)).
  repeat split; assumption.
Defined.


Lemma run_before_full_window_witness :
  0 < 20 /\ 0 <= 30
  /\ Z.of_nat (length [1; 2; 3]%Q) < 30 + 20
  /\ exists s0 s' : TEPS.t,
       TEPS.__init__ (0, 0, 0)%Q (- (3 # 2), - (3 # 2), - (3 # 2))%Q
                     30 "min_distance" (15 # 100) 20
                     TEPS.default_weights 1 TEPS.default_a_init
                     TEPS.default_a_min TEPS.default_decay_factor = Ok s0
       /\ feed [1; 2; 3]%Q s0
          = Ok (repeat (0, (0%Q, (- (3 # 2))%Q)) 3, s').
Proof.
  assert (H1 : 0 < 20) by lia.
  assert (H2 : 0 <= 30) by lia.
  assert (H3 : Z.of_nat (length [1; 2; 3]%Q) < 30 + 20) by evaluate.
  repeat (split; [assumption|]).
  destruct (run_before_full_window
              0 0 0 (- (3 # 2)) (- (3 # 2)) (- (3 # 2)) 30 "min_distance"
              (15 # 100) 20 TEPS.default_weights 1 TEPS.default_a_init
              TEPS.default_a_min TEPS.default_decay_factor [1; 2; 3]%Q
              H1 H2 H3) as (s0 & s' & Hnew & Hfeed & _).
  exists s0, s'. split; assumption.
Defined.

Lemma zero_weights_raise_at_full_window_witness :
  0 < 2 /\ 0 <= 1 /\ (weight_sum (0, 0, 0) == 0)%Q
  /\ exists s0 : TEPS.t,
       TEPS.__init__ TEPS.default_start_mean_air
                     TEPS.default_start_mean_drill 1 "fixed"
                     TEPS.default_min_distance_threshold 2 (0, 0, 0)%Q
                     TEPS.default_factor TEPS.default_a_init
                     TEPS.default_a_min TEPS.default_decay_factor = Ok s0
       /\ feed [0; 0; 0]%Q s0 = Raise ZeroDivisionError.
Proof.
  assert (H1 : 0 < 2) by lia.
  assert (H2 : 0 <= 1) by lia.
  assert (H3 : (weight_sum (0, 0, 0) == 0)%Q) by evaluate.
  repeat (split; [assumption|]).
  destruct (zero_weights_raise_at_full_window
              TEPS.default_start_mean_air TEPS.default_start_mean_drill 1
              "fixed" TEPS.default_min_distance_threshold 2 (0, 0, 0)%Q
              TEPS.default_factor TEPS.default_a_init TEPS.default_a_min
              TEPS.default_decay_factor [0; 0; 0]%Q H1 H2 H3)
    as (s0 & Hnew & _ & Hraise).
  exists s0. split; [exact Hnew|]. apply Hraise. evaluate.
Defined.

Lemma window_holds_latest_samples_witness :
  exists (s' : TEPS.t) (outs : list (Z * (Q * Q))),
    fixed_zero_config = Ok fixed_zero_object
    /\ feed [1; 2; 3; 4; 5]%Q fixed_zero_object = Ok (outs, s')
    /\ Deque.items (TEPS.x_hist s') = [3; 4; 5]%Q.
Proof.
  assert (Hfeed : exists r, feed [1; 2; 3; 4; 5]%Q fixed_zero_object = Ok r)
    by (vm_compute; eexists; reflexivity).
  destruct Hfeed as ([outs s'] & Hfeed).
  exists s', outs. split; [reflexivity|]. split; [exact Hfeed|].
  exact (proj1 (window_holds_latest_samples
                  (0, 0, 0)%Q (- (3 # 2), - (3 # 2), - (3 # 2))%Q 0 "fixed"
                  TEPS.default_min_distance_threshold 3
                  TEPS.default_weights TEPS.default_factor
                  TEPS.default_a_init TEPS.default_a_min
                  TEPS.default_decay_factor fixed_zero_object s'
                  [1; 2; 3; 4; 5]%Q outs ltac:(lia) eq_refl Hfeed)).
Defined.


Lemma get_phase_label_idle_closed_witness :
  is_number (Float.Num 1)
  /\ (4 = 0 \/ 4 = 1 \/ 4 = 4 \/ 4 = 5)
  /\ exists phase : Z,
       FloatFeed.get_phase_label 4 0 (Float.Num 1) full_object
       = Ok (Some phase, full_object)
       /\ (phase = 0 \/ phase = 1 \/ phase = 5).
Proof.
  assert (H0 : is_number (Float.Num 1)) by discriminate.
  assert (H : 4 = 0 \/ 4 = 1 \/ 4 = 4 \/ 4 = 5)
    by (right; right; left; reflexivity).
  split; [exact H0|]. split; [exact H|].
  exact (get_phase_label_idle_closed full_object 4 (Float.Num 1) H0 H).
Defined.

Lemma sample_driver_ok : driver_ok sample_driver.
Proof.
  unfold driver_ok, sample_driver. cbn [Example.teps Example.last_phase].
  split; [evaluate|]. split; [evaluate|].
  exists 0. split; [reflexivity | lia].
Defined.

Lemma get_next_sample_spec_witness :
  driver_ok sample_driver
  /\ (Example.index sample_driver
      < length (Example.data_ sample_driver))%nat
  /\ exists (p : Z) (g' : Example.t),
       Example.get_next_sample sample_driver = Ok (Some (1%Q, Some p), g')
       /\ 0 <= p <= 5
       /\ Example.index g' = 1%nat.
Proof.
  assert (Hidx : (Example.index sample_driver
                  < length (Example.data_ sample_driver))%nat)
    by (cbn; lia).
  split; [exact sample_driver_ok|]. split; [exact Hidx|].
  destruct (proj2 (get_next_sample_spec sample_driver sample_driver_ok) Hidx)
    as (p & g' & Hstep & Hp & _ & Hi & _).
  exists p, g'. repeat split; try assumption; apply Hp.
Defined.

Lemma driver_run_witness :
  (2 <= length sample_rows)%nat
  /\ exists (g0 g : Example.t) (results : list (option (Q * option Z))),
       Example.start sample_rows = Ok g0
       /\ Example.poll 3 g0 = Ok (results, g)
       /\ map (option_map fst) results = [Some 1%Q; Some 2%Q; None]
       /\ Example.index g = 2%nat.
Proof.
  assert (H : (2 <= length sample_rows)%nat) by (cbn; lia).
  split; [exact H|].
  destruct (proj2 (driver_run sample_rows 3) H)
    as (g0 & g & results & Hstart & Hpoll & Hvals & _ & Hi).
  exists g0, g, results. repeat split; assumption.
Defined.

Lemma driver_idle_until_window_full_witness :
  (2 <= length sample_rows)%nat
  /\ Forall (fun row => is_number (snd row)) sample_rows
  /\ (2 <= 49)%nat
  /\ exists (g0 g : Example.t) (results : list (option (Q * option Z))),
       Example.start sample_rows = Ok g0
       /\ Example.poll 2 g0 = Ok (results, g)
       /\ Forall (phase_among [0; 1; 5]) results.
Proof.
  assert (H1 : (2 <= length sample_rows)%nat) by (cbn; lia).
  assert (H2 : Forall (fun row => is_number (snd row)) sample_rows)
    by (repeat constructor; discriminate).
  assert (H3 : (2 <= 49)%nat) by lia.
  repeat (split; [assumption|]).
  exact (driver_idle_until_window_full sample_rows 2 H1 H2 H3).
Defined.

Lemma animation_buffers_witness :
  (2 <= length sample_rows)%nat
  /\ 0 <= 3
  /\ exists (g0 : Example.t) (s0 s : Animation.t),
       Example.start sample_rows = Ok g0
       /\ Animation.setup g0 3 = Ok s0
       /\ Animation.frames 2 s0 = Ok (tt, s)
       /\ Animation.ydata s = [0; 1; 2]%Q
       /\ Animation.running s = true.
Proof.
  assert (H1 : (2 <= length sample_rows)%nat) by (cbn; lia).
  assert (H : 0 <= 3) by lia.
  split; [exact H1|]. split; [exact H|].
  destruct (animation_buffers sample_rows 3 2 H1 H)
    as (g0 & s0 & s & Hstart & Hsetup & Hfr & _ & _ & _ & _ & Hy & Hrun).
  exists g0, s0, s. repeat split; assumption.
Defined.
